(** * MitreAtlas: the coverage pipeline of [mitreatlas.py]

    A shallow embedding of the corpus loader, the match extraction, the
    per-tactic coverage computation, the technique extraction and the
    match-building loop of [mitre_semantic], followed by the properties
    the specification states about them.

    Conventions of the embedding:
    - a document parsed by [json.load] is a [json] value; a Python [dict]
      read from JSON is an association list, read by its first binding,
      whose key order is the order of first occurrence;
    - a Python exception is an [Err] carrying the exception class, and
      every source function that can raise returns a [result];
    - Python floats are IEEE 754 binary64 numbers, computed with the
      Standard Library's [SpecFloat] operations at precision 53;
    - [defaultdict(set)] and [dict] keep insertion order and compare keys
      with Python's [==], under which [True], [1] and [1.0] are one key;
    - a string is a sequence of characters, one [ascii] per character. *)

From Stdlib Require Import ZArith List String Ascii Bool Lia Permutation.
From Stdlib Require Import SpecFloat.
Import ListNotations.

Open Scope string_scope.
Open Scope Z_scope.
Open Scope list_scope.

(* ================================================================== *)
(** ** Exceptions and the error monad *)

(** The exceptions the code and what it calls can raise. All but the
    last are subclasses of [Exception]. [KeyboardInterrupt] stands for
    what a called library or the terminal lets out from outside
    [Exception] (Ctrl-C at a prompt, a [SystemExit] of a library): no
    statement of the tool raises it, and no [except Exception] catches
    it. *)
Inductive exn : Type :=
| AttributeError
| TypeError
| KeyError
| IndexError
| ZeroDivisionError
| OverflowError
| FileNotFoundError
| JSONDecodeError
| LibraryError
| KeyboardInterrupt.

Inductive result (A : Type) : Type :=
| Ok (a : A)
| Err (e : exn).

Arguments Ok {A} a.
Arguments Err {A} e.

Definition bind {A B : Type} (r : result A) (k : A -> result B) : result B :=
  match r with
  | Ok a => k a
  | Err e => Err e
  end.

Notation "x <- c ;; k" := (bind c (fun x => k))
  (at level 61, c at next level, right associativity).

Definition exn_eqb (a b : exn) : bool :=
  match a, b with
  | AttributeError, AttributeError
  | TypeError, TypeError
  | KeyError, KeyError
  | IndexError, IndexError
  | ZeroDivisionError, ZeroDivisionError
  | OverflowError, OverflowError
  | FileNotFoundError, FileNotFoundError
  | JSONDecodeError, JSONDecodeError
  | LibraryError, LibraryError
  | KeyboardInterrupt, KeyboardInterrupt => true
  | _, _ => false
  end.

(** [isinstance(e, Exception)]. *)
Definition is_exception (e : exn) : bool :=
  match e with
  | KeyboardInterrupt => false
  | _ => true
  end.

(** [raises e r]: the computation [r] ended by raising [e]. *)
Definition raises {A : Type} (e : exn) (r : result A) : bool :=
  match r with
  | Ok _ => false
  | Err e' => exn_eqb e e'
  end.

(** A [for] loop whose body may raise: the accumulator is threaded
    through the elements in order and the first exception ends the loop. *)
Fixpoint for_each {A S : Type} (body : S -> A -> result S) (l : list A) (s : S)
  : result S :=
  match l with
  | [] => Ok s
  | x :: l' => s' <- body s x ;; for_each body l' s'
  end.

(** A list comprehension whose element expression may raise and whose
    filter may drop the element ([None]). *)
Fixpoint comprehension {A B : Type} (f : A -> result (option B)) (l : list A)
  : result (list B) :=
  match l with
  | [] => Ok []
  | x :: l' =>
      o <- f x ;;
      rest <- comprehension f l' ;;
      Ok (match o with Some y => y :: rest | None => rest end)
  end.

(** A list comprehension without a filter. *)
Fixpoint map_result {A B : Type} (f : A -> result B) (l : list A)
  : result (list B) :=
  match l with
  | [] => Ok []
  | x :: l' =>
      y <- f x ;;
      rest <- map_result f l' ;;
      Ok (y :: rest)
  end.

(* ================================================================== *)
(** ** Python floats: IEEE 754 binary64 *)

Definition prec : Z := 53.
Definition emax : Z := 1024.

Definition float : Type := spec_float.

(** An integer as an exact (not yet rounded) binary number. *)
Definition exact_int (z : Z) : float :=
  match z with
  | Z0 => S754_zero false
  | Zpos p => S754_finite false p 0
  | Zneg p => S754_finite true p 0
  end.

(** [float(z)]: the integer rounded to the nearest binary64. *)
Definition float_of_int (z : Z) : float := binary_normalize prec emax z 0 false.

(** [a / b] on two Python ints: the correctly rounded quotient;
    [ZeroDivisionError] on a zero divisor, [OverflowError] when the
    quotient is too large for a float. *)
Definition int_true_divide (a b : Z) : result float :=
  if b =? 0 then Err ZeroDivisionError
  else match SFdiv prec emax (exact_int a) (exact_int b) with
       | S754_infinity _ => Err OverflowError
       | q => Ok q
       end.

(** [x * n] for a float [x] and an int [n]. *)
Definition float_mul_int (x : float) (n : Z) : float :=
  SFmul prec emax x (float_of_int n).

(** [round(x, ndigits)] on a float, [ndigits >= 0]: the exact binary value
    is rounded half-to-even at [ndigits] decimals and the decimal result is
    read back as the nearest binary64; infinities and NaN round to
    themselves, and a float with no fractional bit is returned as it is. *)
Definition float_round (x : float) (ndigits : nat) : float :=
  match x with
  | S754_finite s m e =>
      if 0 <=? e then x
      else
        let scale := 10 ^ Z.of_nat ndigits in
        let num := Zpos m * scale in
        let den := 2 ^ (- e) in
        let q := num / den in
        let r := num mod den in
        let n := match 2 * r ?= den with
                 | Lt => q
                 | Gt => q + 1
                 | Eq => if Z.even q then q else q + 1
                 end in
        match n with
        | Zpos p => SFdiv prec emax (S754_finite s p 0) (exact_int scale)
        | _ => S754_zero s
        end
  | _ => x
  end.

(** A Python number as the coverage code produces it: the literal [0] of
    the empty-total branch is an [int], every other score a [float]. *)
Inductive number : Type :=
| NInt (z : Z)
| NFloat (f : float).

(** [round(n, ndigits)]: an [int] is returned unchanged for [ndigits >= 0]. *)
Definition py_round (n : number) (ndigits : nat) : number :=
  match n with
  | NInt z => NInt z
  | NFloat f => NFloat (float_round f ndigits)
  end.

(* ================================================================== *)
(** ** JSON values *)

(** The hashable values [json.load] produces. *)
Inductive atom : Type :=
| ANone
| ABool (b : bool)
| AInt (z : Z)
| AFloat (f : float)
| AStr (s : string).

#[local] Unset Elimination Schemes.
Inductive json : Type :=
| JAtom (a : atom)
| JArr (items : list json)
| JObj (fields : list (string * json)).
#[local] Set Elimination Schemes.

Coercion JAtom : atom >-> json.

Definition JNone : json := JAtom ANone.
Definition JFalse : json := JAtom (ABool false).
Definition JTrue : json := JAtom (ABool true).
Definition JStr (s : string) : json := JAtom (AStr s).
Definition JInt (z : Z) : json := JAtom (AInt z).
Definition JNum (n : number) : json :=
  match n with
  | NInt z => JAtom (AInt z)
  | NFloat f => JAtom (AFloat f)
  end.

(** *** Keys: Python equality on hashable values *)

(** The value a hashable is compared by. Numbers compare by their exact
    value, so a bool, an int and a float of one value are one key:
    [KNum m e] stands for [m * 2^e] with [m] odd, or for zero. *)
Inductive pykey : Type :=
| KNone
| KStr (s : string)
| KNum (m : Z) (e : Z)
| KInf (negative : bool)
| KNan.

Fixpoint odd_part (p : positive) (e : Z) : positive * Z :=
  match p with
  | xO p' => odd_part p' (e + 1)
  | _ => (p, e)
  end.

Definition key_of_dyadic (negative : bool) (m : positive) (e : Z) : pykey :=
  let (m', e') := odd_part m e in
  KNum (if negative then Zneg m' else Zpos m') e'.

Definition key_of_int (z : Z) : pykey :=
  match z with
  | Z0 => KNum 0 0
  | Zpos p => key_of_dyadic false p 0
  | Zneg p => key_of_dyadic true p 0
  end.

Definition key_of (a : atom) : pykey :=
  match a with
  | ANone => KNone
  | ABool b => key_of_int (if b then 1 else 0)
  | AInt z => key_of_int z
  | AFloat (S754_zero _) => KNum 0 0
  | AFloat (S754_infinity s) => KInf s
  | AFloat S754_nan => KNan
  | AFloat (S754_finite s m e) => key_of_dyadic s m e
  | AStr s => KStr s
  end.

Definition pykey_eqb (a b : pykey) : bool :=
  match a, b with
  | KNone, KNone => true
  | KStr s, KStr t => String.eqb s t
  | KNum m e, KNum m' e' => (m =? m') && (e =? e')
  | KInf s, KInf t => Bool.eqb s t
  | KNan, KNan => true
  | _, _ => false
  end.

(** [a == b] on hashables. *)
Definition py_eqb (a b : atom) : bool := pykey_eqb (key_of a) (key_of b).

(** [hash(v)] succeeds on atoms only: a list or a dict is unhashable. *)
Definition hashable (v : json) : result atom :=
  match v with
  | JAtom a => Ok a
  | _ => Err TypeError
  end.

(** *** Operations of the Python runtime on JSON values *)

(** Truth value of an object. *)
Definition truthy (v : json) : bool :=
  match v with
  | JAtom ANone => false
  | JAtom (ABool b) => b
  | JAtom (AInt z) => negb (z =? 0)
  | JAtom (AFloat (S754_zero _)) => false
  | JAtom (AFloat _) => true
  | JAtom (AStr s) => negb (String.eqb s "")
  | JArr items => match items with [] => false | _ => true end
  | JObj fields => match fields with [] => false | _ => true end
  end.

(** [isinstance(v, list)]. *)
Definition is_list (v : json) : bool :=
  match v with
  | JArr _ => true
  | _ => false
  end.

(** [v == s] for a string literal [s]. *)
Definition eq_str (v : json) (s : string) : bool :=
  match v with
  | JAtom (AStr t) => String.eqb t s
  | _ => false
  end.

Fixpoint assoc {V : Type} (k : string) (fields : list (string * V)) : option V :=
  match fields with
  | [] => None
  | (k', v) :: rest => if String.eqb k k' then Some v else assoc k rest
  end.

(** The keys of a dict, each once, in order of first occurrence. *)
Fixpoint dict_keys {V : Type} (fields : list (string * V)) : list string :=
  match fields with
  | [] => []
  | (k, _) :: rest => k :: filter (fun k' => negb (String.eqb k' k)) (dict_keys rest)
  end.

(** [o.get(k, default)]: only a dict has the method. *)
Definition py_get (o : json) (k : string) (default : json) : result json :=
  match o with
  | JObj fields =>
      Ok (match assoc k fields with Some v => v | None => default end)
  | _ => Err AttributeError
  end.

(** [o[k]] for a string [k]: a missing key of a dict is a [KeyError];
    a list or a string takes integer indices only, and the other values
    are not subscriptable. *)
Definition py_getitem (o : json) (k : string) : result json :=
  match o with
  | JObj fields =>
      match assoc k fields with
      | Some v => Ok v
      | None => Err KeyError
      end
  | _ => Err TypeError
  end.

(** [o[0]]. The keys of a dict read from JSON are strings, so the key
    [0] is never found in one. *)
Definition py_getitem0 (o : json) : result json :=
  match o with
  | JArr (x :: _) => Ok x
  | JArr [] => Err IndexError
  | JAtom (AStr (String c _)) => Ok (JStr (String c ""))
  | JAtom (AStr EmptyString) => Err IndexError
  | JObj _ => Err KeyError
  | _ => Err TypeError
  end.

(** [techniques[idx]] on a Python list, for an index that is not
    negative. *)
Definition list_getitem {A : Type} (l : list A) (idx : nat) : result A :=
  match nth_error l idx with
  | Some x => Ok x
  | None => Err IndexError
  end.

Fixpoint is_prefix (p s : string) : bool :=
  match p, s with
  | EmptyString, _ => true
  | String a p', String b s' => Ascii.eqb a b && is_prefix p' s'
  | String _ _, EmptyString => false
  end.

(** [needle in s] on two strings: [needle] occurs in [s]. *)
Fixpoint occurs_in (needle s : string) : bool :=
  is_prefix needle s ||
  match s with
  | EmptyString => false
  | String _ s' => occurs_in needle s'
  end.

(** [needle in o] for a string literal [needle]: substring test on a
    string, membership on a list, key test on a dict. *)
Definition py_contains (needle : string) (o : json) : result bool :=
  match o with
  | JAtom (AStr s) => Ok (occurs_in needle s)
  | JArr items => Ok (existsb (fun x => eq_str x needle) items)
  | JObj fields =>
      Ok (match assoc needle fields with Some _ => true | None => false end)
  | _ => Err TypeError
  end.

(** [iter(o)], run to the end: a list yields its items, a dict its keys,
    a string its characters. *)
Definition py_iter (o : json) : result (list json) :=
  match o with
  | JArr items => Ok items
  | JObj fields => Ok (map JStr (dict_keys fields))
  | JAtom (AStr s) =>
      Ok (map (fun c => JStr (String c "")) (list_ascii_of_string s))
  | _ => Err TypeError
  end.

(* ================================================================== *)
(** ** Sets and dicts keyed by hashables *)

(** A [set]: its elements in insertion order, no two equal under [==]. *)
Definition pyset : Type := list atom.

Definition set_mem (a : atom) (s : pyset) : bool := existsb (py_eqb a) s.

Definition set_add (a : atom) (s : pyset) : pyset :=
  if set_mem a s then s else s ++ [a].

(** [len(s)] as a Python int. *)
Definition len {A : Type} (l : list A) : Z := Z.of_nat (List.length l).

(** A [dict] in insertion order. *)
Definition dict (V : Type) : Type := list (atom * V).

Fixpoint dict_lookup {V : Type} (k : atom) (d : dict V) : option V :=
  match d with
  | [] => None
  | (k', v) :: rest => if py_eqb k k' then Some v else dict_lookup k rest
  end.

Definition dict_mem {V : Type} (k : atom) (d : dict V) : bool :=
  match dict_lookup k d with
  | Some _ => true
  | None => false
  end.

(** [d.get(k, default)]. *)
Definition dict_get {V : Type} (d : dict V) (k : atom) (default : V) : V :=
  match dict_lookup k d with
  | Some v => v
  | None => default
  end.

(** [d[k] = v]: an existing key keeps its place and its first spelling. *)
Fixpoint dict_set {V : Type} (d : dict V) (k : atom) (v : V) : dict V :=
  match d with
  | [] => [(k, v)]
  | (k', v') :: rest =>
      if py_eqb k k' then (k', v) :: rest else (k', v') :: dict_set rest k v
  end.

(** [defaultdict(set)]. *)
Definition defaultdict : Type := dict pyset.

(** [d[k].add(v)] on a [defaultdict(set)]: a missing key is created with
    an empty set before the element is added. *)
Definition dd_add (d : defaultdict) (k v : atom) : defaultdict :=
  dict_set d k (set_add v (dict_get d k [])).

(** The same statement on JSON values, which must both be hashable. *)
Definition defaultdict_add (d : defaultdict) (k v : json) : result defaultdict :=
  k' <- hashable k ;;
  v' <- hashable v ;;
  Ok (dd_add d k' v').

(** [for phase in phases: d[phase].add(v)]. *)
Definition add_to_phases (d : defaultdict) (phases : list json) (v : json)
  : result defaultdict :=
  for_each (fun acc phase => defaultdict_add acc phase v) phases d.

(* ================================================================== *)
(** ** The corpus loader and the match extraction *)

(** One element of the comprehension
    [[p["phase_name"] for p in ... if "phase_name" in p]]. *)
Definition phase_name_if_present (p : json) : result (option json) :=
  present <- py_contains "phase_name" p ;;
  if present then
    v <- py_getitem p "phase_name" ;;
    Ok (Some v)
  else Ok None.

(** The body of the loop over [mitre_data.get("objects", [])]. *)
Definition load_subtechniques_step (tactic_to_subtechniques : defaultdict) (obj : json)
  : result defaultdict :=
  ty <- py_get obj "type" JNone ;;
  if eq_str ty "attack-pattern" then
    revoked <- py_get obj "revoked" JFalse ;;
    if negb (truthy revoked) then
      is_sub <- py_get obj "x_mitre_is_subtechnique" JFalse ;;
      if truthy is_sub then
        external_refs <- py_get obj "external_references" (JArr []) ;;
        if truthy external_refs && is_list external_refs then
          first <- py_getitem0 external_refs ;;
          external_id <- py_get first "external_id" JNone ;;
          kill_chain <- py_get obj "kill_chain_phases" (JArr []) ;;
          ps <- py_iter kill_chain ;;
          phases <- comprehension phase_name_if_present ps ;;
          add_to_phases tactic_to_subtechniques phases external_id
        else Ok tactic_to_subtechniques
      else Ok tactic_to_subtechniques
    else Ok tactic_to_subtechniques
  else Ok tactic_to_subtechniques.

Definition load_subtechniques_by_tactic (mitre_data : json) : result defaultdict :=
  objects <- py_get mitre_data "objects" (JArr []) ;;
  objs <- py_iter objects ;;
  for_each load_subtechniques_step objs [].

(** The body of the loop over [entry["matches"]]. *)
Definition extract_matched_match (matched : defaultdict) (mt : json)
  : result defaultdict :=
  tid <- py_getitem mt "id" ;;
  dotted <- py_contains "." tid ;;
  if dotted then
    phases <- py_get mt "phases" (JArr []) ;;
    ps <- py_iter phases ;;
    add_to_phases matched ps tid
  else Ok matched.

(** The body of the loop over [results_json]. *)
Definition extract_matched_entry (matched : defaultdict) (entry : json)
  : result defaultdict :=
  matches <- py_getitem entry "matches" ;;
  ms <- py_iter matches ;;
  for_each extract_matched_match ms matched.

Definition extract_matched_subtechniques_by_tactic (results_json : json)
  : result defaultdict :=
  entries <- py_iter results_json ;;
  for_each extract_matched_entry entries [].

(* ================================================================== *)
(** ** The coverage aggregator *)

Record tactic_coverage : Type := {
  matched : Z;
  total : Z;
  coverage_percent : number
}.

(** [(len(matched_ids) / len(total_ids)) * 100 if total_ids else 0]. *)
Definition coverage_score (matched_ids total_ids : pyset) : result number :=
  match total_ids with
  | [] => Ok (NInt 0)
  | _ :: _ =>
      q <- int_true_divide (len matched_ids) (len total_ids) ;;
      Ok (NFloat (float_mul_int q 100))
  end.

(** The body of the loop over [total_subs.items()]. *)
Definition coverage_step (matched_subs : defaultdict)
    (coverage : dict tactic_coverage) (item : atom * pyset)
  : result (dict tactic_coverage) :=
  let (tactic, total_ids) := item in
  let matched_ids := dict_get matched_subs tactic [] in
  score <- coverage_score matched_ids total_ids ;;
  Ok (dict_set coverage tactic
        {| matched := len matched_ids;
           total := len total_ids;
           coverage_percent := py_round score 2 |}).

(** Lines 181 to 194 of [calculate_coverage_per_tactic]: the computation
    on the two loaded documents. *)
Definition calculate_coverage (mitre_data results_data : json)
  : result (dict tactic_coverage) :=
  total_subs <- load_subtechniques_by_tactic mitre_data ;;
  matched_subs <- extract_matched_subtechniques_by_tactic results_data ;;
  for_each (coverage_step matched_subs) total_subs [].

(** *** Files and the log *)

(** What a file holds: a JSON text, given by the document [json.load]
    parses it to, or a text that is not JSON. *)
Inductive file_content : Type :=
| JsonText (doc : json)
| OtherText.

(** The state the tool runs in: the files by path, and the log records
    emitted so far (a message and the value formatted into it). *)
Record world : Type := {
  files : list (string * file_content);
  log : list (string * option json)
}.

(** A statement that reads or writes the world and may raise: the world
    it leaves is kept when it raises. *)
Definition io (A : Type) : Type := world -> result A * world.

Definition io_ret {A : Type} (a : A) : io A := fun w => (Ok a, w).

Definition io_bind {A B : Type} (c : io A) (k : A -> io B) : io B :=
  fun w =>
    match c w with
    | (Ok a, w') => k a w'
    | (Err e, w') => (Err e, w')
    end.

Notation "x <~ c ;; k" := (io_bind c (fun x => k))
  (at level 61, c at next level, right associativity).

(** A computation that does not touch the world. *)
Definition lift {A : Type} (r : result A) : io A := fun w => (r, w).

Definition logging_info (msg : string) (arg : option json) : io unit :=
  fun w => (Ok tt, {| files := files w; log := log w ++ [(msg, arg)] |}).

(** [with open(path, "r") as f: json.load(f)]. *)
Definition json_load_file (path : string) : io json :=
  fun w =>
    (match assoc path (files w) with
     | None => Err FileNotFoundError
     | Some OtherText => Err JSONDecodeError
     | Some (JsonText doc) => Ok doc
     end, w).

(** [with open(path, "w") as f: json.dump(doc, f, indent=2)], for a path
    that can be opened for writing: the failure of [open] on another
    path is not modelled, and the properties below speak of runs that
    have returned or of a run up to its write. *)
Definition json_dump_file (path : string) (doc : json) : io unit :=
  fun w =>
    (Ok tt,
     {| files := (path, JsonText doc)
                 :: filter (fun kv => negb (String.eqb (fst kv) path)) (files w);
        log := log w |}).

Fixpoint io_for_each {A S : Type} (body : S -> A -> io S) (l : list A) (s : S)
  : io S :=
  match l with
  | [] => io_ret s
  | x :: l' => s' <~ body s x ;; io_for_each body l' s'
  end.

Definition calculate_coverage_per_tactic (mitre_json_file results_json_file : string)
  : io (dict tactic_coverage) :=
  _ <~ logging_info "Calculating score for each technique..." None ;;
  mitre_data <~ json_load_file mitre_json_file ;;
  results_data <~ json_load_file results_json_file ;;
  lift (calculate_coverage mitre_data results_data).

(* ================================================================== *)
(** ** Technique extraction *)

(** The body of the loop of [extract_techniques]: the record appended for
    a non-revoked attack-pattern, [None] for any other object. *)
Definition extract_techniques_step (obj : json) : result (option json) :=
  ty <- py_get obj "type" JNone ;;
  if eq_str ty "attack-pattern" then
    revoked <- py_get obj "revoked" JFalse ;;
    if negb (truthy revoked) then
      external_refs <- py_get obj "external_references" (JArr [JObj []]) ;;
      first <- py_getitem0 external_refs ;;
      external_id <- py_get first "external_id" (JStr "null") ;;
      name <- py_get obj "name" (JStr "") ;;
      description <- py_get obj "description" (JStr "") ;;
      kill_chain <- py_get obj "kill_chain_phases" (JArr []) ;;
      ps <- py_iter kill_chain ;;
      phases <- map_result (fun phase => py_get phase "phase_name" (JStr "")) ps ;;
      Ok (Some (JObj [("id", external_id);
                      ("name", name);
                      ("description", description);
                      ("phases", JArr phases)]))
    else Ok None
  else Ok None.

Definition extract_techniques (data : json) : result (list json) :=
  objects <- py_get data "objects" (JArr []) ;;
  objs <- py_iter objects ;;
  comprehension extract_techniques_step objs.

(* ================================================================== *)
(** ** The embedding ranker *)

Section Ranker.

(** The sentence-embedding library is called, not implemented, by the
    tool: a model is loaded by name, the technique descriptions are
    encoded once, and for one use-case description the library returns
    the five best cosine similarities with the indices of their
    techniques ([cos_sim(...)[0].topk(5)], each score read with
    [.item()]). Any of the three calls may raise. *)
Variables Model Embedding : Type.
Variable SentenceTransformer : string -> result Model.
Variable encode_corpus : Model -> list json -> result Embedding.
Variable top_results : Model -> Embedding -> json -> result (list (float * nat)).

(** The body of the loop over [zip(top_results.values, top_results.indices)]. *)
Definition build_match (remove_score : bool) (techniques : list json)
    (hit : float * nat) : result json :=
  let (score, idx) := hit in
  tech <- list_getitem techniques idx ;;
  if remove_score then
    id <- py_getitem tech "id" ;;
    name <- py_getitem tech "name" ;;
    phases <- py_get tech "phases" (JArr []) ;;
    Ok (JObj [("id", id); ("name", name); ("phases", phases)])
  else
    id <- py_getitem tech "id" ;;
    name <- py_getitem tech "name" ;;
    phases <- py_get tech "phases" (JArr []) ;;
    Ok (JObj [("id", id); ("name", name); ("phases", phases);
              ("score", JAtom (AFloat (float_round score 3)))]).

(** The body of the loop over the use cases. *)
Definition rank_usecase (remove_score : bool) (techniques : list json)
    (model : Model) (technique_embeddings : Embedding)
    (results : list json) (uc : json) : io (list json) :=
  name <~ lift (py_getitem uc "name") ;;
  _ <~ logging_info "Parsing usecase: " (Some name) ;;
  detection_desc <~ lift (py_getitem uc "description") ;;
  hits <~ lift (top_results model technique_embeddings detection_desc) ;;
  matches <~ lift (map_result (build_match remove_score techniques) hits) ;;
  usecase <~ lift (py_getitem uc "name") ;;
  io_ret (results ++ [JObj [("usecase", usecase);
                            ("description", detection_desc);
                            ("matches", JArr matches)]]).

Definition mitre_semantic (input_file output_file semantic_model : string)
    (remove_score : bool) (techniques : list json) : io Z :=
  _ <~ logging_info "Initializing sentence_transformers. Please be patient..." None ;;
  _ <~ logging_info "sentence_transformers loaded!" None ;;
  _ <~ logging_info "Semantic model used: " (Some (JStr semantic_model)) ;;
  _ <~ logging_info "Input JSON file: " (Some (JStr input_file)) ;;
  model <~ lift (SentenceTransformer semantic_model) ;;
  usecases <~ json_load_file input_file ;;
  technique_texts <~ lift (map_result (fun i => py_getitem i "description") techniques) ;;
  technique_embeddings <~ lift (encode_corpus model technique_texts) ;;
  ucs <~ lift (py_iter usecases) ;;
  results <~ io_for_each
               (rank_usecase remove_score techniques model technique_embeddings)
               ucs [] ;;
  _ <~ json_dump_file output_file (JArr results) ;;
  io_ret 0.

End Ranker.

Arguments rank_usecase {Model Embedding}.
Arguments mitre_semantic {Model Embedding}.

(* ================================================================== *)
(** ** Reading a document without running the code

    Total functions that read the fields the loops visit. They are what
    the properties below are stated with: the sub-techniques the loader
    counts, the matches the extraction counts, and the pairs (tactic, id)
    each of them contributes. *)

(** [o.get(k, default)], with [default] for a value that is no dict. *)
Definition field (k : string) (default : json) (o : json) : json :=
  match o with
  | JObj fields => match assoc k fields with Some v => v | None => default end
  | _ => default
  end.

Definition elements (o : json) : list json :=
  match py_iter o with
  | Ok l => l
  | Err _ => []
  end.

Definition atoms (l : list json) : list atom :=
  flat_map (fun v => match v with JAtom a => [a] | _ => [] end) l.

Definition corpus_objects (mitre_data : json) : list json :=
  elements (field "objects" (JArr []) mitre_data).

Definition is_attack_pattern (obj : json) : bool :=
  eq_str (field "type" JNone obj) "attack-pattern".

Definition is_revoked (obj : json) : bool :=
  truthy (field "revoked" JFalse obj).

Definition is_subtechnique (obj : json) : bool :=
  truthy (field "x_mitre_is_subtechnique" JFalse obj).

Definition external_references (obj : json) : json :=
  field "external_references" (JArr []) obj.

(** The guard of the loader: a non-empty list of references. *)
Definition has_reference_list (obj : json) : bool :=
  truthy (external_references obj) && is_list (external_references obj).

Definition first_reference (obj : json) : json :=
  match external_references obj with
  | JArr (x :: _) => x
  | _ => JObj []
  end.

(** [external_refs[0].get("external_id")]: [None] when the key is absent. *)
Definition first_external_id (obj : json) : json :=
  field "external_id" JNone (first_reference obj).

(** The phase names of an object: the ["phase_name"] of every kill-chain
    phase that has one. *)
Definition phase_names (obj : json) : list json :=
  flat_map
    (fun p => match p with
              | JObj fields =>
                  match assoc "phase_name" fields with
                  | Some v => [v]
                  | None => []
                  end
              | _ => []
              end)
    (elements (field "kill_chain_phases" (JArr []) obj)).

(** A non-revoked sub-technique. *)
Definition live_subtechnique (obj : json) : bool :=
  is_attack_pattern obj && negb (is_revoked obj) && is_subtechnique obj.

(** A sub-technique the loader counts: non-revoked, with references. *)
Definition counted_subtechnique (obj : json) : bool :=
  live_subtechnique obj && has_reference_list obj.

(** The pairs (tactic, id) one object adds to the total universe. *)
Definition subtechnique_pairs (obj : json) : list (atom * atom) :=
  if counted_subtechnique obj then
    match first_external_id obj with
    | JAtom id => map (fun phase => (phase, id)) (atoms (phase_names obj))
    | _ => []
    end
  else [].

Definition corpus_pairs (mitre_data : json) : list (atom * atom) :=
  flat_map subtechnique_pairs (corpus_objects mitre_data).

(** The pairs (tactic, id) one Match adds to the matched sets. *)
Definition match_pairs (mt : json) : list (atom * atom) :=
  match field "id" JNone mt with
  | JAtom (AStr tid) =>
      if occurs_in "." tid then
        map (fun phase => (phase, AStr tid))
            (atoms (elements (field "phases" (JArr []) mt)))
      else []
  | _ => []
  end.

Definition entry_pairs (entry : json) : list (atom * atom) :=
  flat_map match_pairs (elements (field "matches" (JArr []) entry)).

Definition results_pairs (results_json : json) : list (atom * atom) :=
  flat_map entry_pairs (elements results_json).

(** The [defaultdict(set)] a sequence of [d[k].add(v)] builds. *)
Definition dd_add_pair (d : defaultdict) (p : atom * atom) : defaultdict :=
  dd_add d (fst p) (snd p).

Definition dd_of_pairs (ps : list (atom * atom)) : defaultdict :=
  fold_left dd_add_pair ps [].

(** *** Sets *)


Definition set_subset (a b : pyset) : bool := forallb (fun x => set_mem x b) a.

(** Every matched set lies inside the total set of its tactic. *)
Definition matched_within_total (matched_subs total_subs : defaultdict) : bool :=
  forallb (fun item => set_subset (snd item) (dict_get total_subs (fst item) []))
          matched_subs.

(** *** The statements of the specification, as it words them *)


(** The tactics the specification words as the total universe: the phase
    names occurring in the kill-chain phases of some non-revoked
    sub-technique. *)
Definition live_subtechnique_tactics (mitre_data : json) : list atom :=
  flat_map (fun obj => if live_subtechnique obj then atoms (phase_names obj) else [])
           (corpus_objects mitre_data).

(** The tactics of the sub-techniques the loader counts. *)
Definition counted_tactics (mitre_data : json) : list atom :=
  flat_map (fun obj => if counted_subtechnique obj then atoms (phase_names obj) else [])
           (corpus_objects mitre_data).

Definition pykey_eq_dec (a b : pykey) : {a = b} + {a <> b}.
Proof.
  decide equality;
    first [ apply string_dec | apply Z.eq_dec | apply Bool.bool_dec ].
Defined.

(** The external id of an object, when it has one: the ["external_id"]
    of its first external reference. *)
Definition resolvable_external_id (obj : json) : option atom :=
  match external_references obj with
  | JArr (JObj fields :: _) =>
      match assoc "external_id" fields with
      | Some (JAtom ANone) => None
      | Some (JAtom id) => Some id
      | _ => None
      end
  | _ => None
  end.

(** The distinct external ids of the non-revoked sub-techniques whose
    phases include [tactic], as the specification counts the total. *)
Definition distinct_subtechnique_ids (mitre_data : json) (tactic : atom) : list pykey :=
  nodup pykey_eq_dec
    (flat_map
       (fun obj =>
          if live_subtechnique obj && set_mem tactic (atoms (phase_names obj))
          then match resolvable_external_id obj with
               | Some id => [key_of id]
               | None => []
               end
          else [])
       (corpus_objects mitre_data)).

(** The distinct values the loader does collect for [tactic]: the first
    external id of every counted sub-technique whose phases include the
    tactic, [None] standing for an absent id. *)
Definition collected_ids (mitre_data : json) (tactic : atom) : list pykey :=
  nodup pykey_eq_dec
    (map (fun p => key_of (snd p))
         (filter (fun p => py_eqb tactic (fst p)) (corpus_pairs mitre_data))).

(** A Match with the score field removed, and an entry with the score
    removed from each of its matches. *)
Definition remove_field (k : string) (v : json) : json :=
  match v with
  | JObj fields => JObj (filter (fun kv => negb (String.eqb (fst kv) k)) fields)
  | _ => v
  end.

Definition without_scores (entry : json) : json :=
  match entry with
  | JObj [("usecase", u); ("description", d); ("matches", JArr ms)] =>
      JObj [("usecase", u); ("description", d);
            ("matches", JArr (map (remove_field "score") ms))]
  | _ => entry
  end.

(* ================================================================== *)
(** ** Invariants and further readings *)

(** The keys of a dict, as stored. *)
Definition keys {V : Type} (d : dict V) : list pykey :=
  map (fun item => key_of (fst item)) d.

(** The invariant of a [defaultdict(set)] built by [d[k].add(v)] only:
    no key twice, no empty set, no element twice. *)
Definition dd_wf (d : defaultdict) : Prop :=
  NoDup (keys d) /\
  Forall (fun item => snd item <> [] /\ NoDup (map key_of (snd item))) d.

(** Every non-revoked sub-technique of the corpus has an external id. *)
Definition every_subtechnique_identified (mitre_data : json) : bool :=
  forallb
    (fun obj =>
       implb (live_subtechnique obj)
             (match resolvable_external_id obj with
              | Some _ => true
              | None => false
              end))
    (corpus_objects mitre_data).

(** The distinct dotted ids the results match under [tactic]. *)
Definition matched_ids_of (results_json : json) (tactic : atom) : list pykey :=
  nodup pykey_eq_dec
    (map (fun p => key_of (snd p))
         (filter (fun p => py_eqb tactic (fst p)) (results_pairs results_json))).

(** The record [extract_techniques] appends for an attack-pattern, when
    it does not raise. *)
Definition technique_record (obj : json) : json :=
  JObj [("id",
         field "external_id" (JStr "null")
               (match py_getitem0 (field "external_references" (JArr [JObj []]) obj) with
                | Ok first => first
                | Err _ => JNone
                end));
        ("name", field "name" (JStr "") obj);
        ("description", field "description" (JStr "") obj);
        ("phases",
         JArr (map (field "phase_name" (JStr ""))
                   (elements (field "kill_chain_phases" (JArr []) obj))))].

(** The non-revoked attack-patterns of a corpus, in its order. *)
Definition live_attack_patterns (data : json) : list json :=
  filter (fun obj => is_attack_pattern obj && negb (is_revoked obj))
         (corpus_objects data).

(** A Match without a score: exactly the fields id, name and phases. *)
Definition scoreless_match (m : json) : Prop :=
  exists id name phases,
    m = JObj [("id", id); ("name", name); ("phases", phases)].

(** A MatchEntry all of whose matches are without a score. *)
Definition scoreless_entry (entry : json) : Prop :=
  exists usecase description matches,
    entry = JObj [("usecase", usecase); ("description", description);
                  ("matches", JArr matches)] /\
    Forall scoreless_match matches.

(** A kill-chain phase that names its tactic. *)
Definition has_phase_name (p : json) : bool :=
  match p with
  | JObj fields =>
      match assoc "phase_name" fields with
      | Some _ => true
      | None => false
      end
  | _ => false
  end.

(** A corpus in which dotted ids and sub-techniques agree: every
    non-revoked attack-pattern whose external id has a dot is flagged
    [x_mitre_is_subtechnique], and each of its kill-chain phases names
    its tactic. *)
Definition coherent_corpus (mitre_data : json) : bool :=
  forallb
    (fun obj =>
       match field "id" JNone (technique_record obj) with
       | JAtom (AStr tid) =>
           if occurs_in "." tid then
             is_subtechnique obj &&
             forallb has_phase_name
                     (elements (field "kill_chain_phases" (JArr []) obj))
           else true
       | _ => true
       end)
    (live_attack_patterns mitre_data).

(** A Match that carries the id and the phases of one of the techniques. *)
Definition built_from (techniques : list json) (m : json) : Prop :=
  exists tech,
    In tech techniques /\
    field "id" JNone m = field "id" JNone tech /\
    field "phases" (JArr []) m = field "phases" (JArr []) tech.

(** A MatchEntry whose matches are all built from the techniques. *)
Definition built_entry (techniques : list json) (entry : json) : Prop :=
  exists usecase description matches,
    entry = JObj [("usecase", usecase); ("description", description);
                  ("matches", JArr matches)] /\
    Forall (built_from techniques) matches.

(* ================================================================== *)
(** ** Example documents *)

(** A sub-technique of the corpus, a Match and a results document, in
    the shape the tool reads and writes them. *)
Definition example_subtechnique (external_id : string) (tactics : list string)
  : json :=
  JObj [("type", JStr "attack-pattern");
        ("x_mitre_is_subtechnique", JTrue);
        ("external_references",
         JArr [JObj [("source_name", JStr "mitre-attack");
                     ("external_id", JStr external_id)]]);
        ("kill_chain_phases",
         JArr (map (fun t => JObj [("kill_chain_name", JStr "mitre-attack");
                                   ("phase_name", JStr t)])
                   tactics))].

Definition example_match (id : string) (tactics : list string) : json :=
  JObj [("id", JStr id); ("name", JStr "technique"); ("phases", JArr (map JStr tactics))].

Definition example_results (matches : list json) : json :=
  JArr [JObj [("usecase", JStr "usecase1");
              ("description", JStr "User executes programs from USB media");
              ("matches", JArr matches)]].

(** The end-to-end example of the specification: one tactic with two
    sub-techniques, and one use case matching one of them. *)
Definition execution_corpus : json :=
  JObj [("objects", JArr [example_subtechnique "T1059.001" ["execution"];
                          example_subtechnique "T1059.002" ["execution"]])].

Definition execution_results : json :=
  example_results [example_match "T1059.001" ["execution"];
                   example_match "T1059" ["execution"]].

Definition execution_total : defaultdict :=
  [(AStr "execution", [AStr "T1059.001"; AStr "T1059.002"])].

Definition execution_matched : defaultdict :=
  [(AStr "execution", [AStr "T1059.001"])].

Definition execution_entry : tactic_coverage :=
  {| matched := 1; total := 2; coverage_percent := NFloat (float_of_int 50) |}.

(** A corpus with one sub-technique, and results that name others. *)
Definition single_corpus : json :=
  JObj [("objects", JArr [example_subtechnique "T1059.001" ["execution"]])].


Definition surplus_results : json :=
  example_results [example_match "T1059.001" ["execution"];
                   example_match "T1204.002" ["execution"]].

(** A non-revoked sub-technique without external references. *)
Definition unreferenced_corpus : json :=
  JObj [("objects",
         JArr [JObj [("type", JStr "attack-pattern");
                     ("x_mitre_is_subtechnique", JTrue);
                     ("kill_chain_phases",
                      JArr [JObj [("phase_name", JStr "execution")]])]])].

(** An attack-pattern whose list of external references is empty. *)
Definition empty_references_corpus : json :=
  JObj [("objects",
         JArr [JObj [("type", JStr "attack-pattern");
                     ("name", JStr "Command and Scripting Interpreter");
                     ("external_references", JArr [])]])].

(** An attack-pattern without the [external_references] key, and one
    whose first reference has no [external_id]. *)
Definition missing_references_corpus : json :=
  JObj [("objects",
         JArr [JObj [("type", JStr "attack-pattern");
                     ("name", JStr "Phishing")];
               JObj [("type", JStr "attack-pattern");
                     ("name", JStr "Valid Accounts");
                     ("external_references",
                      JArr [JObj [("source_name", JStr "capec")]])]])].

(** A non-revoked sub-technique whose first reference has no
    [external_id]. *)
Definition anonymous_corpus : json :=
  JObj [("objects",
         JArr [JObj [("type", JStr "attack-pattern");
                     ("x_mitre_is_subtechnique", JTrue);
                     ("external_references",
                      JArr [JObj [("source_name", JStr "capec")]]);
                     ("kill_chain_phases",
                      JArr [JObj [("phase_name", JStr "execution")]])]])].

(** A stand-in for the embedding library: it ranks the first technique
    first, with similarity one half, whatever the description. *)
Definition stub_model (name : string) : result unit := Ok tt.
Definition stub_encode (model : unit) (texts : list json) : result unit := Ok tt.
Definition stub_top (model : unit) (embeddings : unit) (description : json)
  : result (list (float * nat)) :=
  Ok [(S754_finite false 4503599627370496 (-53), 0%nat)].

Definition stub_techniques : list json :=
  [JObj [("id", JStr "T1059.001"); ("name", JStr "PowerShell");
         ("description", JStr "Adversaries may abuse PowerShell commands");
         ("phases", JArr [JStr "execution"])]].

Definition stub_world : world :=
  {| files := [("input.json",
                JsonText (JArr [JObj [("name", JStr "usecase1");
                                      ("description", JStr "User runs scripts")]]))];
     log := [] |}.

Definition stub_world_after : world :=
  snd (mitre_semantic stub_model stub_encode stub_top
         "input.json" "output.json" "all-MiniLM-L6-v2" true stub_techniques
         stub_world).

(** The run of the tool on [single_corpus] with the stand-in library. *)
Definition pipeline_techniques : list json :=
  [JObj [("id", JStr "T1059.001"); ("name", JStr ""); ("description", JStr "");
         ("phases", JArr [JStr "execution"])]].

Definition pipeline_world_after : world :=
  snd (mitre_semantic stub_model stub_encode stub_top
         "input.json" "output.json" "all-MiniLM-L6-v2" false pipeline_techniques
         stub_world).

Definition pipeline_results : json :=
  JArr [JObj [("usecase", JStr "usecase1");
              ("description", JStr "User runs scripts");
              ("matches",
               JArr [JObj [("id", JStr "T1059.001"); ("name", JStr "");
                           ("phases", JArr [JStr "execution"]);
                           ("score",
                            JAtom (AFloat (S754_finite false 4503599627370496 (-53))))]])]].

Definition pipeline_entry : tactic_coverage :=
  {| matched := 1; total := 1; coverage_percent := NFloat (float_of_int 100) |}.

(* ================================================================== *)
(** ** The command-line shell: validation, loading and [main] *)

(** *** Exits and [try] *)

(** How a function of the shell ends: it returns, it raises an exception
    (of class [Exception], or the [KeyboardInterrupt] something it calls
    has let out), or it leaves the process through [sys.exit], which no
    [except Exception] catches. *)
Inductive outcome (A : Type) : Type :=
| Returned (a : A)
| Raised (e : exn)
| Exited (code : Z).

Arguments Returned {A} a.
Arguments Raised {A} e.
Arguments Exited {A} code.

Definition proc (A : Type) : Type := world -> outcome A * world.

Definition proc_ret {A : Type} (a : A) : proc A := fun w => (Returned a, w).

Definition proc_bind {A B : Type} (c : proc A) (k : A -> proc B) : proc B :=
  fun w =>
    match c w with
    | (Returned a, w') => k a w'
    | (Raised e, w') => (Raised e, w')
    | (Exited code, w') => (Exited code, w')
    end.

Notation "x <<- c ;; k" := (proc_bind c (fun x => k))
  (at level 61, c at next level, right associativity).

(** A statement that cannot exit. *)
Definition of_io {A : Type} (c : io A) : proc A :=
  fun w =>
    match c w with
    | (Ok a, w') => (Returned a, w')
    | (Err e, w') => (Raised e, w')
    end.

Definition sys_exit {A : Type} (code : Z) : proc A := fun w => (Exited code, w).

(** [try: body except Exception as e: handler]: an exception outside
    [Exception] passes through. *)
Definition try_except {A : Type} (body : proc A) (handler : exn -> proc A) : proc A :=
  fun w =>
    match body w with
    | (Raised e, w') => if is_exception e then handler e w' else (Raised e, w')
    | r => r
    end.

(** The same for a body and a handler that cannot exit. *)
Definition io_try {A : Type} (body : io A) (handler : exn -> io A) : io A :=
  fun w =>
    match body w with
    | (Err e, w') => if is_exception e then handler e w' else (Err e, w')
    | r => r
    end.

(** [logging.error]: a record of the log, as [logging.info] is. A
    record holds the text of the f-string and the value formatted into
    it; the text of an exception is not kept. *)
Definition logging_error (msg : string) (arg : option json) : io unit :=
  logging_info msg arg.

(** [Path(path).is_file()], for a path in the form [pathlib] prints it.
    The files are kept by the path they are opened with: two paths of
    one file are not related, and the properties below speak of files
    under the names the tool opens them by. *)
Definition is_file (path : string) (w : world) : bool :=
  match assoc path (files w) with
  | Some _ => true
  | None => false
  end.

(** [with open(path, "wb") as f: f.write(content)]. *)
Definition write_file (path : string) (content : file_content) : io unit :=
  fun w =>
    (Ok tt,
     {| files := (path, content)
                 :: filter (fun kv => negb (String.eqb (fst kv) path)) (files w);
        log := log w |}).

(** *** Validation of the use-case file *)

(** The example the error message shows ([formatted_json]). *)
Definition usecases : json :=
  JArr [JObj [("name", JStr "usecase1");
              ("description",
               JStr "User copies files to and executes programs from USB removable media")];
        JObj [("name", JStr "usecase2");
              ("description",
               JStr "User logs in to multiple systems with failed login attempts in short succession")]].

(** The loop over the items: [False] at the first item that is no dict
    or lacks one of the two keys. *)
Fixpoint check_items (data : list json) : bool :=
  match data with
  | [] => true
  | item :: rest =>
      match item with
      | JObj fields =>
          match assoc "name" fields, assoc "description" fields with
          | Some _, Some _ => check_items rest
          | _, _ => false
          end
      | _ => false
      end
  end.

Definition check_input_file (input_file : string) : io bool :=
  _ <~ logging_info "Checking if {input_file} is valid..." (Some (JStr input_file)) ;;
  io_try
    (data <~ json_load_file input_file ;;
     match data with
     | JArr items =>
         if check_items items then
           _ <~ logging_info "{input_file} is valid!" (Some (JStr input_file)) ;;
           io_ret true
         else
           _ <~ logging_error "Please ensure that input json is in the format of: {formatted_json}"
                  (Some usecases) ;;
           io_ret false
     | _ =>
         _ <~ logging_error "Please ensure that input json is in the format of: {formatted_json}"
                (Some usecases) ;;
         io_ret false
     end)
    (fun e =>
       match e with
       | JSONDecodeError =>
           _ <~ logging_error "Invalid JSON: {e}" None ;;
           io_ret false
       | _ =>
           _ <~ logging_error "Unexpected error: {e}" None ;;
           io_ret false
       end).

(** *** The logged count of sub-techniques *)

(** One turn of the comprehension that maps tactic shortnames to names. *)
Definition tactics_step (tactics : dict json) (obj : json) : result (dict json) :=
  ty <- py_get obj "type" JNone ;;
  if eq_str ty "x-mitre-tactic" then
    shortname <- py_getitem obj "x_mitre_shortname" ;;
    name <- py_getitem obj "name" ;;
    k <- hashable shortname ;;
    Ok (dict_set tactics k name)
  else Ok tactics.

(** The filter of the comprehension that keeps the sub-techniques. *)
Definition keep_subtechnique (obj : json) : result (option json) :=
  ty <- py_get obj "type" JNone ;;
  if eq_str ty "attack-pattern" then
    is_sub <- py_get obj "x_mitre_is_subtechnique" JNone ;;
    if truthy is_sub then Ok (Some obj) else Ok None
  else Ok None.

(** The body of the loop over the kill-chain phases of a sub-technique:
    [subtechniques_count[tactic_shortname] += 1] on a [defaultdict(int)]. *)
Definition count_phase (tactics : dict json) (subtechniques_count : dict Z)
    (phase : json) : result (dict Z) :=
  tactic_shortname <- py_get phase "phase_name" JNone ;;
  k <- hashable tactic_shortname ;;
  if dict_mem k tactics then
    Ok (dict_set subtechniques_count k (dict_get subtechniques_count k 0 + 1))
  else Ok subtechniques_count.

Definition count_subtechnique (tactics : dict json) (subtechniques_count : dict Z)
    (subtech : json) : result (dict Z) :=
  kill_chain_phases <- py_get subtech "kill_chain_phases" (JArr []) ;;
  phases <- py_iter kill_chain_phases ;;
  for_each (count_phase tactics) phases subtechniques_count.

(** Lines 124 to 140 of [get_total_sub_techniques]: the tactics and the
    count per tactic. *)
Definition count_subtechniques (mitrejson : json) : result (dict json * dict Z) :=
  objects <- py_getitem mitrejson "objects" ;;
  objs <- py_iter objects ;;
  tactics <- for_each tactics_step objs [] ;;
  subtechniques <- comprehension keep_subtechnique objs ;;
  subtechniques_count <- for_each (count_subtechnique tactics) subtechniques [] ;;
  Ok (tactics, subtechniques_count).

(** The body of the loop that logs the counts. *)
Definition log_count (tactics : dict json) (acc : unit) (item : atom * Z) : io unit :=
  name <~ lift (match dict_lookup (fst item) tactics with
                | Some name => Ok name
                | None => Err KeyError
                end) ;;
  logging_info "{tactics[tactic_shortname]} ({tactic_shortname}): {count} sub-techniques found!"
    (Some (JArr [name; JAtom (fst item); JInt (snd item)])).

Definition get_total_sub_techniques (mitrejson : json) : io unit :=
  counted <~ lift (count_subtechniques mitrejson) ;;
  io_for_each (log_count (fst counted)) (snd counted) tt.

(** *** Loading the techniques *)

Definition load_mitre_techniques (mitre_file : string) : proc (list json) :=
  _ <<- of_io (logging_info "Loading {mitre_file}..."
                 (Some (JStr mitre_file))) ;;
  techniques <<-
    try_except
      (of_io (data <~ json_load_file mitre_file ;;
              techniques <~ lift (extract_techniques data) ;;
              _ <~ get_total_sub_techniques data ;;
              io_ret techniques))
      (fun e =>
         _ <<- of_io (logging_error "Error while loading Mitre Att&ck json file: {e}" None) ;;
         sys_exit 1) ;;
  _ <<- of_io (logging_info "Loading complete!" None) ;;
  proc_ret techniques.

(** *** The checks on the corpus and on the output file *)

(** [s.endswith(suffix)]. *)
Fixpoint ends_with (suffix s : string) : bool :=
  String.eqb s suffix ||
  match s with
  | EmptyString => false
  | String _ s' => ends_with suffix s'
  end.

Definition check_mitre_json (mitre_file : string) : proc Z :=
  fun w =>
    if is_file mitre_file w && ends_with ".json" mitre_file then
      (_ <<- of_io (logging_info "{mitre_file} file is found! Proceeding with mappings."
                      (Some (JStr mitre_file))) ;;
       proc_ret 0) w
    else
      (_ <<- of_io (logging_error "{mitre_file} is missing! Download the json file with -d option or manually from Mitre Att&ck website."
                      (Some (JStr mitre_file))) ;;
       sys_exit 1) w.

(** A character [str.strip] removes, among the characters below 256. *)
Definition is_space (c : ascii) : bool :=
  let n := nat_of_ascii c in
  ((9 <=? n) && (n <=? 13) || (28 <=? n) && (n <=? 32) || (n =? 133) || (n =? 160))%nat.

Fixpoint strip_left (s : string) : string :=
  match s with
  | String c s' => if is_space c then strip_left s' else s
  | EmptyString => EmptyString
  end.

(** The string without its trailing spaces. *)
Fixpoint strip_right (s : string) : string :=
  match s with
  | EmptyString => EmptyString
  | String c s' =>
      match strip_right s' with
      | EmptyString => if is_space c then EmptyString else String c EmptyString
      | t => String c t
      end
  end.

(** [s.strip()]. *)
Definition str_strip (s : string) : string := strip_right (strip_left s).

(** [c.lower()] for a character below 256. *)
Definition char_lower (c : ascii) : ascii :=
  let n := nat_of_ascii c in
  if ((65 <=? n) && (n <=? 90) ||
      (192 <=? n) && (n <=? 222) && negb (n =? 215))%nat
  then ascii_of_nat (n + 32)
  else c.

Fixpoint str_lower (s : string) : string :=
  match s with
  | EmptyString => EmptyString
  | String c s' => String (char_lower c) (str_lower s')
  end.

Module Args.

(** The namespace [parse_args] returns. *)
Record t : Type := {
  semantic_model : string;
  input : string;
  output : string;
  mitrejson : string;
  removescore : bool;
  download : bool
}.

End Args.

Section Shell.

(** What the shell calls and this file does not implement: the embedding
    library (as for [mitre_semantic]), [input] (the line read from the
    terminal, or an exception: [EOFError] at the end of the input,
    [KeyboardInterrupt] on Ctrl-C), [requests.get(url).content] (the
    bytes received, or an exception), and [pretty_print], which writes
    to the terminal only. *)
Variables Model Embedding : Type.
Variable SentenceTransformer : string -> result Model.
Variable encode_corpus : Model -> list json -> result Embedding.
Variable top_results : Model -> Embedding -> json -> result (list (float * nat)).
Variable input : string -> result string.
Variable requests_get : string -> result file_content.
Variable pretty_print : dict tactic_coverage -> result unit.

(** The question [input] asks. *)
Definition overwrite_prompt (output_file : string) : string :=
  String.append "[WARNING] File '"
    (String.append output_file "' already exists. Overwrite? (y/n): ").

Definition check_output_file_exists (output_file : string) : proc Z :=
  _ <<- of_io (logging_info "Checking if {output_file} is already written..."
                 (Some (JStr output_file))) ;;
  fun w =>
    if is_file output_file w then
      (answer <<- of_io (lift (input (overwrite_prompt output_file))) ;;
       let response := str_lower (str_strip answer) in
       if negb (String.eqb response "y") then
         _ <<- of_io (logging_info "Exiting without overwriting." None) ;;
         sys_exit 0
       else
         _ <<- of_io (logging_info "Overwriting file..." None) ;;
         proc_ret 0) w
    else proc_ret 0 w.

Definition download_file : io unit :=
  let url := "https://raw.githubusercontent.com/mitre-attack/attack-stix-data/refs/heads/master/enterprise-attack/enterprise-attack.json" in
  let output_file := "enterprise-attack.json" in
  _ <~ logging_info "Downloading file from {url}" (Some (JStr url)) ;;
  response <~ lift (requests_get url) ;;
  _ <~ write_file output_file response ;;
  logging_info "Downloaded file saved to {output_file}" (Some (JStr output_file)).

(** [main], from the parsed arguments on. *)
Definition main (args : Args.t) : proc unit :=
  try_except
    (valid <<- of_io (check_input_file (Args.input args)) ;;
     if valid then
       _ <<- check_output_file_exists (Args.output args) ;;
       _ <<- (if Args.download args then of_io download_file else proc_ret tt) ;;
       _ <<- check_mitre_json (Args.mitrejson args) ;;
       techniques <<- load_mitre_techniques (Args.mitrejson args) ;;
       _ <<- of_io (mitre_semantic SentenceTransformer encode_corpus top_results
                      (Args.input args) (Args.output args)
                      (Args.semantic_model args) (Args.removescore args)
                      techniques) ;;
       results <<- of_io (calculate_coverage_per_tactic (Args.mitrejson args)
                            (Args.output args)) ;;
       _ <<- of_io (lift (pretty_print results)) ;;
       _ <<- of_io (logging_info "Mitre Atlas has completed its job. You may check for the generated results here: {args.output}. Exiting silently now..."
                      (Some (JStr (Args.output args)))) ;;
       sys_exit 0
     else proc_ret tt)
    (fun e =>
       _ <<- of_io (logging_error "Error while parsing file: {e}" None) ;;
       sys_exit 1).

End Shell.

Arguments main {Model Embedding}.

(* ================================================================== *)
(** ** Reading the shell without running it *)

(** A use case as the ranker reads it: a dict with a name and a
    description. *)
Definition valid_usecase (item : json) : Prop :=
  exists fields name description,
    item = JObj fields /\
    assoc "name" fields = Some name /\
    assoc "description" fields = Some description.

(** *** The count of [get_total_sub_techniques], read off the corpus *)

(** An attack-pattern flagged as a sub-technique, revoked or not. *)
Definition flagged_subtechnique (obj : json) : bool :=
  is_attack_pattern obj && truthy (field "x_mitre_is_subtechnique" JNone obj).

(** The tactic a kill-chain phase is counted under: its phase name
    ([None] when it has none), when that is a declared tactic. *)
Definition declared_phase (tactics : dict json) (phase : json) : list atom :=
  match field "phase_name" JNone phase with
  | JAtom k => if dict_mem k tactics then [k] else []
  | _ => []
  end.

(** The tactics one object is counted under, once per kill-chain phase. *)
Definition declared_phases (tactics : dict json) (obj : json) : list atom :=
  if flagged_subtechnique obj then
    flat_map (declared_phase tactics)
             (elements (field "kill_chain_phases" (JArr []) obj))
  else [].

(** [count[k] += 1] on a [defaultdict(int)]. *)
Definition count_add (count : dict Z) (k : atom) : dict Z :=
  dict_set count k (dict_get count k 0 + 1).

(** The number of times [tactic] is counted over the whole corpus. *)
Definition phase_occurrences (tactics : dict json) (mitrejson : json) (tactic : atom)
  : Z :=
  len (filter (py_eqb tactic)
              (flat_map (declared_phases tactics) (corpus_objects mitrejson))).

(** *** Techniques as the corpus of ATT&CK types them *)

(** A technique record whose id is a string and whose phases are a list
    of hashable names. *)
Definition typed_record (tech : json) : bool :=
  match field "id" JNone tech, field "phases" (JArr []) tech with
  | JAtom (AStr _), JArr phases =>
      forallb (fun p => match p with JAtom _ => true | _ => false end) phases
  | _, _ => false
  end.

(** *** Scores *)

(** [0 <= x <= 1] on the exact value of a float ([-0.0] is [0]). *)
Definition in_unit_interval (x : float) : bool :=
  match x with
  | S754_zero _ => true
  | S754_finite false m e =>
      if 0 <=? e then Zpos m * 2 ^ e <=? 1 else Zpos m <=? 2 ^ (- e)
  | _ => false
  end.

(** *** How a statement can end *)

(** A statement that leaves with status 0 or 1 when it leaves. *)
Definition exits_0_or_1 {A : Type} (c : proc A) : Prop :=
  forall w code, fst (c w) = Exited code -> code = 0 \/ code = 1.

(** A statement that never returns to its caller. *)
Definition never_returns {A : Type} (c : proc A) : Prop :=
  forall w a, fst (c w) <> Returned a.

(* ================================================================== *)
(** ** Example runs of the shell *)

Definition example_tactic (shortname name : string) : json :=
  JObj [("type", JStr "x-mitre-tactic");
        ("name", JStr name);
        ("x_mitre_shortname", JStr shortname)].

(** A library that finds the first technique opposite to every use
    case: cosine similarity minus one half. *)
Definition negative_top (model : unit) (embeddings : unit) (description : json)
  : result (list (float * nat)) :=
  Ok [(S754_finite true 4503599627370496 (-53), 0%nat)].

(** Results that match one sub-technique of the corpus, and one id under
    a tactic the corpus does not have. *)
Definition mixed_results : json :=
  example_results [example_match "T1059.001" ["execution"];
                   example_match "T1547.001" ["persistence"]].

Definition mixed_matched : defaultdict :=
  [(AStr "execution", [AStr "T1059.001"]);
   (AStr "persistence", [AStr "T1547.001"])].

(** A revoked sub-technique of the tactic execution. *)
Definition revoked_subtechnique : json :=
  JObj [("type", JStr "attack-pattern");
        ("revoked", JTrue);
        ("x_mitre_is_subtechnique", JTrue);
        ("external_references", JArr [JObj [("external_id", JStr "T1059.002")]]);
        ("kill_chain_phases", JArr [JObj [("phase_name", JStr "execution")]])].

(** A corpus that declares its tactic: the tactic, a sub-technique of it
    and a revoked one. *)
Definition tactic_corpus : json :=
  JObj [("objects", JArr [example_tactic "execution" "Execution";
                          example_subtechnique "T1059.001" ["execution"];
                          revoked_subtechnique])].

Definition example_usecase (name : string) (matches : list json) : json :=
  JObj [("usecase", JStr name);
        ("description", JStr "User executes programs from USB media");
        ("matches", JArr matches)].

(** The entry of a tactic with two sub-techniques, none of them matched. *)
Definition unmatched_entry : tactic_coverage :=
  {| matched := 0; total := 2; coverage_percent := NFloat (S754_zero false) |}.

(** The arguments, the terminal and the network of an example run. *)
Definition shell_args : Args.t :=
  {| Args.semantic_model := "all-MiniLM-L6-v2";
     Args.input := "input.json";
     Args.output := "output.json";
     Args.mitrejson := "enterprise-attack.json";
     Args.removescore := false;
     Args.download := false |}.

Definition stub_input (answer : string) (prompt : string) : result string :=
  Ok answer.

Definition stub_get (url : string) : result file_content :=
  Ok (JsonText tactic_corpus).

Definition stub_print (coverage : dict tactic_coverage) : result unit := Ok tt.

(** The use cases and the corpus are there, the output is not. *)
Definition shell_world : world :=
  {| files := ("enterprise-attack.json", JsonText tactic_corpus) :: files stub_world;
     log := [] |}.

Definition shell_world_after : world :=
  snd (main stub_model stub_encode stub_top (stub_input "n") stub_get stub_print
         shell_args shell_world).

(** The same with an output file written by an earlier run. *)
Definition written_world : world :=
  {| files := ("output.json", JsonText (JArr [])) :: files shell_world;
     log := [] |}.

(** A corpus file without the key [objects]. *)
Definition objectless_world : world :=
  {| files := [("enterprise-attack.json", JsonText (JObj [("type", JStr "bundle")]))];
     log := [] |}.

(* ================================================================== *)
(** ** Keys, sets and dicts *)

Lemma pykey_eqb_eq (a b : pykey) : pykey_eqb a b = true <-> a = b.
Proof.
  destruct a, b; simpl; split; intro H; try discriminate; try reflexivity.
  - apply String.eqb_eq in H. now subst.
  - inversion H. apply String.eqb_refl.
  - apply andb_true_iff in H as [H1 H2].
    apply Z.eqb_eq in H1, H2. now subst.
  - inversion H. now rewrite !Z.eqb_refl.
  - apply Bool.eqb_prop in H. now subst.
  - inversion H. apply Bool.eqb_reflx.
Qed.

Lemma py_eqb_eq (a b : atom) : py_eqb a b = true <-> key_of a = key_of b.
Proof. apply pykey_eqb_eq. Qed.

Lemma py_eqb_refl (a : atom) : py_eqb a a = true.
Proof. now apply py_eqb_eq. Qed.

(** [==] only sees the key. *)
Lemma py_eqb_key (a a' b : atom) :
  key_of a = key_of a' -> py_eqb a b = py_eqb a' b.
Proof. unfold py_eqb. now intros ->. Qed.

Lemma py_eqb_key_r (a b b' : atom) :
  key_of b = key_of b' -> py_eqb a b = py_eqb a b'.
Proof. unfold py_eqb. now intros ->. Qed.

Lemma set_mem_In (a : atom) (s : pyset) :
  set_mem a s = true <-> In (key_of a) (map key_of s).
Proof.
  unfold set_mem. rewrite existsb_exists, in_map_iff. split.
  - intros (x & Hx & E). apply py_eqb_eq in E. eauto.
  - intros (x & E & Hx). exists x. split; [assumption|]. now apply py_eqb_eq.
Qed.

Lemma set_add_In (a : atom) (s : pyset) (k : pykey) :
  In k (map key_of (set_add a s)) <-> k = key_of a \/ In k (map key_of s).
Proof.
  unfold set_add. destruct (set_mem a s) eqn:E.
  - apply set_mem_In in E. split; [tauto|]. intros [->|H]; assumption.
  - rewrite map_app, in_app_iff. simpl. intuition congruence.
Qed.

Lemma set_add_NoDup (a : atom) (s : pyset) :
  NoDup (map key_of s) -> NoDup (map key_of (set_add a s)).
Proof.
  intros H. unfold set_add. destruct (set_mem a s) eqn:E; [assumption|].
  rewrite map_app. simpl.
  apply NoDup_rev in H. rewrite <- (rev_involutive (_ ++ _)).
  apply NoDup_rev. rewrite rev_app_distr. simpl. constructor; [|assumption].
  rewrite <- in_rev. intros Hin. apply set_mem_In in Hin. congruence.
Qed.

Lemma set_add_nonempty (a : atom) (s : pyset) : set_add a s <> [].
Proof.
  unfold set_add. destruct (set_mem a s) eqn:E.
  - destruct s; [discriminate|]. discriminate.
  - destruct s; discriminate.
Qed.

Lemma set_subset_incl (a b : pyset) :
  set_subset a b = true <-> incl (map key_of a) (map key_of b).
Proof.
  unfold set_subset. rewrite forallb_forall. split.
  - intros H k Hk. apply in_map_iff in Hk as (x & <- & Hx).
    apply set_mem_In. now apply H.
  - intros H x Hx. apply set_mem_In. apply H. now apply in_map.
Qed.


(** Two sets without repetition, one inside the other. *)
Lemma set_subset_length (a b : pyset) :
  NoDup (map key_of a) -> set_subset a b = true ->
  (List.length a <= List.length b)%nat.
Proof.
  intros Ha Hs. apply set_subset_incl in Hs.
  rewrite <- (length_map key_of a), <- (length_map key_of b).
  now apply NoDup_incl_length.
Qed.

Lemma dict_lookup_key {V : Type} (k k' : atom) (d : dict V) :
  key_of k = key_of k' -> dict_lookup k d = dict_lookup k' d.
Proof.
  intros E. induction d as [|[x v] d IH]; simpl; [reflexivity|].
  rewrite (py_eqb_key k k' x E). now rewrite IH.
Qed.

Lemma dict_get_key {V : Type} (k k' : atom) (d : dict V) (default : V) :
  key_of k = key_of k' -> dict_get d k default = dict_get d k' default.
Proof. intros E. unfold dict_get. now rewrite (dict_lookup_key k k' d E). Qed.

Lemma dict_lookup_set {V : Type} (d : dict V) (k k' : atom) (v : V) :
  dict_lookup k (dict_set d k' v) =
  if py_eqb k k' then Some v else dict_lookup k d.
Proof.
  induction d as [|[x w] d IH]; simpl.
  - reflexivity.
  - destruct (py_eqb k' x) eqn:E; simpl.
    + apply py_eqb_eq in E. rewrite (py_eqb_key_r k k' x E).
      now destruct (py_eqb k x).
    + rewrite IH. destruct (py_eqb k x) eqn:F; [|reflexivity].
      destruct (py_eqb k k') eqn:G; [|reflexivity].
      apply py_eqb_eq in F, G.
      assert (py_eqb k' x = true) by (apply py_eqb_eq; congruence).
      congruence.
Qed.

Lemma dict_lookup_In {V : Type} (k : atom) (d : dict V) (v : V) :
  dict_lookup k d = Some v ->
  exists k', In (k', v) d /\ key_of k = key_of k'.
Proof.
  induction d as [|[x w] d IH]; simpl; [discriminate|].
  destruct (py_eqb k x) eqn:E.
  - intros [= ->]. exists x. split; [now left|]. now apply py_eqb_eq.
  - intros H. destruct (IH H) as (k' & Hin & Hk). exists k'. auto.
Qed.

Lemma dict_mem_keys {V : Type} (k : atom) (d : dict V) :
  dict_mem k d = true <-> In (key_of k) (keys d).
Proof.
  unfold dict_mem, keys. induction d as [|[x w] d IH]; simpl.
  - split; [discriminate|tauto].
  - destruct (py_eqb k x) eqn:E.
    + apply py_eqb_eq in E. split; auto.
    + rewrite IH. split; [auto|]. intros [H|H]; [|assumption].
      symmetry in H. apply py_eqb_eq in H. congruence.
Qed.

Lemma dict_lookup_None_keys {V : Type} (k : atom) (d : dict V) :
  dict_lookup k d = None <-> ~ In (key_of k) (keys d).
Proof.
  rewrite <- dict_mem_keys. unfold dict_mem.
  destruct (dict_lookup k d); split; intros H; congruence.
Qed.

Lemma keys_dict_set {V : Type} (d : dict V) (k : atom) (v : V) :
  keys (dict_set d k v) =
  if dict_mem k d then keys d else keys d ++ [key_of k].
Proof.
  unfold dict_mem, keys. induction d as [|[x w] d IH]; simpl; [reflexivity|].
  destruct (py_eqb k x) eqn:E; simpl; [reflexivity|].
  rewrite IH. now destruct (dict_lookup k d).
Qed.

Lemma In_dict_set {V : Type} (d : dict V) (k : atom) (v : V) (item : atom * V) :
  In item (dict_set d k v) ->
  In item d \/ (snd item = v /\ key_of (fst item) = key_of k).
Proof.
  induction d as [|[x w] d IH]; simpl.
  - intros [<-|[]]. right. auto.
  - destruct (py_eqb k x) eqn:E; simpl.
    + intros [<-|H]; [|auto]. right. simpl. apply py_eqb_eq in E. auto.
    + intros [<-|H]; [auto|]. destruct (IH H); auto.
Qed.

Lemma dd_wf_nil : dd_wf [].
Proof. split; constructor. Qed.

Lemma dd_wf_lookup (d : defaultdict) (k : atom) (s : pyset) :
  dd_wf d -> dict_lookup k d = Some s -> s <> [] /\ NoDup (map key_of s).
Proof.
  intros [_ H] Hl. apply dict_lookup_In in Hl as (k' & Hin & _).
  rewrite Forall_forall in H. exact (H _ Hin).
Qed.

Lemma dd_wf_get (d : defaultdict) (k : atom) :
  dd_wf d -> NoDup (map key_of (dict_get d k [])).
Proof.
  intros H. unfold dict_get. destruct (dict_lookup k d) eqn:E.
  - now apply (dd_wf_lookup d k).
  - constructor.
Qed.

Lemma NoDup_snoc {A : Type} (l : list A) (x : A) :
  NoDup l -> ~ In x l -> NoDup (l ++ [x]).
Proof.
  intros Hl Hx. apply NoDup_rev in Hl. rewrite <- (rev_involutive (l ++ [x])).
  apply NoDup_rev. rewrite rev_app_distr. simpl. constructor; [|assumption].
  now rewrite <- in_rev.
Qed.

Lemma dd_add_wf (d : defaultdict) (k v : atom) : dd_wf d -> dd_wf (dd_add d k v).
Proof.
  intros Hd. pose proof Hd as [Hk Hs]. unfold dd_add. split.
  - rewrite keys_dict_set. destruct (dict_mem k d) eqn:E; [assumption|].
    apply NoDup_snoc; [assumption|]. intros Hin.
    apply dict_mem_keys in Hin. congruence.
  - rewrite Forall_forall in *. intros item Hin.
    apply In_dict_set in Hin as [Hin|[-> _]]; [now apply Hs|].
    split; [apply set_add_nonempty|]. apply set_add_NoDup. now apply dd_wf_get.
Qed.

Lemma dd_fold_wf (ps : list (atom * atom)) (d : defaultdict) :
  dd_wf d -> dd_wf (fold_left dd_add_pair ps d).
Proof.
  revert d. induction ps as [|p ps IH]; simpl; intros d Hd; [assumption|].
  apply IH. now apply dd_add_wf.
Qed.

Lemma dd_of_pairs_wf (ps : list (atom * atom)) : dd_wf (dd_of_pairs ps).
Proof. apply dd_fold_wf, dd_wf_nil. Qed.

Lemma dd_add_get (d : defaultdict) (k v t : atom) :
  dict_get (dd_add d k v) t [] =
  if py_eqb t k then set_add v (dict_get d k []) else dict_get d t [].
Proof.
  unfold dd_add, dict_get at 1. rewrite dict_lookup_set.
  now destruct (py_eqb t k).
Qed.

Lemma dd_add_keys (d : defaultdict) (k v : atom) (x : pykey) :
  In x (keys (dd_add d k v)) <-> In x (keys d) \/ x = key_of k.
Proof.
  unfold dd_add. rewrite keys_dict_set.
  destruct (dict_mem k d) eqn:E.
  - apply dict_mem_keys in E. split; [auto|]. intros [H| ->]; assumption.
  - rewrite in_app_iff. simpl. intuition.
Qed.

(** The elements of the set of tactic [t] after a sequence of additions. *)
Lemma dd_fold_elements (ps : list (atom * atom)) (d : defaultdict) (t : atom)
    (x : pykey) :
  In x (map key_of (dict_get (fold_left dd_add_pair ps d) t [])) <->
  In x (map key_of (dict_get d t [])) \/
  In x (map (fun p => key_of (snd p)) (filter (fun p => py_eqb t (fst p)) ps)).
Proof.
  revert d. induction ps as [|[k v] ps IH]; intros d; simpl.
  - tauto.
  - rewrite IH. unfold dd_add_pair. simpl. rewrite dd_add_get.
    destruct (py_eqb t k) eqn:E; simpl.
    + rewrite set_add_In. apply py_eqb_eq in E.
      rewrite (dict_get_key k t d [] (eq_sym E)). intuition.
    + tauto.
Qed.

(** The keys after a sequence of additions. *)
Lemma dd_fold_keys (ps : list (atom * atom)) (d : defaultdict) (x : pykey) :
  In x (keys (fold_left dd_add_pair ps d)) <->
  In x (keys d) \/ In x (map (fun p => key_of (fst p)) ps).
Proof.
  revert d. induction ps as [|[k v] ps IH]; intros d; simpl.
  - tauto.
  - rewrite IH. unfold dd_add_pair. simpl. rewrite dd_add_keys.
    intuition.
Qed.

(** The size of the set of tactic [t]: the distinct ids added for it. *)
Lemma dd_of_pairs_length (ps : list (atom * atom)) (t : atom) :
  List.length (dict_get (dd_of_pairs ps) t []) =
  List.length
    (nodup pykey_eq_dec
       (map (fun p => key_of (snd p)) (filter (fun p => py_eqb t (fst p)) ps))).
Proof.
  rewrite <- (length_map key_of (dict_get _ t [])).
  apply Permutation_length, NoDup_Permutation.
  - apply dd_wf_get, dd_of_pairs_wf.
  - apply NoDup_nodup.
  - intros x. unfold dd_of_pairs. rewrite dd_fold_elements, nodup_In.
    simpl. tauto.
Qed.

(* ================================================================== *)
(** ** Running the code against reading the document *)

Lemma bind_Ok {A B : Type} (r : result A) (k : A -> result B) (b : B) :
  bind r k = Ok b -> exists a, r = Ok a /\ k a = Ok b.
Proof. destruct r as [a|e]; simpl; [eauto|discriminate]. Qed.

(** Splits a successful sequence of statements into its steps. *)
Ltac run H :=
  match type of H with
  | bind _ _ = Ok _ =>
      let a := fresh "v" in
      let Ha := fresh "Hv" in
      apply bind_Ok in H as (a & Ha & H); run Ha; run H
  | (if ?c then _ else _) = Ok _ =>
      let E := fresh "Hc" in destruct c eqn:E; run H
  | Ok _ = Ok _ => injection H as H
  | Err _ = Ok _ => discriminate H
  | _ => idtac
  end.

Lemma py_get_field (o : json) (k : string) (default v : json) :
  py_get o k default = Ok v -> v = field k default o.
Proof. destruct o; simpl; congruence. Qed.

Lemma py_getitem_field (o : json) (k : string) (default v : json) :
  py_getitem o k = Ok v -> v = field k default o.
Proof.
  destruct o as [a|l|fs]; simpl; try discriminate.
  destruct (assoc k fs); congruence.
Qed.

Lemma py_iter_elements (o : json) (l : list json) :
  py_iter o = Ok l -> l = elements o.
Proof. unfold elements. now intros ->. Qed.

Lemma for_each_fold {A S P : Type} (body : S -> A -> result S)
    (g : S -> P -> S) (h : A -> list P) :
  (forall s x s', body s x = Ok s' -> s' = fold_left g (h x) s) ->
  forall l s s', for_each body l s = Ok s' -> s' = fold_left g (flat_map h l) s.
Proof.
  intros Hb. induction l as [|x l IH]; simpl; intros s s' H.
  - congruence.
  - run H. rewrite fold_left_app. apply Hb in Hv. subst v. now apply IH.
Qed.

Lemma for_each_app {A S : Type} (body : S -> A -> result S) (l1 l2 : list A)
    (s : S) :
  for_each body (l1 ++ l2) s = (s' <- for_each body l1 s ;; for_each body l2 s').
Proof.
  revert s. induction l1 as [|x l1 IH]; simpl; intros s; [reflexivity|].
  destruct (body s x); simpl; [apply IH|reflexivity].
Qed.

(** [for phase in phases: d[phase].add(v)] ran to the end: every phase
    was hashable, and so was [v] unless there was no phase at all. *)
Lemma add_to_phases_Ok (phases : list json) (v : json) (d d' : defaultdict) :
  add_to_phases d phases v = Ok d' ->
  phases = map JAtom (atoms phases) /\
  match v with
  | JAtom a => d' = fold_left dd_add_pair (map (fun ph => (ph, a)) (atoms phases)) d
  | _ => phases = [] /\ d' = d
  end.
Proof.
  unfold add_to_phases. revert d.
  induction phases as [|ph phases IH]; simpl; intros d H.
  - injection H as <-. split; [reflexivity|]. destruct v; auto.
  - unfold defaultdict_add in H at 1. run H.
    destruct ph as [k| |]; try discriminate.
    destruct v as [a| |]; try discriminate.
    simpl in *.
    repeat match goal with Hg : Ok _ = Ok _ |- _ => injection Hg as Hg end.
    subst. destruct (IH _ H) as [Hp Hd]. split; [now f_equal|exact Hd].
Qed.

Lemma phase_names_comprehension (ps phases : list json) :
  comprehension phase_name_if_present ps = Ok phases ->
  phases =
  flat_map
    (fun p => match p with
              | JObj fields =>
                  match assoc "phase_name" fields with
                  | Some v => [v]
                  | None => []
                  end
              | _ => []
              end) ps.
Proof.
  revert phases. induction ps as [|p ps IH]; simpl; intros phases H.
  - congruence.
  - run H. rewrite <- (IH _ Hv0). subst phases.
    unfold phase_name_if_present in Hv.
    destruct p as [[| | | |s]|l|fs]; simpl in Hv; try discriminate.
    + destruct (occurs_in "phase_name" s); simpl in Hv; [discriminate|].
      now injection Hv as <-.
    + destruct (existsb _ l); simpl in Hv; [discriminate|].
      now injection Hv as <-.
    + destruct (assoc "phase_name" fs); simpl in Hv; now injection Hv as <-.
Qed.

(** Replaces the values a run has read by the fields they were read from. *)
Ltac reads :=
  repeat match goal with
         | Hg : py_get _ _ _ = Ok _ |- _ => apply py_get_field in Hg
         | Hg : py_iter _ = Ok _ |- _ => apply py_iter_elements in Hg
         | Hg : comprehension phase_name_if_present _ = Ok _ |- _ =>
             apply phase_names_comprehension in Hg
         end;
  subst.

(** One turn of the loader's loop adds the pairs of its object. *)
Lemma load_subtechniques_step_pairs (d d' : defaultdict) (obj : json) :
  load_subtechniques_step d obj = Ok d' ->
  d' = fold_left dd_add_pair (subtechnique_pairs obj) d /\
  map fst (subtechnique_pairs obj) =
  (if counted_subtechnique obj then atoms (phase_names obj) else []).
Proof.
  unfold load_subtechniques_step, subtechnique_pairs, counted_subtechnique,
    live_subtechnique, is_attack_pattern, is_revoked, is_subtechnique,
    has_reference_list, first_external_id, first_reference, external_references,
    phase_names.
  intros H. run H; reads;
    try (rewrite ?Hc, ?Hc0, ?Hc1, ?Hc2; simpl; split; reflexivity).
  rewrite Hc, Hc0, Hc1, Hc2. simpl.
  apply andb_true_iff in Hc2 as [_ Hl].
  destruct (field "external_references" (JArr []) obj) as [|[|x l]|];
    try discriminate.
  match goal with Hg : py_getitem0 _ = Ok _ |- _ => injection Hg as <- end.
  apply add_to_phases_Ok in H as [Hp Hd].
  destruct (field "external_id" JNone x) as [a| |].
  - split; [exact Hd|]. rewrite map_map. simpl. apply map_id.
  - destruct Hd as [Hn ->]. rewrite Hn. split; reflexivity.
  - destruct Hd as [Hn ->]. rewrite Hn. split; reflexivity.
Qed.

Lemma load_subtechniques_by_tactic_pairs (mitre_data : json) (d : defaultdict) :
  load_subtechniques_by_tactic mitre_data = Ok d ->
  d = dd_of_pairs (corpus_pairs mitre_data).
Proof.
  unfold load_subtechniques_by_tactic, dd_of_pairs, corpus_pairs, corpus_objects.
  intros H. run H. apply py_get_field in Hv. apply py_iter_elements in Hv0.
  subst. revert H. apply for_each_fold.
  intros s x s' Hs. now apply load_subtechniques_step_pairs.
Qed.

(** One Match adds its pairs to the matched sets. *)
Lemma extract_matched_match_pairs (d d' : defaultdict) (mt : json) :
  extract_matched_match d mt = Ok d' ->
  d' = fold_left dd_add_pair (match_pairs mt) d.
Proof.
  unfold extract_matched_match, match_pairs. intros H. run H.
  - apply (py_getitem_field _ _ JNone) in Hv.
    apply py_get_field in Hv1. apply py_iter_elements in Hv2. subst.
    apply add_to_phases_Ok in H as [Hp Hd].
    destruct (field "id" JNone mt) as [[| | | |tid]|l|fs]; simpl in Hv0;
      try discriminate.
    + injection Hv0 as ->. exact Hd.
    + destruct Hd as [_ ->]. reflexivity.
    + destruct Hd as [_ ->]. reflexivity.
  - apply (py_getitem_field _ _ JNone) in Hv. subst.
    destruct (field "id" JNone mt) as [[| | | |tid]|l|fs]; simpl in Hv0;
      try discriminate; try reflexivity.
    injection Hv0 as ->. reflexivity.
Qed.

Lemma extract_matched_entry_pairs (d d' : defaultdict) (entry : json) :
  extract_matched_entry d entry = Ok d' ->
  d' = fold_left dd_add_pair (entry_pairs entry) d.
Proof.
  unfold extract_matched_entry, entry_pairs. intros H. run H.
  apply (py_getitem_field _ _ (JArr [])) in Hv. apply py_iter_elements in Hv0.
  subst. revert H. apply for_each_fold.
  intros s x s'. apply extract_matched_match_pairs.
Qed.

Lemma extract_matched_subtechniques_by_tactic_pairs (results_json : json)
    (d : defaultdict) :
  extract_matched_subtechniques_by_tactic results_json = Ok d ->
  d = dd_of_pairs (results_pairs results_json).
Proof.
  unfold extract_matched_subtechniques_by_tactic, dd_of_pairs, results_pairs.
  intros H. run H. apply py_iter_elements in Hv. subst. revert H.
  apply for_each_fold. intros s x s'. apply extract_matched_entry_pairs.
Qed.

(** The tactics of the pairs the loader adds are the phase names of the
    sub-techniques it counts. *)
Lemma load_subtechniques_tactics (objs : list json) (d d' : defaultdict) :
  for_each load_subtechniques_step objs d = Ok d' ->
  map fst (flat_map subtechnique_pairs objs) =
  flat_map (fun obj => if counted_subtechnique obj then atoms (phase_names obj) else [])
           objs.
Proof.
  revert d. induction objs as [|obj objs IH]; simpl; intros d H; [reflexivity|].
  run H. rewrite map_app. apply load_subtechniques_step_pairs in Hv as [_ ->].
  f_equal. now apply (IH v).
Qed.

Lemma corpus_pairs_tactics (mitre_data : json) (d : defaultdict) :
  load_subtechniques_by_tactic mitre_data = Ok d ->
  map fst (corpus_pairs mitre_data) = counted_tactics mitre_data.
Proof.
  unfold load_subtechniques_by_tactic, corpus_pairs, counted_tactics, corpus_objects.
  intros H. run H. reads. now apply (load_subtechniques_tactics _ []) with (d' := d).
Qed.

(* ================================================================== *)
(** ** The coverage loop *)

(** What the loop over [total_subs.items()] leaves under each tactic. *)
Lemma coverage_loop_lookup (matched_subs : defaultdict) (total_subs : defaultdict)
    (acc coverage : dict tactic_coverage) :
  NoDup (keys total_subs) ->
  for_each (coverage_step matched_subs) total_subs acc = Ok coverage ->
  forall tactic,
    match dict_lookup tactic total_subs with
    | Some total_ids =>
        exists score,
          coverage_score (dict_get matched_subs tactic []) total_ids = Ok score /\
          dict_lookup tactic coverage =
          Some {| matched := len (dict_get matched_subs tactic []);
                  total := len total_ids;
                  coverage_percent := py_round score 2 |}
    | None => dict_lookup tactic coverage = dict_lookup tactic acc
    end.
Proof.
  revert acc. induction total_subs as [|[k ids] rest IH]; simpl; intros acc Hk H t.
  - congruence.
  - inversion Hk as [|? ? Hnotin Hrest]; subst.
    unfold coverage_step in H at 1. run H. subst.
    specialize (IH _ Hrest H t).
    destruct (py_eqb t k) eqn:E.
    + apply py_eqb_eq in E.
      assert (Hn : dict_lookup t rest = None).
      { apply dict_lookup_None_keys. now rewrite E. }
      rewrite Hn in IH. rewrite IH, dict_lookup_set.
      assert (Ek : py_eqb t k = true) by now apply py_eqb_eq.
      rewrite Ek, (dict_get_key t k matched_subs [] E). eauto.
    + destruct (dict_lookup t rest); [exact IH|].
      now rewrite IH, dict_lookup_set, E.
Qed.

(** A non-empty total is divided by its size. *)
Lemma coverage_score_nonempty (matched_ids total_ids : pyset) (score : number) :
  total_ids <> [] ->
  coverage_score matched_ids total_ids = Ok score ->
  exists q,
    int_true_divide (len matched_ids) (len total_ids) = Ok q /\
    score = NFloat (float_mul_int q 100).
Proof.
  intros Hn H. destruct total_ids as [|x l]; [congruence|].
  unfold coverage_score in H. run H. eauto.
Qed.

Lemma matched_within_total_get (matched_subs total_subs : defaultdict) (t : atom) :
  matched_within_total matched_subs total_subs = true ->
  set_subset (dict_get matched_subs t []) (dict_get total_subs t []) = true.
Proof.
  unfold matched_within_total. rewrite forallb_forall. intros H.
  unfold dict_get at 1. destruct (dict_lookup t matched_subs) as [s|] eqn:E;
    [|reflexivity].
  apply dict_lookup_In in E as (k' & Hin & Hk).
  specialize (H _ Hin). simpl in H.
  now rewrite (dict_get_key t k' total_subs [] Hk).
Qed.

(** The size of a matched set that lies inside its total set. *)
Lemma matched_len_le_total (matched_subs total_subs : defaultdict)
    (tactic : atom) (total_ids : pyset) :
  dd_wf matched_subs ->
  matched_within_total matched_subs total_subs = true ->
  dict_lookup tactic total_subs = Some total_ids ->
  len (dict_get matched_subs tactic []) <= len total_ids.
Proof.
  intros Hwf Hw El. unfold len. apply inj_le.
  pose proof (matched_within_total_get _ _ tactic Hw) as Hs.
  unfold dict_get at 2 in Hs. rewrite El in Hs.
  apply set_subset_length; [|exact Hs]. now apply dd_wf_get.
Qed.

(* ================================================================== *)
(** ** Exceptions that cannot be raised *)

Lemma raises_bind {A B : Type} (e : exn) (r : result A) (k : A -> result B) :
  raises e r = false -> (forall a, raises e (k a) = false) ->
  raises e (bind r k) = false.
Proof. destruct r; simpl; auto. Qed.

Lemma raises_for_each {A S : Type} (e : exn) (body : S -> A -> result S)
    (l : list A) (s : S) :
  (forall s x, raises e (body s x) = false) ->
  raises e (for_each body l s) = false.
Proof.
  intros Hb. revert s. induction l as [|x l IH]; simpl; intros s; [reflexivity|].
  apply raises_bind; auto.
Qed.

Lemma raises_comprehension {A B : Type} (e : exn) (f : A -> result (option B))
    (l : list A) :
  (forall x, raises e (f x) = false) ->
  raises e (comprehension f l) = false.
Proof.
  intros Hf. induction l as [|x l IH]; simpl; [reflexivity|].
  apply raises_bind; [apply Hf|]. intros o. apply raises_bind; [apply IH|].
  reflexivity.
Qed.

Lemma no_division_py_get (o : json) (k : string) (default : json) :
  raises ZeroDivisionError (py_get o k default) = false.
Proof. now destruct o. Qed.

Lemma no_division_py_getitem (o : json) (k : string) :
  raises ZeroDivisionError (py_getitem o k) = false.
Proof. destruct o as [| |fs]; simpl; try reflexivity. now destruct (assoc k fs). Qed.

Lemma no_division_py_getitem0 (o : json) :
  raises ZeroDivisionError (py_getitem0 o) = false.
Proof. now destruct o as [[| | | |[|c s]]|[|x l]|fs]. Qed.

Lemma no_division_py_contains (needle : string) (o : json) :
  raises ZeroDivisionError (py_contains needle o) = false.
Proof. now destruct o as [[| | | |s]|l|fs]. Qed.

Lemma no_division_py_iter (o : json) :
  raises ZeroDivisionError (py_iter o) = false.
Proof. now destruct o as [[| | | |s]|l|fs]. Qed.

Lemma no_division_hashable (v : json) :
  raises ZeroDivisionError (hashable v) = false.
Proof. now destruct v. Qed.

(** Walks through a sequence of statements none of which divides. *)
Ltac no_division :=
  repeat first
    [ reflexivity
    | apply no_division_py_get
    | apply no_division_py_getitem
    | apply no_division_py_getitem0
    | apply no_division_py_contains
    | apply no_division_py_iter
    | apply no_division_hashable
    | apply raises_bind; [|intros]
    | apply raises_for_each; intros
    | apply raises_comprehension; intros
    | match goal with
      | |- raises _ (if ?c then _ else _) = false => destruct c
      end ].

Lemma no_division_add_to_phases (d : defaultdict) (phases : list json) (v : json) :
  raises ZeroDivisionError (add_to_phases d phases v) = false.
Proof. unfold add_to_phases, defaultdict_add. no_division. Qed.

Lemma no_division_load (mitre_data : json) :
  raises ZeroDivisionError (load_subtechniques_by_tactic mitre_data) = false.
Proof.
  unfold load_subtechniques_by_tactic, load_subtechniques_step,
    phase_name_if_present.
  no_division; apply no_division_add_to_phases.
Qed.

Lemma no_division_extract (results_json : json) :
  raises ZeroDivisionError (extract_matched_subtechniques_by_tactic results_json)
  = false.
Proof.
  unfold extract_matched_subtechniques_by_tactic, extract_matched_entry,
    extract_matched_match.
  no_division; apply no_division_add_to_phases.
Qed.

Lemma no_division_score (matched_ids total_ids : pyset) :
  raises ZeroDivisionError (coverage_score matched_ids total_ids) = false.
Proof.
  destruct total_ids as [|x l]; [reflexivity|]. unfold coverage_score.
  apply raises_bind; [|reflexivity].
  unfold int_true_divide, len.
  replace (Z.of_nat (List.length (x :: l)) =? 0) with false.
  - now destruct (SFdiv _ _ _ _).
  - symmetry. apply Z.eqb_neq. simpl List.length. lia.
Qed.

Lemma calculate_coverage_lookup (mitre_data results_data : json)
    (total_subs matched_subs : defaultdict) (coverage : dict tactic_coverage) :
  load_subtechniques_by_tactic mitre_data = Ok total_subs ->
  extract_matched_subtechniques_by_tactic results_data = Ok matched_subs ->
  calculate_coverage mitre_data results_data = Ok coverage ->
  forall tactic,
    match dict_lookup tactic total_subs with
    | Some total_ids =>
        exists score,
          coverage_score (dict_get matched_subs tactic []) total_ids = Ok score /\
          dict_lookup tactic coverage =
          Some {| matched := len (dict_get matched_subs tactic []);
                  total := len total_ids;
                  coverage_percent := py_round score 2 |}
    | None => dict_lookup tactic coverage = None
    end.
Proof.
  intros HT HM H tactic. unfold calculate_coverage in H. rewrite HT, HM in H.
  simpl in H. apply load_subtechniques_by_tactic_pairs in HT.
  pose proof (coverage_loop_lookup matched_subs total_subs [] coverage) as L.
  assert (Hk : NoDup (keys total_subs)) by (subst; apply dd_of_pairs_wf).
  exact (L Hk H tactic).
Qed.




(** C2 (amended). A tactic entry of a coverage result has
    [matched <= total] whenever the matched set of that tactic lies
    inside its total set; nothing is asked of the other tactics, nor of
    the tactics the results name and the corpus does not. *)
Theorem matched_le_total_within_universe :
  forall (mitre_data results_data : json) (total_subs matched_subs : defaultdict)
         (coverage : dict tactic_coverage) (tactic : atom)
         (entry : tactic_coverage),
    load_subtechniques_by_tactic mitre_data = Ok total_subs ->
    extract_matched_subtechniques_by_tactic results_data = Ok matched_subs ->
    calculate_coverage mitre_data results_data = Ok coverage ->
    dict_lookup tactic coverage = Some entry ->
    set_subset (dict_get matched_subs tactic []) (dict_get total_subs tactic [])
    = true ->
    matched entry <= total entry.
Proof.
  intros mitre_data results_data total_subs matched_subs coverage tactic entry
    HT HM H He Hs.
  pose proof (calculate_coverage_lookup _ _ _ _ _ HT HM H tactic) as L.
  unfold dict_get at 2 in Hs.
  destruct (dict_lookup tactic total_subs) as [total_ids|] eqn:El; [|congruence].
  destruct L as (score & _ & Hc). rewrite He in Hc. injection Hc as ->. simpl.
  unfold len. apply inj_le. apply set_subset_length; [|exact Hs].
  apply extract_matched_subtechniques_by_tactic_pairs in HM. subst matched_subs.
  apply dd_wf_get, dd_of_pairs_wf.
Qed.

Lemma matched_le_total_within_universe_witness :
  matched execution_entry <= total execution_entry.
Proof.
  exact (matched_le_total_within_universe
           execution_corpus mixed_results execution_total mixed_matched
           [(AStr "execution", execution_entry)] (AStr "execution") execution_entry
           eq_refl eq_refl eq_refl eq_refl eq_refl).
Defined.

(** C2, as stated, fails: two matched ids against one sub-technique of
    the corpus give [matched = 2] and [total = 1]. *)
Lemma matched_exceeds_total :
  exists (coverage : dict tactic_coverage) (entry : tactic_coverage),
    calculate_coverage single_corpus surplus_results = Ok coverage /\
    dict_lookup (AStr "execution") coverage = Some entry /\
    matched entry = 2 /\ total entry = 1 /\ total entry < matched entry.
Proof.
  exists [(AStr "execution",
           {| matched := 2; total := 1;
              coverage_percent := NFloat (float_of_int 200) |})].
  eexists. repeat split; try (vm_compute; reflexivity).
Qed.

(** A run of [calculate_coverage_per_tactic], in one equation. *)
Lemma calculate_coverage_per_tactic_run (mitre_json_file results_json_file : string)
    (w : world) :
  calculate_coverage_per_tactic mitre_json_file results_json_file w =
  (mitre_data <- fst (json_load_file mitre_json_file w) ;;
   results_data <- fst (json_load_file results_json_file w) ;;
   calculate_coverage mitre_data results_data,
   {| files := files w;
      log := log w ++ [("Calculating score for each technique...", None)] |}).
Proof.
  unfold calculate_coverage_per_tactic, io_bind, logging_info, json_load_file, lift.
  simpl.
  destruct (assoc mitre_json_file (files w)) as [[m|]|]; simpl; try reflexivity.
  destruct (assoc results_json_file (files w)) as [[r|]|]; reflexivity.
Qed.

(** C7. [calculate_coverage_per_tactic] never divides by zero, on the
    loaded documents or on the files; and the turn of its loop for a
    tactic whose total set is empty stores [coverage_percent = 0] (the
    int, which [round] leaves as it is) with [total = 0]. *)
Theorem coverage_never_divides_by_zero :
  (forall mitre_data results_data : json,
      raises ZeroDivisionError (calculate_coverage mitre_data results_data) = false) /\
  (forall (mitre_json_file results_json_file : string) (w : world),
      raises ZeroDivisionError
        (fst (calculate_coverage_per_tactic mitre_json_file results_json_file w))
      = false) /\
  (forall (matched_subs : defaultdict) (coverage : dict tactic_coverage)
          (tactic : atom),
      coverage_step matched_subs coverage (tactic, [])
      = Ok (dict_set coverage tactic
              {| matched := len (dict_get matched_subs tactic []);
                 total := 0;
                 coverage_percent := NInt 0 |})).
Proof.
  assert (A : forall mitre_data results_data : json,
             raises ZeroDivisionError (calculate_coverage mitre_data results_data)
             = false).
  { intros. unfold calculate_coverage.
    apply raises_bind; [apply no_division_load|]. intros total_subs.
    apply raises_bind; [apply no_division_extract|]. intros matched_subs.
    apply raises_for_each. intros coverage [tactic total_ids].
    unfold coverage_step. apply raises_bind; [apply no_division_score|].
    reflexivity. }
  split; [exact A|]. split; [|reflexivity].
  intros f1 f2 w. rewrite calculate_coverage_per_tactic_run.
  unfold json_load_file. simpl.
  destruct (assoc f1 (files w)) as [[m|]|]; simpl; try reflexivity.
  destruct (assoc f2 (files w)) as [[r|]|]; simpl; try reflexivity.
  apply A.
Qed.

(** C9. [calculate_coverage_per_tactic] computes its result from the two
    documents alone; run twice in a row on the same two files it returns
    the same result (the same mapping, or the same exception), and it
    leaves every file as it was: a run only adds one record to the log. *)
Theorem calculate_coverage_per_tactic_idempotent :
  forall (mitre_json_file results_json_file : string) (w : world),
    let first := calculate_coverage_per_tactic mitre_json_file results_json_file w in
    let second :=
      calculate_coverage_per_tactic mitre_json_file results_json_file (snd first) in
    fst first
    = (mitre_data <- fst (json_load_file mitre_json_file w) ;;
       results_data <- fst (json_load_file results_json_file w) ;;
       calculate_coverage mitre_data results_data) /\
    fst second = fst first /\
    files (snd first) = files w /\
    files (snd second) = files w /\
    log (snd first) = log w ++ [("Calculating score for each technique...", None)].
Proof.
  intros f1 f2 w. cbv zeta. rewrite !calculate_coverage_per_tactic_run.
  simpl. repeat split; reflexivity.
Qed.

(** C10 (amended). The keys of the mapping [calculate_coverage_per_tactic]
    returns are exactly the phase names of the non-revoked sub-techniques
    that have a non-empty list of external references: the loader skips a
    sub-technique without one, so its phase names are no keys. A tactic
    that occurs in the match results only is no key either. *)
Theorem coverage_keys_are_counted_tactics :
  forall (mitre_data results_data : json) (coverage : dict tactic_coverage),
    calculate_coverage mitre_data results_data = Ok coverage ->
    forall tactic : atom,
      dict_mem tactic coverage = true <->
      In (key_of tactic) (map key_of (counted_tactics mitre_data)).
Proof.
  intros mitre_data results_data coverage H tactic.
  pose proof H as H'. unfold calculate_coverage in H'. run H'.
  pose proof (calculate_coverage_lookup _ _ _ _ _ Hv Hv0 H tactic) as L.
  rewrite <- (corpus_pairs_tactics _ _ Hv), map_map.
  pose proof (load_subtechniques_by_tactic_pairs _ _ Hv) as Hd.
  pose proof (dd_fold_keys (corpus_pairs mitre_data) [] (key_of tactic)) as K.
  fold (dd_of_pairs (corpus_pairs mitre_data)) in K. rewrite <- Hd in K.
  simpl in K. rewrite <- dict_mem_keys in K.
  assert (E : dict_mem tactic coverage = dict_mem tactic v).
  { unfold dict_mem. destruct (dict_lookup tactic v).
    - destruct L as (score & _ & ->). reflexivity.
    - now rewrite L. }
  rewrite E, K. tauto.
Qed.

Lemma coverage_keys_are_counted_tactics_witness :
  dict_mem (AStr "execution") [(AStr "execution", execution_entry)] = true <->
  In (key_of (AStr "execution")) (map key_of (counted_tactics execution_corpus)).
Proof.
  exact (coverage_keys_are_counted_tactics
           execution_corpus execution_results
           [(AStr "execution", execution_entry)] eq_refl (AStr "execution")).
Defined.

(** C10, as stated, fails: the phase name of a non-revoked sub-technique
    without external references is no key of the result. *)
Lemma unreferenced_subtechnique_has_no_key :
  live_subtechnique_tactics unreferenced_corpus = [AStr "execution"] /\
  calculate_coverage unreferenced_corpus execution_results = Ok [] /\
  dict_mem (AStr "execution") (@nil (atom * tactic_coverage)) = false.
Proof. repeat split; vm_compute; reflexivity. Qed.

(** Every id in a matched set is a string with a dot. *)
Lemma match_pairs_dotted (mt : json) (p : atom * atom) :
  In p (match_pairs mt) ->
  exists tid, snd p = AStr tid /\ occurs_in "." tid = true.
Proof.
  unfold match_pairs.
  destruct (field "id" JNone mt) as [[| | | |tid]|l|fs]; simpl;
    try contradiction.
  destruct (occurs_in "." tid) eqn:E; simpl; [|contradiction].
  intros H. apply in_map_iff in H as (ph & <- & _). exists tid. auto.
Qed.

Lemma results_pairs_dotted (results_json : json) (p : atom * atom) :
  In p (results_pairs results_json) ->
  exists tid, snd p = AStr tid /\ occurs_in "." tid = true.
Proof.
  unfold results_pairs, entry_pairs. intros H.
  apply in_flat_map in H as (entry & _ & H).
  apply in_flat_map in H as (mt & _ & H).
  now apply (match_pairs_dotted mt).
Qed.

(** C6. A Match whose id is a string without a dot leaves every matched
    set as it was; no matched set the extraction returns holds such an
    id; and the coverage computed from a results document is the coverage
    computed from the document with that Match taken out. *)
Theorem dotless_match_never_counted :
  forall (tid : string) (fields : list (string * json)),
    assoc "id" fields = Some (JStr tid) ->
    occurs_in "." tid = false ->
    (forall matched : defaultdict,
        extract_matched_match matched (JObj fields) = Ok matched) /\
    (forall (results_json : json) (matched_subs : defaultdict) (tactic : atom),
        extract_matched_subtechniques_by_tactic results_json = Ok matched_subs ->
        set_mem (AStr tid) (dict_get matched_subs tactic []) = false) /\
    (forall (mitre_data : json) (before after : list json)
            (entry entry' : list (string * json)) (ms1 ms2 : list json),
        assoc "matches" entry = Some (JArr (ms1 ++ JObj fields :: ms2)) ->
        assoc "matches" entry' = Some (JArr (ms1 ++ ms2)) ->
        calculate_coverage mitre_data (JArr (before ++ JObj entry :: after)) =
        calculate_coverage mitre_data (JArr (before ++ JObj entry' :: after))).
Proof.
  intros tid fields Hid Hdot.
  assert (Hstep : forall matched : defaultdict,
             extract_matched_match matched (JObj fields) = Ok matched).
  { intros matched. unfold extract_matched_match. simpl. rewrite Hid. simpl.
    now rewrite Hdot. }
  split; [exact Hstep|]. split.
  - intros results_json matched_subs tactic H.
    apply extract_matched_subtechniques_by_tactic_pairs in H. subst matched_subs.
    destruct (set_mem (AStr tid) _) eqn:E; [|reflexivity]. exfalso.
    apply set_mem_In in E. unfold dd_of_pairs in E.
    apply dd_fold_elements in E as [[]|E].
    apply in_map_iff in E as (p & Hp & Hin). apply filter_In in Hin as [Hin _].
    apply results_pairs_dotted in Hin as (tid' & Hs & Hd).
    rewrite Hs in Hp. simpl in Hp. injection Hp as ->. congruence.
  - intros mitre_data before after entry entry' ms1 ms2 He He'.
    unfold calculate_coverage. f_equal.
    unfold extract_matched_subtechniques_by_tactic. simpl.
    rewrite !for_each_app. simpl.
    destruct (for_each extract_matched_entry before []) as [m|e]; simpl;
      [|reflexivity].
    replace (extract_matched_entry m (JObj entry))
      with (extract_matched_entry m (JObj entry')); [reflexivity|].
    unfold extract_matched_entry. simpl. rewrite He, He'. simpl.
    rewrite !for_each_app. simpl.
    destruct (for_each extract_matched_match ms1 m) as [m1|e]; simpl;
      [|reflexivity].
    now rewrite Hstep.
Qed.

Lemma dotless_match_never_counted_witness :
  extract_matched_match execution_matched (example_match "T1059" ["execution"])
  = Ok execution_matched.
Proof.
  exact (proj1 (dotless_match_never_counted
                  "T1059"
                  [("id", JStr "T1059"); ("name", JStr "technique");
                   ("phases", JArr [JStr "execution"])]
                  eq_refl eq_refl)
               execution_matched).
Defined.

(** C3, at its failing input: an attack-pattern whose [external_references]
    is an empty list makes [extract_techniques] raise [IndexError], where
    the absent key and the reference without [external_id] give the id
    ["null"]. *)
Theorem extract_techniques_empty_references_raise :
  extract_techniques empty_references_corpus = Err IndexError /\
  extract_techniques missing_references_corpus
  = Ok [JObj [("id", JStr "null"); ("name", JStr "Phishing");
              ("description", JStr ""); ("phases", JArr [])];
        JObj [("id", JStr "null"); ("name", JStr "Valid Accounts");
              ("description", JStr ""); ("phases", JArr [])]].
Proof. split; reflexivity. Qed.

(** C5, at its failing input: a sub-technique whose first reference has
    no [external_id] puts [None] in the set of its tactic, so the set has
    one element where the corpus has no sub-technique id for the tactic. *)
Theorem loader_counts_absent_external_id :
  load_subtechniques_by_tactic anonymous_corpus
  = Ok [(AStr "execution", [ANone])] /\
  len (dict_get [(AStr "execution", [ANone])] (AStr "execution") []) = 1 /\
  distinct_subtechnique_ids anonymous_corpus (AStr "execution") = [].
Proof. repeat split; reflexivity. Qed.

(* ================================================================== *)
(** ** The matches of [mitre_semantic] *)

Lemma io_bind_Ok {A B : Type} (c : io A) (k : A -> io B) (w w' : world) (b : B) :
  io_bind c k w = (Ok b, w') ->
  exists a w1, c w = (Ok a, w1) /\ k a w1 = (Ok b, w').
Proof.
  unfold io_bind. destruct (c w) as [[a|e] w1]; [eauto|discriminate].
Qed.

Lemma io_bind_run {A B : Type} (c : io A) (k : A -> io B) (w w1 : world) (a : A) :
  c w = (Ok a, w1) -> io_bind c k w = k a w1.
Proof. unfold io_bind. now intros ->. Qed.

Lemma lift_Ok {A : Type} (r : result A) (w w' : world) (a : A) :
  lift r w = (Ok a, w') -> r = Ok a /\ w' = w.
Proof. unfold lift. intros [= -> ->]. auto. Qed.

(** With and without the score, one match. *)
Lemma build_match_scoreless (techniques : list json) (hit : float * nat) (m : json) :
  build_match true techniques hit = Ok m ->
  scoreless_match m /\
  exists m', build_match false techniques hit = Ok m' /\
             m = remove_field "score" m'.
Proof.
  destruct hit as [score idx]. unfold build_match. intros H.
  destruct (list_getitem techniques idx) as [tech|e]; simpl in *; [|discriminate].
  destruct (py_getitem tech "id") as [id|e]; simpl in *; [|discriminate].
  destruct (py_getitem tech "name") as [name|e]; simpl in *; [|discriminate].
  destruct (py_get tech "phases" (JArr [])) as [phases|e]; simpl in *;
    [|discriminate].
  injection H as <-. split.
  - exists id, name, phases. reflexivity.
  - eexists. split; reflexivity.
Qed.

Lemma build_matches_scoreless (techniques : list json) (hits : list (float * nat))
    (ms : list json) :
  map_result (build_match true techniques) hits = Ok ms ->
  Forall scoreless_match ms /\
  exists ms', map_result (build_match false techniques) hits = Ok ms' /\
              ms = map (remove_field "score") ms'.
Proof.
  revert ms. induction hits as [|hit hits IH]; simpl; intros ms H.
  - injection H as <-. split; [constructor|]. exists []. auto.
  - run H. subst ms.
    destruct (build_match_scoreless _ _ _ Hv) as (Hm & m' & Hm' & ->).
    destruct (IH _ Hv0) as (Hms & ms' & Hms' & ->).
    split; [now constructor|]. exists (m' :: ms'). rewrite Hm', Hms'. auto.
Qed.

Section RankerProperties.

Variables Model Embedding : Type.
Variable SentenceTransformer : string -> result Model.
Variable encode_corpus : Model -> list json -> result Embedding.
Variable top_results : Model -> Embedding -> json -> result (list (float * nat)).

(** With and without the score, one use case: the same log, and the
    same entry up to the scores. *)
Lemma rank_usecase_scoreless (techniques : list json) (model : Model)
    (emb : Embedding) (results out : list json) (uc : json) (w w' : world) :
  rank_usecase top_results true techniques model emb results uc w = (Ok out, w') ->
  exists entry',
    out = results ++ [without_scores entry'] /\
    scoreless_entry (without_scores entry') /\
    forall results',
      rank_usecase top_results false techniques model emb results' uc w
      = (Ok (results' ++ [entry']), w').
Proof.
  unfold rank_usecase. intros H.
  apply io_bind_Ok in H as (name & w1 & H1 & H).
  apply lift_Ok in H1 as [H1 ->].
  apply io_bind_Ok in H as ([] & w2 & H2 & H).
  apply io_bind_Ok in H as (desc & w3 & H3 & H).
  apply lift_Ok in H3 as [H3 ->].
  apply io_bind_Ok in H as (hits & w4 & H4 & H).
  apply lift_Ok in H4 as [H4 ->].
  apply io_bind_Ok in H as (ms & w5 & H5 & H).
  apply lift_Ok in H5 as [H5 ->].
  apply io_bind_Ok in H as (usecase & w6 & H6 & H).
  apply lift_Ok in H6 as [H6 ->].
  injection H as <- <-.
  destruct (build_matches_scoreless _ _ _ H5) as (Hms & ms' & Hms' & ->).
  exists (JObj [("usecase", usecase); ("description", desc);
                ("matches", JArr ms')]).
  split; [reflexivity|]. split.
  - exists usecase, desc, (map (remove_field "score") ms'). auto.
  - intros results'.
    rewrite (io_bind_run _ _ w w name) by (unfold lift; now rewrite H1).
    rewrite (io_bind_run _ _ w w2 tt) by exact H2.
    rewrite (io_bind_run _ _ w2 w2 desc) by (unfold lift; now rewrite H3).
    rewrite (io_bind_run _ _ w2 w2 hits) by (unfold lift; now rewrite H4).
    rewrite (io_bind_run _ _ w2 w2 ms') by (unfold lift; now rewrite Hms').
    rewrite (io_bind_run _ _ w2 w2 usecase) by (unfold lift; now rewrite H6).
    reflexivity.
Qed.

Lemma rank_usecases_scoreless (techniques : list json) (model : Model)
    (emb : Embedding) (ucs : list json) :
  forall (results' out : list json) (w w' : world),
    io_for_each (rank_usecase top_results true techniques model emb) ucs
      (map without_scores results') w = (Ok out, w') ->
    Forall scoreless_entry (map without_scores results') ->
    Forall scoreless_entry out /\
    exists out',
      io_for_each (rank_usecase top_results false techniques model emb) ucs
        results' w = (Ok out', w') /\
      out = map without_scores out'.
Proof.
  induction ucs as [|uc ucs IH]; simpl; intros results' out w w' H Hr.
  - injection H as <- <-. split; [assumption|]. exists results'. auto.
  - apply io_bind_Ok in H as (mid & w1 & H1 & H).
    apply rank_usecase_scoreless in H1 as (entry' & -> & He & Hf).
    replace (map without_scores results' ++ [without_scores entry'])
      with (map without_scores (results' ++ [entry'])) in H
      by (rewrite map_app; reflexivity).
    apply IH in H as (Hout & out' & Hout' & ->).
    + split; [assumption|]. exists out'. split; [|reflexivity].
      rewrite (io_bind_run _ _ w w1 _ (Hf results')). exact Hout'.
    + rewrite map_app. apply Forall_app. split; [assumption|].
      constructor; [assumption|constructor].
Qed.

(** C8. When [remove_score] is true and [mitre_semantic] returns, the
    results it has written are entries whose matches have exactly the
    fields id, name and phases, so none has a score field; and the run
    with [remove_score] false returns too, with the same log, and writes
    the same results with a score field added to each match. *)
Theorem remove_score_omits_score :
  forall (input_file output_file semantic_model : string)
         (techniques : list json) (w w' : world),
    mitre_semantic SentenceTransformer encode_corpus top_results
      input_file output_file semantic_model true techniques w = (Ok 0, w') ->
    exists results : list json,
      fst (json_load_file output_file w') = Ok (JArr results) /\
      Forall scoreless_entry results /\
      exists (scored : list json) (w'' : world),
        mitre_semantic SentenceTransformer encode_corpus top_results
          input_file output_file semantic_model false techniques w
        = (Ok 0, w'') /\
        fst (json_load_file output_file w'') = Ok (JArr scored) /\
        results = map without_scores scored /\
        log w'' = log w'.
Proof.
  intros input_file output_file semantic_model techniques w w' H.
  unfold mitre_semantic in *.
  apply io_bind_Ok in H as ([] & w1 & H1 & H).
  apply io_bind_Ok in H as ([] & w2 & H2 & H).
  apply io_bind_Ok in H as ([] & w3 & H3 & H).
  apply io_bind_Ok in H as ([] & w4 & H4 & H).
  apply io_bind_Ok in H as (model & w5 & H5 & H).
  apply io_bind_Ok in H as (usecases & w6 & H6 & H).
  apply io_bind_Ok in H as (texts & w7 & H7 & H).
  apply io_bind_Ok in H as (emb & w8 & H8 & H).
  apply io_bind_Ok in H as (ucs & w9 & H9 & H).
  apply io_bind_Ok in H as (results & w10 & H10 & H).
  apply io_bind_Ok in H as ([] & w11 & H11 & H).
  injection H as <-.
  change (@nil json) with (map without_scores []) in H10.
  apply rank_usecases_scoreless in H10 as (Hres & scored & Hscored & ->);
    [|constructor].
  exists (map without_scores scored). split; [|split; [exact Hres|]].
  - unfold json_dump_file in H11. injection H11 as <-.
    unfold json_load_file. simpl. now rewrite String.eqb_refl.
  - exists scored.
    rewrite (io_bind_run _ _ w w1 tt H1), (io_bind_run _ _ w1 w2 tt H2),
      (io_bind_run _ _ w2 w3 tt H3), (io_bind_run _ _ w3 w4 tt H4),
      (io_bind_run _ _ w4 w5 model H5), (io_bind_run _ _ w5 w6 usecases H6),
      (io_bind_run _ _ w6 w7 texts H7), (io_bind_run _ _ w7 w8 emb H8),
      (io_bind_run _ _ w8 w9 ucs H9), (io_bind_run _ _ w9 w10 scored Hscored).
    unfold io_bind, json_dump_file, io_ret. eexists. split; [reflexivity|].
    unfold json_dump_file in H11. injection H11 as <-.
    unfold json_load_file. simpl. rewrite String.eqb_refl. auto.
Qed.

End RankerProperties.

Lemma remove_score_omits_score_witness :
  exists results : list json,
    fst (json_load_file "output.json" stub_world_after) = Ok (JArr results) /\
    Forall scoreless_entry results.
Proof.
  destruct (remove_score_omits_score unit unit stub_model stub_encode stub_top
              "input.json" "output.json" "all-MiniLM-L6-v2" stub_techniques
              stub_world stub_world_after eq_refl)
    as (results & Hfile & Hentries & _).
  exists results. split; assumption.
Defined.

Lemma loaded_set_length (mitre_data : json) (total_subs : defaultdict)
    (tactic : atom) :
  load_subtechniques_by_tactic mitre_data = Ok total_subs ->
  List.length (dict_get total_subs tactic [])
  = List.length (collected_ids mitre_data tactic).
Proof.
  intros H. apply load_subtechniques_by_tactic_pairs in H. subst total_subs.
  apply dd_of_pairs_length.
Qed.

(** X1. The size of every total set is the number of distinct values the
    loader collects for the tactic (the first external id of every counted
    sub-technique whose phases include it): no value is counted twice. *)
Theorem loader_set_sizes :
  forall (mitre_data : json) (total_subs : defaultdict),
    load_subtechniques_by_tactic mitre_data = Ok total_subs ->
    forall tactic : atom,
      List.length (dict_get total_subs tactic [])
      = List.length (collected_ids mitre_data tactic).
Proof.
  intros mitre_data total_subs H tactic. now apply loaded_set_length.
Qed.

Lemma loader_set_sizes_witness :
  List.length (dict_get execution_total (AStr "execution") [])
  = List.length (collected_ids execution_corpus (AStr "execution")).
Proof.
  exact (loader_set_sizes execution_corpus execution_total eq_refl
           (AStr "execution")).
Defined.

(** X2. The size of every matched set is the number of distinct dotted ids
    matched under the tactic, over all use cases. *)
Theorem matched_set_sizes :
  forall (results_json : json) (matched_subs : defaultdict),
    extract_matched_subtechniques_by_tactic results_json = Ok matched_subs ->
    forall tactic : atom,
      List.length (dict_get matched_subs tactic [])
      = List.length (matched_ids_of results_json tactic).
Proof.
  intros results_json matched_subs H tactic.
  apply extract_matched_subtechniques_by_tactic_pairs in H. subst matched_subs.
  apply dd_of_pairs_length.
Qed.

Lemma matched_set_sizes_witness :
  List.length (dict_get execution_matched (AStr "execution") [])
  = List.length (matched_ids_of execution_results (AStr "execution")).
Proof.
  exact (matched_set_sizes execution_results execution_matched eq_refl
           (AStr "execution")).
Defined.

Lemma resolvable_external_id_first (obj : json) (id : atom) :
  resolvable_external_id obj = Some id ->
  has_reference_list obj = true /\ first_external_id obj = JAtom id.
Proof.
  unfold resolvable_external_id, has_reference_list, first_external_id,
    first_reference.
  destruct (external_references obj) as [|[|[| |fs] l]|]; try discriminate.
  simpl. destruct (assoc "external_id" fs) as [[[| | | |]| |]|]; try discriminate;
    intros [= <-]; auto.
Qed.

Lemma set_mem_exists (a : atom) (s : pyset) :
  set_mem a s = true <-> exists x, In x s /\ py_eqb a x = true.
Proof. unfold set_mem. apply existsb_exists. Qed.

(** The ids an identified sub-technique adds for a tactic. *)
Lemma subtechnique_pairs_ids (obj : json) (tactic : atom) (x : pykey) :
  (live_subtechnique obj = true ->
   exists id, resolvable_external_id obj = Some id) ->
  In x (map (fun p => key_of (snd p))
            (filter (fun p => py_eqb tactic (fst p)) (subtechnique_pairs obj))) <->
  In x (if live_subtechnique obj && set_mem tactic (atoms (phase_names obj))
        then match resolvable_external_id obj with
             | Some id => [key_of id]
             | None => []
             end
        else []).
Proof.
  intros Hid. unfold subtechnique_pairs, counted_subtechnique.
  destruct (live_subtechnique obj) eqn:Hl; simpl; [|tauto].
  destruct (Hid eq_refl) as (id & Hr). rewrite Hr.
  destruct (resolvable_external_id_first _ _ Hr) as [-> ->].
  rewrite in_map_iff. split.
  - intros (p & <- & Hp). apply filter_In in Hp as [Hp Ht].
    apply in_map_iff in Hp as (ph & <- & Hph). simpl in *.
    assert (Hm : set_mem tactic (atoms (phase_names obj)) = true)
      by (apply set_mem_exists; eauto).
    rewrite Hm. now left.
  - destruct (set_mem tactic (atoms (phase_names obj))) eqn:Hm; [|intros []].
    intros [<-|[]]. apply set_mem_exists in Hm as (ph & Hph & Ht).
    exists (ph, id). split; [reflexivity|]. apply filter_In. split; [|exact Ht].
    apply in_map_iff. eauto.
Qed.

(** X3. On a corpus whose non-revoked sub-techniques all have an external id,
    the size of every total set is the number of distinct external ids of
    the non-revoked sub-techniques whose phases include the tactic. *)
Theorem loader_counts_distinct_ids_when_identified :
  forall (mitre_data : json) (total_subs : defaultdict),
    load_subtechniques_by_tactic mitre_data = Ok total_subs ->
    every_subtechnique_identified mitre_data = true ->
    forall tactic : atom,
      len (dict_get total_subs tactic [])
      = len (distinct_subtechnique_ids mitre_data tactic).
Proof.
  intros mitre_data total_subs H Hall tactic. unfold len. f_equal.
  rewrite (loaded_set_length _ _ tactic H).
  apply Permutation_length, NoDup_Permutation; try apply NoDup_nodup.
  intros x. unfold collected_ids, distinct_subtechnique_ids, corpus_pairs.
  rewrite !nodup_In.
  unfold every_subtechnique_identified in Hall. rewrite forallb_forall in Hall.
  induction (corpus_objects mitre_data) as [|obj objs IH]; simpl; [tauto|].
  rewrite filter_app, map_app, !in_app_iff.
  rewrite IH by (intros o Ho; apply Hall; now right).
  rewrite subtechnique_pairs_ids; [tauto|].
  intros Hl. specialize (Hall obj (or_introl eq_refl)). rewrite Hl in Hall.
  simpl in Hall. destruct (resolvable_external_id obj); [eauto|discriminate].
Qed.

Lemma loader_counts_distinct_ids_when_identified_witness :
  len (dict_get execution_total (AStr "execution") [])
  = len (distinct_subtechnique_ids execution_corpus (AStr "execution")).
Proof.
  exact (loader_counts_distinct_ids_when_identified
           execution_corpus execution_total eq_refl eq_refl (AStr "execution")).
Defined.

(** X4. Every entry of a coverage result has a total of at least one, and
    its [coverage_percent] is a float. *)
Theorem coverage_totals_positive :
  forall (mitre_data results_data : json) (coverage : dict tactic_coverage),
    calculate_coverage mitre_data results_data = Ok coverage ->
    forall (tactic : atom) (entry : tactic_coverage),
      dict_lookup tactic coverage = Some entry ->
      1 <= total entry /\ exists f, coverage_percent entry = NFloat f.
Proof.
  intros mitre_data results_data coverage H tactic entry He.
  pose proof H as H'. unfold calculate_coverage in H'. run H'.
  pose proof (calculate_coverage_lookup _ _ _ _ _ Hv Hv0 H tactic) as L.
  destruct (dict_lookup tactic v) as [total_ids|] eqn:El; [|congruence].
  destruct L as (score & Hs & Hc). rewrite He in Hc. injection Hc as ->. simpl.
  assert (Hn : total_ids <> []).
  { apply load_subtechniques_by_tactic_pairs in Hv. subst v.
    exact (proj1 (dd_wf_lookup _ tactic total_ids (dd_of_pairs_wf _) El)). }
  destruct (coverage_score_nonempty _ _ _ Hn Hs) as (q & _ & ->).
  split; [|simpl; eauto].
  unfold len. destruct total_ids; [congruence|]. simpl List.length. lia.
Qed.

Lemma coverage_totals_positive_witness :
  1 <= total execution_entry /\
  exists f, coverage_percent execution_entry = NFloat f.
Proof.
  exact (coverage_totals_positive execution_corpus execution_results
           [(AStr "execution", execution_entry)] eq_refl
           (AStr "execution") execution_entry eq_refl).
Defined.

(** The end-to-end example of the specification: one tactic with two
    sub-techniques, one of them matched, gives matched 1, total 2 and
    50.0 per cent; the match of the top-level technique is not counted. *)
Theorem coverage_end_to_end_example :
  calculate_coverage execution_corpus execution_results
  = Ok [(AStr "execution",
         {| matched := 1; total := 2;
            coverage_percent := NFloat (float_of_int 50) |})].
Proof. vm_compute. reflexivity. Qed.

Lemma extract_techniques_phases (ps phases : list json) :
  map_result (fun phase => py_get phase "phase_name" (JStr "")) ps = Ok phases ->
  phases = map (field "phase_name" (JStr "")) ps.
Proof.
  revert phases. induction ps as [|p ps IH]; simpl; intros phases H.
  - congruence.
  - run H. apply py_get_field in Hv. subst. f_equal. now apply IH.
Qed.

Lemma extract_techniques_step_record (obj : json) (o : option json) :
  extract_techniques_step obj = Ok o ->
  o = if is_attack_pattern obj && negb (is_revoked obj)
      then Some (technique_record obj) else None.
Proof.
  unfold extract_techniques_step, is_attack_pattern, is_revoked, technique_record.
  intros H. run H; reads; try (rewrite ?Hc, ?Hc0; reflexivity).
  rewrite Hc, Hc0. simpl.
  match goal with Hg : py_getitem0 _ = Ok _ |- _ => rewrite Hg end.
  match goal with
  | Hg : map_result _ _ = Ok _ |- _ => apply extract_techniques_phases in Hg
  end.
  subst. reflexivity.
Qed.

Lemma extract_techniques_map (data : json) (techniques : list json) :
  extract_techniques data = Ok techniques ->
  techniques = map technique_record (live_attack_patterns data).
Proof.
  intros H. unfold extract_techniques in H. run H. reads.
  unfold live_attack_patterns, corpus_objects.
  revert techniques H.
  induction (elements (field "objects" (JArr []) data)) as [|obj objs IH];
    simpl; intros techniques H.
  - congruence.
  - run H. apply extract_techniques_step_record in Hv. subst.
    rewrite (IH _ Hv0).
    now destruct (is_attack_pattern obj && negb (is_revoked obj)).
Qed.

(** X6. When [extract_techniques] returns, it returns one record per
    non-revoked attack-pattern, in the order of the corpus. *)
Theorem extract_techniques_records :
  forall (data : json) (techniques : list json),
    extract_techniques data = Ok techniques ->
    techniques = map technique_record (live_attack_patterns data).
Proof. intros data techniques H. now apply extract_techniques_map. Qed.

Lemma extract_techniques_records_witness :
  [JObj [("id", JStr "null"); ("name", JStr "Phishing");
         ("description", JStr ""); ("phases", JArr [])];
   JObj [("id", JStr "null"); ("name", JStr "Valid Accounts");
         ("description", JStr ""); ("phases", JArr [])]]
  = map technique_record (live_attack_patterns missing_references_corpus).
Proof.
  exact (extract_techniques_records missing_references_corpus _ eq_refl).
Defined.

(* ================================================================== *)
(** ** The pipeline: techniques, matches, coverage *)

Lemma dict_lookup_item {V : Type} (d : dict V) (k : atom) (v : V) :
  NoDup (keys d) -> In (k, v) d -> dict_lookup k d = Some v.
Proof.
  unfold keys. induction d as [|[x w] d IH]; simpl; [contradiction|].
  intros Hn Hin. inversion Hn as [|? ? Hx Hd]; subst.
  destruct Hin as [[= -> ->]|Hin].
  - now rewrite py_eqb_refl.
  - destruct (py_eqb k x) eqn:E; [|now apply IH].
    exfalso. apply Hx. apply py_eqb_eq in E. rewrite <- E.
    apply (in_map (fun item => key_of (fst item)) d (k, v) Hin).
Qed.

(** Pairs taken from among other pairs build sets inside their sets. *)
Lemma dd_of_pairs_within (ps qs : list (atom * atom)) :
  incl ps qs -> matched_within_total (dd_of_pairs ps) (dd_of_pairs qs) = true.
Proof.
  intros Hincl. unfold matched_within_total. apply forallb_forall.
  intros [k s] Hin. simpl. apply set_subset_incl. intros x Hx.
  pose proof (dict_lookup_item _ _ _ (proj1 (dd_of_pairs_wf ps)) Hin) as Hl.
  assert (Hg : dict_get (dd_of_pairs ps) k [] = s)
    by (unfold dict_get; now rewrite Hl).
  rewrite <- Hg in Hx. unfold dd_of_pairs in *.
  apply dd_fold_elements in Hx as [[]|Hx].
  apply dd_fold_elements. right.
  apply in_map_iff in Hx as (p & <- & Hp). apply filter_In in Hp as [Hp Hk].
  apply in_map_iff. exists p. split; [reflexivity|]. apply filter_In. auto.
Qed.

Lemma match_pairs_fields (m m' : json) :
  field "id" JNone m = field "id" JNone m' ->
  field "phases" (JArr []) m = field "phases" (JArr []) m' ->
  match_pairs m = match_pairs m'.
Proof. unfold match_pairs. now intros -> ->. Qed.

Lemma has_phase_names (ps : list json) :
  forallb has_phase_name ps = true ->
  map (field "phase_name" (JStr "")) ps =
  flat_map
    (fun p => match p with
              | JObj fields =>
                  match assoc "phase_name" fields with
                  | Some v => [v]
                  | None => []
                  end
              | _ => []
              end) ps.
Proof.
  induction ps as [|p ps IH]; simpl; [reflexivity|].
  intros H. apply andb_true_iff in H as [Hp H]. rewrite (IH H).
  destruct p as [| |fs]; try discriminate. simpl in *.
  now destruct (assoc "phase_name" fs).
Qed.

(** In a coherent corpus the pairs of a technique record, read as a
    Match, are pairs of the total universe. *)
Lemma technique_record_pairs (obj : json) :
  is_attack_pattern obj && negb (is_revoked obj) = true ->
  match field "id" JNone (technique_record obj) with
  | JAtom (AStr tid) =>
      if occurs_in "." tid then
        is_subtechnique obj &&
        forallb has_phase_name (elements (field "kill_chain_phases" (JArr []) obj))
      else true
  | _ => true
  end = true ->
  incl (match_pairs (technique_record obj)) (subtechnique_pairs obj).
Proof.
  intros Hlive Hco. unfold match_pairs.
  destruct (field "id" JNone (technique_record obj)) as [[| | | |tid]|l|fs] eqn:Eid;
    try (intros p []).
  destruct (occurs_in "." tid) eqn:Edot; [|intros p []].
  apply andb_true_iff in Hco as [Hsub Hph].
  unfold technique_record in *. simpl in Eid |- *.
  unfold subtechnique_pairs, counted_subtechnique, live_subtechnique,
    has_reference_list, first_external_id, first_reference, external_references,
    phase_names.
  rewrite Hlive, Hsub. simpl.
  rewrite (has_phase_names _ Hph).
  destruct obj as [a|l|fs]; simpl in *; try discriminate Hlive.
  destruct (assoc "external_references" fs) as [refs|] eqn:Er; simpl in *.
  - destruct refs as [[| | | |[|c s]]|[|[a|l|rs] rest]|rs]; simpl in *;
      try discriminate Eid;
      try (injection Eid as <-; discriminate Edot).
    destruct (assoc "external_id" rs) as [v|]; simpl in *.
    + subst v. apply incl_refl.
    + injection Eid as <-. discriminate Edot.
  - injection Eid as <-. discriminate Edot.
Qed.

Lemma build_match_built_from (remove_score : bool) (techniques : list json)
    (hit : float * nat) (m : json) :
  build_match remove_score techniques hit = Ok m -> built_from techniques m.
Proof.
  destruct hit as [score idx]. unfold build_match, list_getitem. intros H.
  destruct (nth_error techniques idx) as [tech|] eqn:En; simpl in H;
    [|discriminate].
  apply nth_error_In in En. exists tech. split; [exact En|].
  destruct remove_score; run H;
    repeat match goal with
           | Hg : py_getitem _ "id" = Ok _ |- _ =>
               apply (py_getitem_field _ _ JNone) in Hg
           | Hg : py_get _ _ _ = Ok _ |- _ => apply py_get_field in Hg
           end;
    subst; split; reflexivity.
Qed.

Lemma build_matches_built_from (remove_score : bool) (techniques : list json)
    (hits : list (float * nat)) (ms : list json) :
  map_result (build_match remove_score techniques) hits = Ok ms ->
  Forall (built_from techniques) ms.
Proof.
  revert ms. induction hits as [|hit hits IH]; simpl; intros ms H.
  - injection H as <-. constructor.
  - run H. subst ms. constructor; [|now apply IH].
    now apply (build_match_built_from remove_score _ hit).
Qed.

(** The pairs of built entries are pairs of technique records. *)
Lemma built_entries_pairs (techniques results : list json) (p : atom * atom) :
  Forall (built_entry techniques) results ->
  In p (results_pairs (JArr results)) ->
  exists tech, In tech techniques /\ In p (match_pairs tech).
Proof.
  unfold results_pairs. simpl. intros Hb Hp.
  apply in_flat_map in Hp as (entry & He & Hp).
  rewrite Forall_forall in Hb.
  destruct (Hb _ He) as (u & d & ms & -> & Hms).
  unfold entry_pairs in Hp. simpl in Hp.
  apply in_flat_map in Hp as (m & Hm & Hp).
  rewrite Forall_forall in Hms. destruct (Hms _ Hm) as (tech & Ht & Hid & Hph).
  exists tech. split; [exact Ht|]. now rewrite <- (match_pairs_fields m tech Hid Hph).
Qed.

(** In a coherent corpus the pairs matched from its own technique
    records are pairs of its total universe. *)
Lemma coherent_results_pairs (mitre_data : json) (results : list json) :
  coherent_corpus mitre_data = true ->
  Forall (built_entry (map technique_record (live_attack_patterns mitre_data)))
         results ->
  incl (results_pairs (JArr results)) (corpus_pairs mitre_data).
Proof.
  intros Hco Hb p Hp.
  destruct (built_entries_pairs _ _ _ Hb Hp) as (tech & Ht & Hpt).
  apply in_map_iff in Ht as (obj & <- & Hobj).
  unfold coherent_corpus in Hco. rewrite forallb_forall in Hco.
  specialize (Hco _ Hobj).
  unfold live_attack_patterns in Hobj. apply filter_In in Hobj as [Hin Hlive].
  unfold corpus_pairs. apply in_flat_map. exists obj. split; [exact Hin|].
  now apply (technique_record_pairs obj Hlive Hco).
Qed.

Section PipelineProperties.

Variables Model Embedding : Type.
Variable SentenceTransformer : string -> result Model.
Variable encode_corpus : Model -> list json -> result Embedding.
Variable top_results : Model -> Embedding -> json -> result (list (float * nat)).

Lemma rank_usecase_built (remove_score : bool) (techniques : list json)
    (model : Model) (emb : Embedding) (results out : list json) (uc : json)
    (w w' : world) :
  rank_usecase top_results remove_score techniques model emb results uc w
  = (Ok out, w') ->
  Forall (built_entry techniques) results ->
  Forall (built_entry techniques) out.
Proof.
  unfold rank_usecase. intros H Hr.
  apply io_bind_Ok in H as (name & w1 & H1 & H).
  apply io_bind_Ok in H as ([] & w2 & H2 & H).
  apply io_bind_Ok in H as (desc & w3 & H3 & H).
  apply io_bind_Ok in H as (hits & w4 & H4 & H).
  apply io_bind_Ok in H as (ms & w5 & H5 & H).
  apply lift_Ok in H5 as [H5 ->].
  apply io_bind_Ok in H as (usecase & w6 & H6 & H).
  injection H as <- <-.
  apply Forall_app. split; [exact Hr|]. constructor; [|constructor].
  exists usecase, desc, ms. split; [reflexivity|].
  now apply (build_matches_built_from remove_score _ hits).
Qed.

Lemma rank_usecases_built (remove_score : bool) (techniques : list json)
    (model : Model) (emb : Embedding) (ucs : list json) :
  forall (results out : list json) (w w' : world),
    io_for_each (rank_usecase top_results remove_score techniques model emb)
      ucs results w = (Ok out, w') ->
    Forall (built_entry techniques) results ->
    Forall (built_entry techniques) out.
Proof.
  induction ucs as [|uc ucs IH]; simpl; intros results out w w' H Hr.
  - injection H as <- <-. exact Hr.
  - apply io_bind_Ok in H as (mid & w1 & H1 & H).
    apply (IH _ _ _ _ H). now apply (rank_usecase_built _ _ _ _ _ _ _ _ _ H1).
Qed.

(** What [mitre_semantic] writes is built from the techniques. *)
Lemma mitre_semantic_built (input_file output_file semantic_model : string)
    (remove_score : bool) (techniques : list json) (w w' : world) :
  mitre_semantic SentenceTransformer encode_corpus top_results
    input_file output_file semantic_model remove_score techniques w = (Ok 0, w') ->
  exists results,
    fst (json_load_file output_file w') = Ok (JArr results) /\
    Forall (built_entry techniques) results.
Proof.
  unfold mitre_semantic. intros H.
  apply io_bind_Ok in H as ([] & w1 & H1 & H).
  apply io_bind_Ok in H as ([] & w2 & H2 & H).
  apply io_bind_Ok in H as ([] & w3 & H3 & H).
  apply io_bind_Ok in H as ([] & w4 & H4 & H).
  apply io_bind_Ok in H as (model & w5 & H5 & H).
  apply io_bind_Ok in H as (usecases & w6 & H6 & H).
  apply io_bind_Ok in H as (texts & w7 & H7 & H).
  apply io_bind_Ok in H as (emb & w8 & H8 & H).
  apply io_bind_Ok in H as (ucs & w9 & H9 & H).
  apply io_bind_Ok in H as (results & w10 & H10 & H).
  apply io_bind_Ok in H as ([] & w11 & H11 & H).
  injection H as <-. exists results. split.
  - unfold json_dump_file in H11. injection H11 as <-.
    unfold json_load_file. simpl. now rewrite String.eqb_refl.
  - apply (rank_usecases_built _ _ _ _ _ _ _ _ _ H10). constructor.
Qed.

(** X8. The tool's own pipeline keeps [matched <= total]: when the
    techniques are extracted from a coherent corpus and the results are
    the ones [mitre_semantic] wrote for them, every tactic entry of the
    coverage computed from that corpus and those results has
    [matched <= total]. *)
Theorem pipeline_matched_le_total :
  forall (input_file output_file semantic_model : string) (remove_score : bool)
         (mitre_data results_data : json) (techniques : list json)
         (w w' : world) (coverage : dict tactic_coverage),
    extract_techniques mitre_data = Ok techniques ->
    coherent_corpus mitre_data = true ->
    mitre_semantic SentenceTransformer encode_corpus top_results
      input_file output_file semantic_model remove_score techniques w
    = (Ok 0, w') ->
    fst (json_load_file output_file w') = Ok results_data ->
    calculate_coverage mitre_data results_data = Ok coverage ->
    forall (tactic : atom) (entry : tactic_coverage),
      dict_lookup tactic coverage = Some entry ->
      matched entry <= total entry.
Proof.
  intros input_file output_file semantic_model remove_score mitre_data
    results_data techniques w w' coverage Ht Hco Hrun Hfile H tactic entry He.
  apply mitre_semantic_built in Hrun as (results & Hfile' & Hb).
  rewrite Hfile in Hfile'. injection Hfile' as ->.
  apply extract_techniques_map in Ht. subst techniques.
  pose proof (coherent_results_pairs _ _ Hco Hb) as Hincl.
  pose proof H as H'. unfold calculate_coverage in H'.
  apply bind_Ok in H' as (total_subs & HT & H').
  apply bind_Ok in H' as (matched_subs & HM & _).
  pose proof (calculate_coverage_lookup _ _ _ _ _ HT HM H tactic) as L.
  destruct (dict_lookup tactic total_subs) as [total_ids|] eqn:El; [|congruence].
  destruct L as (score & _ & Hc). rewrite He in Hc. injection Hc as ->. simpl.
  apply load_subtechniques_by_tactic_pairs in HT.
  apply extract_matched_subtechniques_by_tactic_pairs in HM. subst.
  apply (matched_len_le_total _ (dd_of_pairs (corpus_pairs mitre_data)));
    [apply dd_of_pairs_wf|now apply dd_of_pairs_within|exact El].
Qed.

End PipelineProperties.

Lemma pipeline_matched_le_total_witness :
  matched pipeline_entry <= total pipeline_entry.
Proof.
  exact (pipeline_matched_le_total unit unit stub_model stub_encode stub_top
           "input.json" "output.json" "all-MiniLM-L6-v2" false
           single_corpus pipeline_results pipeline_techniques
           stub_world pipeline_world_after [(AStr "execution", pipeline_entry)]
           eq_refl eq_refl eq_refl eq_refl eq_refl
           (AStr "execution") pipeline_entry eq_refl).
Defined.

(** X7. A score that is kept is the similarity the library returned,
    rounded to 3 decimals by [round]; taking it out of the match gives
    the match built when [remove_score] is true. *)
Theorem retained_score_is_rounded_similarity :
  forall (techniques : list json) (score : float) (idx : nat) (m : json),
    build_match false techniques (score, idx) = Ok m ->
    field "score" JNone m = JAtom (AFloat (float_round score 3)) /\
    build_match true techniques (score, idx) = Ok (remove_field "score" m).
Proof.
  intros techniques score idx m. unfold build_match. intros H.
  destruct (list_getitem techniques idx) as [tech|e]; simpl in *; [|discriminate].
  destruct (py_getitem tech "id") as [id|e]; simpl in *; [|discriminate].
  destruct (py_getitem tech "name") as [name|e]; simpl in *; [|discriminate].
  destruct (py_get tech "phases" (JArr [])) as [phases|e]; simpl in *;
    [|discriminate].
  injection H as <-. split; reflexivity.
Qed.

Lemma retained_score_is_rounded_similarity_witness :
  field "score" JNone
    (JObj [("id", JStr "T1059.001"); ("name", JStr "PowerShell");
           ("phases", JArr [JStr "execution"]);
           ("score", JAtom (AFloat (float_round (S754_finite false 5629499534213120 (-53)) 3)))])
  = JAtom (AFloat (float_round (S754_finite false 5629499534213120 (-53)) 3)).
Proof.
  exact (proj1 (retained_score_is_rounded_similarity
                  stub_techniques (S754_finite false 5629499534213120 (-53)) 0%nat _ eq_refl)).
Defined.

(* ================================================================== *)
(** ** The validation of the use-case file *)

Lemma check_items_valid (items : list json) :
  check_items items = true <-> Forall valid_usecase items.
Proof.
  induction items as [|item items IH]; simpl.
  - split; [constructor|reflexivity].
  - destruct item as [a|l|fields].
    + split; [discriminate|]. intros H. inversion H as [|? ? (f & n & d & E & _) _].
      discriminate E.
    + split; [discriminate|]. intros H. inversion H as [|? ? (f & n & d & E & _) _].
      discriminate E.
    + destruct (assoc "name" fields) as [name|] eqn:En;
        [destruct (assoc "description" fields) as [description|] eqn:Ed|].
      * rewrite IH. split.
        -- intros H. constructor; [|exact H]. exists fields, name, description. auto.
        -- intros H. now inversion H.
      * split; [discriminate|]. intros H.
        inversion H as [|? ? (f & n & d & E & _ & Hd) _]. injection E as <-.
        congruence.
      * split; [discriminate|]. intros H.
        inversion H as [|? ? (f & n & d & E & Hn & _) _]. injection E as <-.
        congruence.
Qed.

(** What [check_input_file] returns, read off the file. *)
Lemma check_input_file_run (input_file : string) (w : world) :
  fst (check_input_file input_file w) =
  Ok (match assoc input_file (files w) with
      | Some (JsonText (JArr items)) => check_items items
      | _ => false
      end) /\
  files (snd (check_input_file input_file w)) = files w.
Proof.
  unfold check_input_file, io_bind, io_try, logging_info, logging_error,
    logging_info, json_load_file, io_ret. simpl.
  destruct (assoc input_file (files w)) as [[[a|items|fields]|]|]; simpl;
    try (split; reflexivity).
  destruct (check_items items); simpl; split; reflexivity.
Qed.

(** X9. [check_input_file] never raises and writes no file. It returns
    [True] exactly when the file holds a JSON list all of whose items
    are dicts with the keys name and description; a missing file, a
    text that is not JSON and any other document give [False]. *)
Theorem check_input_file_decides :
  forall (input_file : string) (w : world),
  exists (valid : bool) (w' : world),
    check_input_file input_file w = (Ok valid, w') /\
    files w' = files w /\
    (valid = true <->
     exists items,
       assoc input_file (files w) = Some (JsonText (JArr items)) /\
       Forall valid_usecase items).
Proof.
  intros input_file w.
  destruct (check_input_file_run input_file w) as [Hr Hf].
  destruct (check_input_file input_file w) as [r w'] eqn:E. simpl in Hr, Hf.
  subst r. eexists. exists w'. split; [reflexivity|]. split; [exact Hf|].
  destruct (assoc input_file (files w)) as [[[a|items|fields]|]|];
    try (split; [discriminate|intros (items' & Hi & _); discriminate Hi]).
  rewrite check_items_valid. split.
  - intros Hv. exists items. auto.
  - intros (items' & [= <-] & Hv). exact Hv.
Qed.

(* ================================================================== *)
(** ** The entries [mitre_semantic] writes *)

(** Writing one file leaves the others as they were. *)
Lemma assoc_written {V : Type} (path output : string) (content : V)
    (fs : list (string * V)) :
  path <> output ->
  assoc path ((output, content)
              :: filter (fun kv => negb (String.eqb (fst kv) output)) fs)
  = assoc path fs.
Proof.
  intros Hne. simpl. apply String.eqb_neq in Hne. rewrite Hne.
  induction fs as [|[k v] fs IH]; simpl; [reflexivity|].
  destruct (String.eqb k output) eqn:Ek; simpl.
  - apply String.eqb_eq in Ek. subst k. now rewrite Hne.
  - now rewrite IH.
Qed.

(** Every technique record has a description. *)
Lemma technique_descriptions (objs : list json) :
  map_result (fun i => py_getitem i "description") (map technique_record objs)
  = Ok (map (field "description" (JStr "")) objs).
Proof.
  induction objs as [|obj objs IH]; simpl; [reflexivity|].
  rewrite IH. reflexivity.
Qed.

(** *** The score of a match *)

(** Every thousandth from 0.001 to 1.0, as the division gives it. *)
Lemma thousandths_in_unit_interval (p : positive) :
  Zpos p <= 1000 ->
  in_unit_interval (SFdiv prec emax (S754_finite false p 0) (S754_finite false 1000 0))
  = true.
Proof.
  intros Hp.
  assert (H : forallb
                (fun k => in_unit_interval
                            (SFdiv prec emax (S754_finite false (Pos.of_nat k) 0)
                               (S754_finite false 1000 0)))
                (seq 1 1000) = true)
    by (vm_compute; reflexivity).
  rewrite forallb_forall in H. specialize (H (Pos.to_nat p)).
  rewrite Pos2Nat.id in H. apply H. apply in_seq. lia.
Qed.

(** [round(x, 3)] stays in [0, 1]. *)
Lemma float_round_unit_interval (x : float) :
  in_unit_interval x = true -> in_unit_interval (float_round x 3) = true.
Proof.
  destruct x as [s| | |s m e]; try discriminate; [intros _; reflexivity|].
  destruct s; [discriminate|].
  unfold in_unit_interval at 1. intros Hx. unfold float_round.
  destruct (0 <=? e) eqn:Ee.
  { unfold in_unit_interval. now rewrite Ee. }
  apply Z.leb_le in Hx. apply Z.leb_gt in Ee.
  cbv zeta. change (10 ^ Z.of_nat 3) with 1000.
  change (exact_int 1000) with (S754_finite false 1000 0).
  assert (Hden : 0 < 2 ^ (- e)) by (apply Z.pow_pos_nonneg; lia).
  set (den := 2 ^ (- e)) in *.
  set (num := Zpos m * 1000).
  assert (Hq : num / den <= 1000).
  { apply Z.div_le_upper_bound; [exact Hden|]. unfold num. nia. }
  assert (Hr : 0 <= num mod den < den) by (apply Z.mod_pos_bound; exact Hden).
  set (n := match 2 * (num mod den) ?= den with
            | Lt => num / den
            | Gt => num / den + 1
            | Eq => if Z.even (num / den) then num / den else num / den + 1
            end).
  assert (Hn : n <= 1000).
  { subst n. destruct (Z.eq_dec (num / den) 1000) as [E|E].
    - assert (Hm : num mod den = 0).
      { pose proof (Z.div_mod num den ltac:(lia)) as Hd. rewrite E in Hd.
        unfold num in *. nia. }
      rewrite Hm, E.
      replace (2 * 0 ?= den) with Lt by (symmetry; apply Z.compare_lt_iff; lia).
      lia.
    - destruct (2 * (num mod den) ?= den); [destruct (Z.even (num / den))| |]; lia. }
  clearbody n. destruct n as [|p|p]; try reflexivity.
  now apply thousandths_in_unit_interval.
Qed.

(** The score of each match is the rounded similarity of its hit. *)
Lemma build_matches_scores (techniques : list json) (hits : list (float * nat))
    (ms : list json) :
  map_result (build_match false techniques) hits = Ok ms ->
  Forall2 (fun hit m =>
             field "score" JNone m = JAtom (AFloat (float_round (fst hit) 3)))
          hits ms.
Proof.
  revert ms. induction hits as [|[score idx] hits IH]; simpl; intros ms H.
  - injection H as <-. constructor.
  - apply bind_Ok in H as (m & Hm & H). apply bind_Ok in H as (rest & Hrest & H).
    injection H as <-. constructor; [|now apply IH].
    unfold list_getitem in Hm.
    destruct (nth_error techniques idx) as [tech|]; simpl in Hm; [|discriminate].
    destruct (py_getitem tech "id") as [id|e]; simpl in Hm; [|discriminate].
    destruct (py_getitem tech "name") as [name|e]; simpl in Hm; [|discriminate].
    destruct (py_get tech "phases" (JArr [])) as [phases|e]; simpl in Hm;
      [|discriminate].
    injection Hm as <-. reflexivity.
Qed.

Section RankerRuns.

Variables Model Embedding : Type.
Variable SentenceTransformer : string -> result Model.
Variable encode_corpus : Model -> list json -> result Embedding.
Variable top_results : Model -> Embedding -> json -> result (list (float * nat)).

(** One turn of the loop over the use cases: what it reads, and the entry
    it appends. *)
Lemma rank_usecase_entry (remove_score : bool) (techniques : list json)
    (model : Model) (emb : Embedding) (results out : list json) (uc : json)
    (w w' : world) :
  rank_usecase top_results remove_score techniques model emb results uc w
  = (Ok out, w') ->
  files w' = files w /\
  exists name description hits matches,
    py_getitem uc "name" = Ok name /\
    py_getitem uc "description" = Ok description /\
    top_results model emb description = Ok hits /\
    map_result (build_match remove_score techniques) hits = Ok matches /\
    out = results ++ [JObj [("usecase", name); ("description", description);
                            ("matches", JArr matches)]].
Proof.
  unfold rank_usecase. intros H.
  apply io_bind_Ok in H as (name & w1 & H1 & H).
  apply lift_Ok in H1 as [H1 ->].
  apply io_bind_Ok in H as ([] & w2 & H2 & H).
  unfold logging_info in H2. injection H2 as <-.
  apply io_bind_Ok in H as (desc & w3 & H3 & H).
  apply lift_Ok in H3 as [H3 ->].
  apply io_bind_Ok in H as (hits & w4 & H4 & H).
  apply lift_Ok in H4 as [H4 ->].
  apply io_bind_Ok in H as (ms & w5 & H5 & H).
  apply lift_Ok in H5 as [H5 ->].
  apply io_bind_Ok in H as (usecase & w6 & H6 & H).
  apply lift_Ok in H6 as [H6 ->].
  injection H as <- <-. split; [reflexivity|].
  exists name, desc, hits, ms. rewrite H1 in H6. injection H6 as <-. auto.
Qed.

Lemma rank_usecases_entries (remove_score : bool) (techniques : list json)
    (model : Model) (emb : Embedding) (ucs : list json) :
  forall (results out : list json) (w w' : world),
    io_for_each (rank_usecase top_results remove_score techniques model emb)
      ucs results w = (Ok out, w') ->
    files w' = files w /\
    exists entries,
      out = results ++ entries /\
      Forall2
        (fun uc entry =>
           exists name description hits matches,
             py_getitem uc "name" = Ok name /\
             py_getitem uc "description" = Ok description /\
             top_results model emb description = Ok hits /\
             map_result (build_match remove_score techniques) hits = Ok matches /\
             entry = JObj [("usecase", name); ("description", description);
                           ("matches", JArr matches)])
        ucs entries.
Proof.
  induction ucs as [|uc ucs IH]; simpl; intros results out w w' H.
  - injection H as <- <-. split; [reflexivity|]. exists [].
    rewrite app_nil_r. auto.
  - apply io_bind_Ok in H as (mid & w1 & H1 & H).
    apply rank_usecase_entry in H1
      as (Hf1 & name & desc & hits & ms & Hn & Hd & Hh & Hm & ->).
    apply IH in H as (Hf & entries & -> & Hall).
    split; [congruence|].
    eexists (_ :: entries). rewrite <- app_assoc. split; [reflexivity|].
    constructor; [|exact Hall]. exists name, desc, hits, ms. auto.
Qed.

(** A run of [mitre_semantic] that returns: what it has read, and what
    it has written. *)
Lemma mitre_semantic_entries (input_file output_file semantic_model : string)
    (remove_score : bool) (techniques : list json) (w w' : world) :
  mitre_semantic SentenceTransformer encode_corpus top_results
    input_file output_file semantic_model remove_score techniques w
  = (Ok 0, w') ->
  exists (model : Model) (emb : Embedding) (usecases : json)
         (ucs results : list json),
    SentenceTransformer semantic_model = Ok model /\
    fst (json_load_file input_file w) = Ok usecases /\
    py_iter usecases = Ok ucs /\
    fst (json_load_file output_file w') = Ok (JArr results) /\
    Forall2
      (fun uc entry =>
         exists name description hits matches,
           py_getitem uc "name" = Ok name /\
           py_getitem uc "description" = Ok description /\
           top_results model emb description = Ok hits /\
           map_result (build_match remove_score techniques) hits = Ok matches /\
           entry = JObj [("usecase", name); ("description", description);
                         ("matches", JArr matches)])
      ucs results /\
    forall path, path <> output_file ->
                 assoc path (files w') = assoc path (files w).
Proof.
  intros H. unfold mitre_semantic in H.
  apply io_bind_Ok in H as ([] & w1 & H1 & H). injection H1 as <-.
  apply io_bind_Ok in H as ([] & w2 & H2 & H). injection H2 as <-.
  apply io_bind_Ok in H as ([] & w3 & H3 & H). injection H3 as <-.
  apply io_bind_Ok in H as ([] & w4 & H4 & H). injection H4 as <-.
  apply io_bind_Ok in H as (model & w5 & H5 & H).
  apply lift_Ok in H5 as [H5 ->].
  apply io_bind_Ok in H as (usecases & w6 & H6 & H).
  unfold json_load_file in H6. simpl in H6. injection H6 as H6 <-.
  apply io_bind_Ok in H as (texts & w7 & H7 & H).
  apply lift_Ok in H7 as [H7 ->].
  apply io_bind_Ok in H as (emb & w8 & H8 & H).
  apply lift_Ok in H8 as [H8 ->].
  apply io_bind_Ok in H as (ucs & w9 & H9 & H).
  apply lift_Ok in H9 as [H9 ->].
  apply io_bind_Ok in H as (results & w10 & H10 & H).
  apply io_bind_Ok in H as ([] & w11 & H11 & H).
  injection H as <-.
  apply rank_usecases_entries in H10 as (Hf & entries & -> & Hall).
  simpl in Hf, Hall |- *.
  unfold json_dump_file in H11. injection H11 as <-.
  exists model, emb, usecases, ucs, entries.
  split; [exact H5|]. split; [exact H6|]. split; [exact H9|]. split.
  - unfold json_load_file. simpl. now rewrite String.eqb_refl.
  - split; [exact Hall|]. intros path Hne.
    cbn [files]. rewrite assoc_written by exact Hne. now rewrite Hf.
Qed.

(** C4 (amended). Every score [mitre_semantic] keeps in a match is a
    float: the similarity the embedding library returned for that hit,
    rounded to 3 decimals by [round]. The code does not clamp it: the
    score lies in [[0, 1]] whenever the similarity the library returned
    does, and only then is it known to. *)
Theorem retained_score_rounds_library_similarity :
  forall (input_file output_file semantic_model : string)
         (techniques : list json) (w w' : world),
    mitre_semantic SentenceTransformer encode_corpus top_results
      input_file output_file semantic_model false techniques w = (Ok 0, w') ->
    exists (model : Model) (texts : list json) (emb : Embedding)
           (usecases : json) (ucs results : list json),
      SentenceTransformer semantic_model = Ok model /\
      map_result (fun i => py_getitem i "description") techniques = Ok texts /\
      encode_corpus model texts = Ok emb /\
      fst (json_load_file input_file w) = Ok usecases /\
      py_iter usecases = Ok ucs /\
      fst (json_load_file output_file w') = Ok (JArr results) /\
      Forall2
        (fun uc entry =>
           exists hits matches,
             top_results model emb (field "description" JNone uc) = Ok hits /\
             field "matches" JNone entry = JArr matches /\
             Forall2
               (fun hit m =>
                  field "score" JNone m
                  = JAtom (AFloat (float_round (fst hit) 3)) /\
                  (in_unit_interval (fst hit) = true ->
                   in_unit_interval (float_round (fst hit) 3) = true))
               hits matches)
        ucs results.
Proof.
  intros input_file output_file semantic_model techniques w w' H.
  unfold mitre_semantic in H.
  apply io_bind_Ok in H as ([] & w1 & H1 & H). injection H1 as <-.
  apply io_bind_Ok in H as ([] & w2 & H2 & H). injection H2 as <-.
  apply io_bind_Ok in H as ([] & w3 & H3 & H). injection H3 as <-.
  apply io_bind_Ok in H as ([] & w4 & H4 & H). injection H4 as <-.
  apply io_bind_Ok in H as (model & w5 & H5 & H).
  apply lift_Ok in H5 as [H5 ->].
  apply io_bind_Ok in H as (usecases & w6 & H6 & H).
  unfold json_load_file in H6. simpl in H6. injection H6 as H6 <-.
  apply io_bind_Ok in H as (texts & w7 & H7 & H).
  apply lift_Ok in H7 as [H7 ->].
  apply io_bind_Ok in H as (emb & w8 & H8 & H).
  apply lift_Ok in H8 as [H8 ->].
  apply io_bind_Ok in H as (ucs & w9 & H9 & H).
  apply lift_Ok in H9 as [H9 ->].
  apply io_bind_Ok in H as (results & w10 & H10 & H).
  apply io_bind_Ok in H as ([] & w11 & H11 & H).
  injection H as <-.
  apply rank_usecases_entries in H10 as (_ & entries & -> & Hall).
  simpl in Hall |- *.
  unfold json_dump_file in H11. injection H11 as <-.
  exists model, texts, emb, usecases, ucs, entries.
  split; [exact H5|]. split; [exact H7|]. split; [exact H8|].
  split; [exact H6|]. split; [exact H9|]. split.
  - unfold json_load_file. simpl. now rewrite String.eqb_refl.
  - clear - Hall. induction Hall as [|uc entry ucs results Hentry _ IH];
      constructor; [|exact IH].
    destruct Hentry as (name & desc & hits & ms & _ & Hd & Hh & Hms & ->).
    apply (py_getitem_field _ _ JNone) in Hd. subst desc.
    exists hits, ms. split; [exact Hh|]. split; [reflexivity|].
    apply build_matches_scores in Hms.
    clear - Hms. induction Hms as [|hit m hits ms Hm _ IH]; constructor;
      [|exact IH].
    split; [exact Hm|]. apply float_round_unit_interval.
Qed.

(** X10. When [mitre_semantic] returns, the output file holds one entry
    per use case of the input file, in the order of the input: the entry
    copies the name and the description of its use case, and each of its
    matches carries the id and the phases of one of the techniques. No
    other file has changed. *)
Theorem mitre_semantic_writes_one_entry_per_usecase :
  forall (input_file output_file semantic_model : string) (remove_score : bool)
         (techniques : list json) (w w' : world),
    mitre_semantic SentenceTransformer encode_corpus top_results
      input_file output_file semantic_model remove_score techniques w
    = (Ok 0, w') ->
    exists (usecases : json) (ucs results : list json),
      fst (json_load_file input_file w) = Ok usecases /\
      py_iter usecases = Ok ucs /\
      fst (json_load_file output_file w') = Ok (JArr results) /\
      Forall2
        (fun uc entry =>
           exists matches,
             entry = JObj [("usecase", field "name" JNone uc);
                           ("description", field "description" JNone uc);
                           ("matches", JArr matches)] /\
             Forall (built_from techniques) matches)
        ucs results /\
      forall path, path <> output_file ->
                   assoc path (files w') = assoc path (files w).
Proof.
  intros input_file output_file semantic_model remove_score techniques w w' H.
  apply mitre_semantic_entries in H
    as (model & emb & usecases & ucs & results & _ & Hin & Hucs & Hout & Hall & Hother).
  exists usecases, ucs, results.
  split; [exact Hin|]. split; [exact Hucs|]. split; [exact Hout|].
  split; [|exact Hother].
  clear - Hall. induction Hall as [|uc entry ucs results Hentry _ IH];
    constructor; [|exact IH].
  destruct Hentry as (name & desc & hits & ms & Hn & Hd & _ & Hms & ->).
  apply (py_getitem_field _ _ JNone) in Hn, Hd. subst.
  exists ms. split; [reflexivity|].
  now apply (build_matches_built_from remove_score _ hits).
Qed.

(** An index inside the techniques gives a match. *)
Lemma build_matches_in_range (remove_score : bool) (objs : list json)
    (hits : list (float * nat)) :
  Forall (fun hit => (snd hit < List.length objs)%nat) hits ->
  exists matches,
    map_result (build_match remove_score (map technique_record objs)) hits
    = Ok matches.
Proof.
  induction hits as [|[score idx] hits IH]; simpl; intros H.
  - eauto.
  - inversion H as [|? ? Hidx Hrest]; subst. simpl in Hidx.
    destruct (IH Hrest) as (ms & ->).
    unfold list_getitem. rewrite nth_error_map.
    destruct (nth_error objs idx) as [obj|] eqn:En.
    + destruct remove_score; simpl; eauto.
    + apply nth_error_None in En. lia.
Qed.

Lemma rank_usecases_run (remove_score : bool) (objs : list json)
    (model : Model) (emb : Embedding) (items : list json) :
  Forall valid_usecase items ->
  (forall description,
      exists hits,
        top_results model emb description = Ok hits /\
        Forall (fun hit => (snd hit < List.length objs)%nat) hits) ->
  forall (results : list json) (w : world),
  exists out w',
    io_for_each
      (rank_usecase top_results remove_score (map technique_record objs) model emb)
      items results w = (Ok out, w').
Proof.
  intros Hv Htop.
  induction Hv as [|uc items (fs & name & desc & -> & Hn & Hd) _ IH];
    simpl; intros results w.
  - unfold io_ret. eauto.
  - destruct (Htop desc) as (hits & Hh & Hr).
    destruct (build_matches_in_range remove_score objs hits Hr) as (ms & Hm).
    unfold rank_usecase at 1. unfold io_bind at 1.
    unfold io_bind, lift, logging_info, io_ret. simpl. rewrite Hn, Hd, Hh, Hm.
    apply IH.
Qed.

(** X11. The checks of the shell are enough for the ranker: on an input
    file [check_input_file] has accepted and techniques
    [extract_techniques] has returned, [mitre_semantic] raises nothing
    of its own (no [KeyError], [TypeError] or [IndexError]) and reaches
    the write of the output file with one entry per use case and every
    file as it was, whenever the embedding library loads the model,
    encodes, and ranks with indices inside the techniques. What the run
    returns is then what the write of the results returns. *)
Theorem validated_input_is_ranked :
  forall (input_file output_file semantic_model : string) (remove_score : bool)
         (mitre_data : json) (techniques : list json) (model : Model)
         (w0 w : world),
    fst (check_input_file input_file w0) = Ok true ->
    assoc input_file (files w) = assoc input_file (files w0) ->
    extract_techniques mitre_data = Ok techniques ->
    SentenceTransformer semantic_model = Ok model ->
    (forall texts, exists emb, encode_corpus model texts = Ok emb) ->
    (forall emb description,
        exists hits,
          top_results model emb description = Ok hits /\
          Forall (fun hit => (snd hit < List.length techniques)%nat) hits) ->
    exists (items results : list json) (w1 : world),
      assoc input_file (files w) = Some (JsonText (JArr items)) /\
      List.length results = List.length items /\
      files w1 = files w /\
      mitre_semantic SentenceTransformer encode_corpus top_results
        input_file output_file semantic_model remove_score techniques w
      = (_ <~ json_dump_file output_file (JArr results) ;; io_ret 0) w1.
Proof.
  intros input_file output_file semantic_model remove_score mitre_data techniques
    model w0 w Hcheck Hfile Ht Hmodel Henc Htop.
  destruct (check_input_file_run input_file w0) as [Hr _].
  rewrite Hr in Hcheck. injection Hcheck as Hcheck.
  destruct (assoc input_file (files w0)) as [[[a|items|fields]|]|] eqn:Ef;
    try discriminate.
  apply check_items_valid in Hcheck.
  apply extract_techniques_map in Ht. subst techniques.
  destruct (Henc (map (field "description" (JStr ""))
                      (live_attack_patterns mitre_data)))
    as (emb & He).
  rewrite length_map in Htop.
  unfold mitre_semantic.
  unfold io_bind at 1 2 3 4 5 6 7 8 9, logging_info, lift, json_load_file. simpl.
  rewrite Hmodel, Hfile, technique_descriptions, He. simpl.
  match goal with
  | |- context [io_bind (io_for_each ?body ?l ?r) _ ?w1] =>
      destruct (rank_usecases_run remove_score
                  (live_attack_patterns mitre_data)
                  model emb items Hcheck (Htop emb) r w1) as (out & w' & Hrun)
  end.
  pose proof (rank_usecases_entries _ _ _ _ _ _ _ _ _ Hrun)
    as (Hf & entries & -> & Hall).
  exists items, entries, w'.
  split; [reflexivity|]. split; [symmetry; apply (Forall2_length Hall)|].
  split; [exact Hf|].
  unfold io_bind at 1. rewrite Hrun. reflexivity.
Qed.

End RankerRuns.

Lemma mitre_semantic_writes_one_entry_per_usecase_witness :
  exists (usecases : json) (ucs results : list json),
    fst (json_load_file "input.json" stub_world) = Ok usecases /\
    py_iter usecases = Ok ucs /\
    fst (json_load_file "output.json" pipeline_world_after) = Ok (JArr results) /\
    Forall2
      (fun uc entry =>
         exists matches,
           entry = JObj [("usecase", field "name" JNone uc);
                         ("description", field "description" JNone uc);
                         ("matches", JArr matches)] /\
           Forall (built_from pipeline_techniques) matches)
      ucs results /\
    forall path, path <> "output.json" ->
                 assoc path (files pipeline_world_after) = assoc path (files stub_world).
Proof.
  exact (mitre_semantic_writes_one_entry_per_usecase unit unit
           stub_model stub_encode stub_top
           "input.json" "output.json" "all-MiniLM-L6-v2" false
           pipeline_techniques stub_world pipeline_world_after eq_refl).
Defined.

Lemma validated_input_is_ranked_witness :
  exists (items results : list json) (w1 : world),
    assoc "input.json" (files stub_world) = Some (JsonText (JArr items)) /\
    List.length results = List.length items /\
    files w1 = files stub_world /\
    mitre_semantic stub_model stub_encode stub_top
      "input.json" "output.json" "all-MiniLM-L6-v2" false pipeline_techniques
      stub_world
    = (_ <~ json_dump_file "output.json" (JArr results) ;; io_ret 0) w1.
Proof.
  apply (validated_input_is_ranked unit unit stub_model stub_encode stub_top
           "input.json" "output.json" "all-MiniLM-L6-v2" false
           single_corpus pipeline_techniques tt stub_world stub_world).
  - reflexivity.
  - reflexivity.
  - reflexivity.
  - reflexivity.
  - intros texts. exists tt. reflexivity.
  - intros emb description. eexists. split; [reflexivity|].
    constructor; [simpl; lia|constructor].
Defined.

Lemma retained_score_rounds_library_similarity_witness :
  exists (model : unit) (texts : list json) (emb : unit)
         (usecases : json) (ucs results : list json),
    stub_model "all-MiniLM-L6-v2" = Ok model /\
    map_result (fun i => py_getitem i "description") pipeline_techniques = Ok texts /\
    stub_encode model texts = Ok emb /\
    fst (json_load_file "input.json" stub_world) = Ok usecases /\
    py_iter usecases = Ok ucs /\
    fst (json_load_file "output.json" pipeline_world_after) = Ok (JArr results) /\
    Forall2
      (fun uc entry =>
         exists hits matches,
           stub_top model emb (field "description" JNone uc) = Ok hits /\
           field "matches" JNone entry = JArr matches /\
           Forall2
             (fun hit m =>
                field "score" JNone m
                = JAtom (AFloat (float_round (fst hit) 3)) /\
                (in_unit_interval (fst hit) = true ->
                 in_unit_interval (float_round (fst hit) 3) = true))
             hits matches)
      ucs results.
Proof.
  exact (retained_score_rounds_library_similarity unit unit
           stub_model stub_encode stub_top
           "input.json" "output.json" "all-MiniLM-L6-v2"
           pipeline_techniques stub_world pipeline_world_after eq_refl).
Defined.

(** C4, as stated, fails: the library may return a negative cosine, and
    the score written is then negative ([-0.5] here), outside [[0, 1]]. *)
Lemma negative_similarity_is_retained :
  mitre_semantic stub_model stub_encode negative_top
    "input.json" "output.json" "all-MiniLM-L6-v2" false stub_techniques stub_world
  = (Ok 0,
     snd (mitre_semantic stub_model stub_encode negative_top
            "input.json" "output.json" "all-MiniLM-L6-v2" false stub_techniques
            stub_world)) /\
  fst (json_load_file "output.json"
         (snd (mitre_semantic stub_model stub_encode negative_top
                 "input.json" "output.json" "all-MiniLM-L6-v2" false
                 stub_techniques stub_world)))
  = Ok (JArr [JObj [("usecase", JStr "usecase1");
                    ("description", JStr "User runs scripts");
                    ("matches",
                     JArr [JObj [("id", JStr "T1059.001");
                                 ("name", JStr "PowerShell");
                                 ("phases", JArr [JStr "execution"]);
                                 ("score",
                                  JAtom (AFloat (S754_finite true 4503599627370496 (-53))))]])]]) /\
  in_unit_interval (S754_finite true 4503599627370496 (-53)) = false.
Proof. repeat split; vm_compute; reflexivity. Qed.

(* ================================================================== *)
(** ** The logged count of sub-techniques *)

Lemma dict_get_set {V : Type} (d : dict V) (k t : atom) (v default : V) :
  dict_get (dict_set d k v) t default =
  if py_eqb t k then v else dict_get d t default.
Proof.
  unfold dict_get. rewrite dict_lookup_set. now destruct (py_eqb t k).
Qed.

Lemma dict_mem_key {V : Type} (k k' : atom) (d : dict V) :
  key_of k = key_of k' -> dict_mem k d = dict_mem k' d.
Proof. intros E. unfold dict_mem. now rewrite (dict_lookup_key k k' d E). Qed.

(** The count of a tactic after a sequence of increments. *)
Lemma count_fold_get (ks : list atom) (count : dict Z) (t : atom) :
  dict_get (fold_left count_add ks count) t 0 =
  dict_get count t 0 + len (filter (py_eqb t) ks).
Proof.
  unfold len. revert count. induction ks as [|k ks IH]; simpl; intros count.
  - lia.
  - rewrite IH. unfold count_add. rewrite dict_get_set.
    destruct (py_eqb t k) eqn:E; simpl.
    + apply py_eqb_eq in E. rewrite (dict_get_key k t count 0 (eq_sym E)). lia.
    + reflexivity.
Qed.

(** Only incremented tactics get a count. *)
Lemma count_fold_keys (ks : list atom) (count : dict Z) (x : pykey) :
  In x (keys (fold_left count_add ks count)) ->
  In x (keys count) \/ In x (map key_of ks).
Proof.
  revert count. induction ks as [|k ks IH]; simpl; intros count H; [auto|].
  apply IH in H as [H|H]; [|auto]. unfold count_add in H.
  rewrite keys_dict_set in H. destruct (dict_mem k count); [auto|].
  apply in_app_iff in H as [H|[<-|[]]]; auto.
Qed.

Lemma count_phase_fold (tactics : dict json) (count count' : dict Z) (phase : json) :
  count_phase tactics count phase = Ok count' ->
  count' = fold_left count_add (declared_phase tactics phase) count.
Proof.
  unfold count_phase, declared_phase. intros H. run H.
  - apply py_get_field in Hv. subst v.
    destruct (field "phase_name" JNone phase) as [a| |]; try discriminate.
    injection Hv0 as ->. rewrite Hc. now subst.
  - apply py_get_field in Hv. subst v.
    destruct (field "phase_name" JNone phase) as [a| |]; try discriminate.
    injection Hv0 as ->. rewrite Hc. now subst.
Qed.

Lemma count_subtechnique_fold (tactics : dict json) (count count' : dict Z)
    (subtech : json) :
  count_subtechnique tactics count subtech = Ok count' ->
  count' = fold_left count_add
             (flat_map (declared_phase tactics)
                       (elements (field "kill_chain_phases" (JArr []) subtech)))
             count.
Proof.
  unfold count_subtechnique. intros H. run H. reads. revert H.
  apply for_each_fold. intros s x s'. apply count_phase_fold.
Qed.

Lemma keep_subtechnique_flagged (obj : json) (o : option json) :
  keep_subtechnique obj = Ok o ->
  o = if flagged_subtechnique obj then Some obj else None.
Proof.
  unfold keep_subtechnique, flagged_subtechnique, is_attack_pattern.
  intros H. run H; reads; rewrite ?Hc, ?Hc0; subst; reflexivity.
Qed.

Lemma kept_subtechniques (objs subtechniques : list json) :
  comprehension keep_subtechnique objs = Ok subtechniques ->
  subtechniques = filter flagged_subtechnique objs.
Proof.
  revert subtechniques. induction objs as [|obj objs IH]; simpl; intros subs H.
  - congruence.
  - run H. apply keep_subtechnique_flagged in Hv. subst.
    rewrite (IH _ Hv0). now destruct (flagged_subtechnique obj).
Qed.

Lemma declared_phases_flagged (tactics : dict json) (objs : list json) :
  flat_map (fun subtech =>
              flat_map (declared_phase tactics)
                       (elements (field "kill_chain_phases" (JArr []) subtech)))
           (filter flagged_subtechnique objs)
  = flat_map (declared_phases tactics) objs.
Proof.
  unfold declared_phases.
  induction objs as [|obj objs IH]; simpl; [reflexivity|].
  destruct (flagged_subtechnique obj); simpl; now rewrite IH.
Qed.

(** The counts are the increments of the declared phases of the flagged
    attack-patterns, in the order of the corpus. *)
Lemma count_subtechniques_fold (mitrejson : json) (tactics : dict json)
    (counts : dict Z) :
  count_subtechniques mitrejson = Ok (tactics, counts) ->
  counts = fold_left count_add
             (flat_map (declared_phases tactics) (corpus_objects mitrejson)) [].
Proof.
  unfold count_subtechniques, corpus_objects. intros H. run H.
  subst v1 v3.
  apply (py_getitem_field _ _ (JArr [])) in Hv. apply py_iter_elements in Hv0.
  apply kept_subtechniques in Hv2. subst.
  rewrite <- declared_phases_flagged. revert Hv3.
  apply for_each_fold. intros s x s'. apply count_subtechnique_fold.
Qed.

Lemma declared_phases_declared (tactics : dict json) (obj : json) (k : atom) :
  In k (declared_phases tactics obj) -> dict_mem k tactics = true.
Proof.
  unfold declared_phases, declared_phase.
  destruct (flagged_subtechnique obj); [|intros []].
  intros H. apply in_flat_map in H as (phase & _ & H).
  destruct (field "phase_name" JNone phase) as [a| |]; try contradiction.
  destruct (dict_mem a tactics) eqn:E; [|contradiction].
  destruct H as [<-|[]]. exact E.
Qed.

(** Every counted tactic is a declared one. *)
Lemma counted_keys_declared (mitrejson : json) (tactics : dict json)
    (counts : dict Z) :
  count_subtechniques mitrejson = Ok (tactics, counts) ->
  Forall (fun item => dict_mem (fst item) tactics = true) counts.
Proof.
  intros H. apply count_subtechniques_fold in H. apply Forall_forall.
  intros [k n] Hin. simpl.
  assert (Hk : In (key_of k) (keys counts)).
  { unfold keys. apply in_map_iff. exists (k, n). auto. }
  rewrite H in Hk. apply count_fold_keys in Hk as [[]|Hk].
  apply in_map_iff in Hk as (k' & Ek & Hk').
  apply in_flat_map in Hk' as (obj & _ & Hk').
  apply declared_phases_declared in Hk'.
  now rewrite (dict_mem_key k k' tactics (eq_sym Ek)).
Qed.

(** The loop that logs the counts finds the name of every tactic. *)
Lemma log_counts_run (tactics : dict json) (counts : dict Z) :
  Forall (fun item => dict_mem (fst item) tactics = true) counts ->
  forall w, exists w',
    io_for_each (log_count tactics) counts tt w = (Ok tt, w') /\
    files w' = files w.
Proof.
  induction 1 as [|[k n] counts Hk _ IH]; simpl; intros w.
  - unfold io_ret. eauto.
  - unfold log_count at 1, io_bind, lift, logging_info. simpl in *.
    unfold dict_mem in Hk. destruct (dict_lookup k tactics) as [name|];
      [|discriminate].
    match goal with |- context [io_for_each _ _ _ ?w1] =>
      destruct (IH w1) as (w' & Hrun & Hf) end.
    exists w'. split; [exact Hrun|exact Hf].
Qed.

(** [get_total_sub_techniques] raises while it counts or not at all. *)
Lemma get_total_sub_techniques_run (mitrejson : json) (w : world) :
  match count_subtechniques mitrejson with
  | Ok _ => exists w', get_total_sub_techniques mitrejson w = (Ok tt, w') /\
                       files w' = files w
  | Err e => get_total_sub_techniques mitrejson w = (Err e, w)
  end.
Proof.
  unfold get_total_sub_techniques, io_bind, lift.
  destruct (count_subtechniques mitrejson) as [[tactics counts]|e] eqn:E;
    [|reflexivity].
  simpl. apply log_counts_run. now apply (counted_keys_declared mitrejson).
Qed.

Lemma truthy_flag_default (obj : json) :
  truthy (field "x_mitre_is_subtechnique" JFalse obj)
  = truthy (field "x_mitre_is_subtechnique" JNone obj).
Proof.
  destruct obj as [a|l|fs]; simpl; try reflexivity.
  now destruct (assoc "x_mitre_is_subtechnique" fs).
Qed.

Lemma counted_is_flagged (obj : json) :
  counted_subtechnique obj = true -> flagged_subtechnique obj = true.
Proof.
  unfold counted_subtechnique, live_subtechnique, flagged_subtechnique,
    is_subtechnique.
  rewrite truthy_flag_default. intros H.
  apply andb_true_iff in H as [H _]. apply andb_true_iff in H as [H ->].
  apply andb_true_iff in H as [-> _]. reflexivity.
Qed.

Lemma filter_pairs_length (t id : atom) (l : list atom) :
  List.length (filter (fun p : atom * atom => py_eqb t (fst p))
                      (map (fun phase => (phase, id)) l))
  = List.length (filter (py_eqb t) l).
Proof.
  induction l as [|a l IH]; simpl; [reflexivity|].
  destruct (py_eqb t a); simpl; now rewrite IH.
Qed.

(** Phase by phase, what the loader files under a declared tactic is
    counted under it. *)
Lemma phase_names_declared (tactics : dict json) (t : atom) (phases : list json) :
  dict_mem t tactics = true ->
  (List.length
     (filter (py_eqb t)
        (atoms
           (flat_map
              (fun p => match p with
                        | JObj fields =>
                            match assoc "phase_name" fields with
                            | Some v => [v]
                            | None => []
                            end
                        | _ => []
                        end) phases)))
   <= List.length (filter (py_eqb t) (flat_map (declared_phase tactics) phases)))%nat.
Proof.
  intros Ht. unfold atoms.
  induction phases as [|p phases IH]; simpl; [lia|].
  rewrite flat_map_app, !filter_app, !length_app.
  apply Nat.add_le_mono; [|exact IH].
  unfold declared_phase. destruct p as [a|l|fs]; simpl; try lia.
  destruct (assoc "phase_name" fs) as [[a|l|fs']|]; simpl; try lia.
  destruct (py_eqb t a) eqn:E; simpl; [|lia].
  apply py_eqb_eq in E. rewrite <- (dict_mem_key t a tactics E), Ht. simpl.
  apply py_eqb_eq in E. rewrite E. simpl. lia.
Qed.

Lemma subtechnique_pairs_declared (tactics : dict json) (t : atom) (obj : json) :
  dict_mem t tactics = true ->
  (List.length (filter (fun p => py_eqb t (fst p)) (subtechnique_pairs obj))
   <= List.length (filter (py_eqb t) (declared_phases tactics obj)))%nat.
Proof.
  intros Ht. unfold subtechnique_pairs, declared_phases.
  destruct (counted_subtechnique obj) eqn:Ec; [|simpl; lia].
  rewrite (counted_is_flagged obj Ec).
  destruct (first_external_id obj) as [id| |]; try (simpl; lia).
  rewrite filter_pairs_length. unfold phase_names.
  now apply phase_names_declared.
Qed.

Lemma corpus_pairs_declared (tactics : dict json) (t : atom) (objs : list json) :
  dict_mem t tactics = true ->
  (List.length (filter (fun p => py_eqb t (fst p)) (flat_map subtechnique_pairs objs))
   <= List.length (filter (py_eqb t) (flat_map (declared_phases tactics) objs)))%nat.
Proof.
  intros Ht. induction objs as [|obj objs IH]; simpl; [lia|].
  rewrite !filter_app, !length_app.
  apply Nat.add_le_mono; [|exact IH]. now apply subtechnique_pairs_declared.
Qed.

Lemma nodup_length_le {A : Type} (dec : forall a b : A, {a = b} + {a <> b})
    (l : list A) :
  (List.length (nodup dec l) <= List.length l)%nat.
Proof.
  induction l as [|a l IH]; simpl; [lia|].
  destruct (in_dec dec a l); simpl; lia.
Qed.

(** X12. When the count of [get_total_sub_techniques] succeeds, the
    number logged for a tactic is the number of kill-chain phases naming
    it over the attack-patterns flagged [x_mitre_is_subtechnique],
    revoked ones included and no id looked at; only tactics declared by
    an [x-mitre-tactic] object get a count; and the logging loop then
    runs to its end without [KeyError] and without writing a file. *)
Theorem logged_count_is_phase_occurrences :
  forall (mitrejson : json) (tactics : dict json) (counts : dict Z),
    count_subtechniques mitrejson = Ok (tactics, counts) ->
    (forall tactic : atom,
        dict_get counts tactic 0 = phase_occurrences tactics mitrejson tactic) /\
    (forall tactic : atom,
        dict_mem tactic counts = true -> dict_mem tactic tactics = true) /\
    forall w : world,
    exists w' : world,
      get_total_sub_techniques mitrejson w = (Ok tt, w') /\ files w' = files w.
Proof.
  intros mitrejson tactics counts H. split; [|split].
  - intros tactic. rewrite (count_subtechniques_fold _ _ _ H), count_fold_get.
    reflexivity.
  - intros tactic Hm. pose proof (counted_keys_declared _ _ _ H) as Hall.
    unfold dict_mem in Hm.
    destruct (dict_lookup tactic counts) as [n|] eqn:El; [|discriminate].
    apply dict_lookup_In in El as (k' & Hin & Ek).
    rewrite Forall_forall in Hall. specialize (Hall _ Hin). simpl in Hall.
    now rewrite (dict_mem_key tactic k' tactics Ek).
  - intros w. pose proof (get_total_sub_techniques_run mitrejson w) as Hrun.
    now rewrite H in Hrun.
Qed.

Lemma logged_count_is_phase_occurrences_witness :
  dict_get [(AStr "execution", 2)] (AStr "execution") 0
  = phase_occurrences [(AStr "execution", JStr "Execution")] tactic_corpus
      (AStr "execution").
Proof.
  exact (proj1 (logged_count_is_phase_occurrences tactic_corpus
                  [(AStr "execution", JStr "Execution")]
                  [(AStr "execution", 2)] eq_refl)
               (AStr "execution")).
Defined.

(** X13. The two counts of the tool agree in one direction only: for a
    declared tactic, the number [get_total_sub_techniques] logs is at
    least the [total] that [load_subtechniques_by_tactic] gives the
    coverage (which leaves out revoked sub-techniques and those without
    references, and counts an id once). *)
Theorem logged_count_bounds_total :
  forall (mitrejson : json) (tactics : dict json) (counts : dict Z)
         (total_subs : defaultdict) (tactic : atom),
    count_subtechniques mitrejson = Ok (tactics, counts) ->
    load_subtechniques_by_tactic mitrejson = Ok total_subs ->
    dict_mem tactic tactics = true ->
    len (dict_get total_subs tactic []) <= dict_get counts tactic 0.
Proof.
  intros mitrejson tactics counts total_subs tactic Hc Hl Ht.
  apply load_subtechniques_by_tactic_pairs in Hl. subst total_subs.
  rewrite (count_subtechniques_fold _ _ _ Hc), count_fold_get.
  unfold len. rewrite dd_of_pairs_length. simpl.
  apply Nat2Z.inj_le.
  etransitivity; [apply nodup_length_le|]. rewrite length_map.
  unfold corpus_pairs. now apply corpus_pairs_declared.
Qed.

Lemma logged_count_bounds_total_witness :
  len (dict_get [(AStr "execution", [AStr "T1059.001"])] (AStr "execution") [])
  <= dict_get [(AStr "execution", 2)] (AStr "execution") 0.
Proof.
  exact (logged_count_bounds_total tactic_corpus
           [(AStr "execution", JStr "Execution")]
           [(AStr "execution", 2)]
           [(AStr "execution", [AStr "T1059.001"])]
           (AStr "execution") eq_refl eq_refl eq_refl).
Defined.

(* ================================================================== *)
(** ** Exceptions outside [Exception] *)

(** No statement of the tool raises outside [Exception]: only what it
    calls can. *)
Lemma uninterrupted_is_exception {A : Type} (r : result A) (e : exn) :
  raises KeyboardInterrupt r = false -> r = Err e -> is_exception e = true.
Proof. intros H ->. now destruct e. Qed.

Lemma raises_map_result {A B : Type} (e : exn) (f : A -> result B) (l : list A) :
  (forall x, raises e (f x) = false) ->
  raises e (map_result f l) = false.
Proof.
  intros Hf. induction l as [|x l IH]; simpl; [reflexivity|].
  apply raises_bind; [apply Hf|]. intros o. apply raises_bind; [apply IH|].
  reflexivity.
Qed.

Lemma uninterrupted_py_get (o : json) (k : string) (default : json) :
  raises KeyboardInterrupt (py_get o k default) = false.
Proof. now destruct o. Qed.

Lemma uninterrupted_py_getitem (o : json) (k : string) :
  raises KeyboardInterrupt (py_getitem o k) = false.
Proof. destruct o as [| |fs]; simpl; try reflexivity. now destruct (assoc k fs). Qed.

Lemma uninterrupted_py_getitem0 (o : json) :
  raises KeyboardInterrupt (py_getitem0 o) = false.
Proof. now destruct o as [[| | | |[|c s]]|[|x l]|fs]. Qed.

Lemma uninterrupted_py_iter (o : json) :
  raises KeyboardInterrupt (py_iter o) = false.
Proof. now destruct o as [[| | | |s]|l|fs]. Qed.

Lemma uninterrupted_hashable (v : json) :
  raises KeyboardInterrupt (hashable v) = false.
Proof. now destruct v. Qed.

(** Walks through a sequence of statements of the tool. *)
Ltac uninterrupted :=
  repeat first
    [ reflexivity
    | apply uninterrupted_py_get
    | apply uninterrupted_py_getitem
    | apply uninterrupted_py_getitem0
    | apply uninterrupted_py_iter
    | apply uninterrupted_hashable
    | apply raises_bind; [|intros]
    | apply raises_for_each; intros
    | apply raises_comprehension; intros
    | apply raises_map_result; intros
    | match goal with
      | |- raises _ (if ?c then _ else _) = false => destruct c
      end ].

Lemma uninterrupted_extract_techniques (data : json) :
  raises KeyboardInterrupt (extract_techniques data) = false.
Proof. unfold extract_techniques, extract_techniques_step. uninterrupted. Qed.

Lemma uninterrupted_count_subtechniques (mitrejson : json) :
  raises KeyboardInterrupt (count_subtechniques mitrejson) = false.
Proof.
  unfold count_subtechniques, tactics_step, keep_subtechnique,
    count_subtechnique, count_phase.
  uninterrupted.
Qed.

(* ================================================================== *)
(** ** Loading the techniques *)

(** A run of [load_mitre_techniques], read off the file. *)
Lemma load_mitre_techniques_run (mitre_file : string) (w : world) :
  fst (load_mitre_techniques mitre_file w) =
  match assoc mitre_file (files w) with
  | Some (JsonText data) =>
      match extract_techniques data, count_subtechniques data with
      | Ok techniques, Ok _ => Returned techniques
      | _, _ => Exited 1
      end
  | _ => Exited 1
  end /\
  files (snd (load_mitre_techniques mitre_file w)) = files w.
Proof.
  unfold load_mitre_techniques, proc_bind, try_except, of_io, io_bind,
    logging_info, logging_error, logging_info, json_load_file, lift, sys_exit,
    proc_ret, io_ret.
  simpl.
  destruct (assoc mitre_file (files w)) as [[data|]|]; simpl;
    try (split; reflexivity).
  pose proof (uninterrupted_extract_techniques data) as He.
  pose proof (uninterrupted_count_subtechniques data) as Hc.
  destruct (extract_techniques data) as [techniques|e]; simpl.
  2:{ rewrite (uninterrupted_is_exception _ e He eq_refl). split; reflexivity. }
  match goal with
  | |- context [get_total_sub_techniques data ?w1] =>
      pose proof (get_total_sub_techniques_run data w1) as Hrun
  end.
  destruct (count_subtechniques data) as [counted|e].
  - destruct Hrun as (w' & -> & Hf). simpl. split; [reflexivity|exact Hf].
  - rewrite Hrun. simpl.
    rewrite (uninterrupted_is_exception _ e Hc eq_refl). split; reflexivity.
Qed.

(** X14. [load_mitre_techniques] never raises and writes no file. It
    returns exactly when the file holds a JSON document on which both
    [extract_techniques] and the count of [get_total_sub_techniques]
    succeed, and then it returns one record per non-revoked
    attack-pattern; in every other case (missing file, text that is not
    JSON, an exception of either function) it exits with status 1. *)
Theorem load_mitre_techniques_returns_or_exits :
  forall (mitre_file : string) (w : world),
    files (snd (load_mitre_techniques mitre_file w)) = files w /\
    ((exists (data : json) (techniques : list json) (counted : dict json * dict Z),
         assoc mitre_file (files w) = Some (JsonText data) /\
         extract_techniques data = Ok techniques /\
         count_subtechniques data = Ok counted /\
         fst (load_mitre_techniques mitre_file w) = Returned techniques /\
         techniques = map technique_record (live_attack_patterns data))
     \/
     (fst (load_mitre_techniques mitre_file w) = Exited 1 /\
      forall data : json,
        assoc mitre_file (files w) = Some (JsonText data) ->
        (exists e, extract_techniques data = Err e) \/
        (exists e, count_subtechniques data = Err e))).
Proof.
  intros mitre_file w.
  destruct (load_mitre_techniques_run mitre_file w) as [Hr Hf].
  split; [exact Hf|]. rewrite Hr.
  destruct (assoc mitre_file (files w)) as [[data|]|];
    try (right; split; [reflexivity|intros data' Hd; discriminate Hd]).
  destruct (extract_techniques data) as [techniques|e] eqn:Et.
  - destruct (count_subtechniques data) as [counted|e] eqn:Ec.
    + left. exists data, techniques, counted.
      split; [reflexivity|]. split; [exact Et|]. split; [exact Ec|].
      split; [reflexivity|]. now apply extract_techniques_map.
    + right. split; [reflexivity|]. intros data' [= <-]. right. eauto.
  - right. split; [reflexivity|]. intros data' [= <-]. left. eauto.
Qed.

(** X15. A corpus document without the key [objects] is read as an empty
    corpus by [extract_techniques] and [load_subtechniques_by_tactic]
    ([.get("objects", [])]), but [get_total_sub_techniques] subscripts
    it and raises [KeyError], so [load_mitre_techniques] exits with
    status 1 on it. *)
Theorem corpus_without_objects_is_refused :
  forall (mitre_file : string) (fields : list (string * json)) (w : world),
    assoc mitre_file (files w) = Some (JsonText (JObj fields)) ->
    assoc "objects" fields = None ->
    extract_techniques (JObj fields) = Ok [] /\
    load_subtechniques_by_tactic (JObj fields) = Ok [] /\
    raises KeyError (fst (get_total_sub_techniques (JObj fields) w)) = true /\
    fst (load_mitre_techniques mitre_file w) = Exited 1.
Proof.
  intros mitre_file fields w Hfile Hobj.
  assert (He : extract_techniques (JObj fields) = Ok []).
  { unfold extract_techniques. simpl. now rewrite Hobj. }
  assert (Hc : count_subtechniques (JObj fields) = Err KeyError).
  { unfold count_subtechniques. simpl. now rewrite Hobj. }
  split; [exact He|]. split.
  - unfold load_subtechniques_by_tactic. simpl. now rewrite Hobj.
  - split.
    + pose proof (get_total_sub_techniques_run (JObj fields) w) as Hrun.
      rewrite Hc in Hrun. now rewrite Hrun.
    + destruct (load_mitre_techniques_run mitre_file w) as [Hr _].
      now rewrite Hr, Hfile, He, Hc.
Qed.

Lemma corpus_without_objects_is_refused_witness :
  extract_techniques (JObj [("type", JStr "bundle")]) = Ok [] /\
  load_subtechniques_by_tactic (JObj [("type", JStr "bundle")]) = Ok [] /\
  raises KeyError
    (fst (get_total_sub_techniques (JObj [("type", JStr "bundle")]) objectless_world))
  = true /\
  fst (load_mitre_techniques "enterprise-attack.json" objectless_world) = Exited 1.
Proof.
  exact (corpus_without_objects_is_refused "enterprise-attack.json"
           [("type", JStr "bundle")] objectless_world eq_refl eq_refl).
Defined.

(* ================================================================== *)
(** ** The runs of [main] *)

Lemma proc_bind_Exited {A B : Type} (c : proc A) (k : A -> proc B)
    (code : Z) (w w' : world) :
  proc_bind c k w = (Exited code, w') ->
  c w = (Exited code, w') \/
  exists a w1, c w = (Returned a, w1) /\ k a w1 = (Exited code, w').
Proof.
  unfold proc_bind. destruct (c w) as [[a|e|n] w1]; intros H.
  - right. eauto.
  - discriminate H.
  - left. now injection H as -> ->.
Qed.

Lemma of_io_Returned {A : Type} (c : io A) (a : A) (w w' : world) :
  of_io c w = (Returned a, w') -> c w = (Ok a, w').
Proof.
  unfold of_io. destruct (c w) as [[x|e] w1]; intros H; [|discriminate H].
  now injection H as -> ->.
Qed.

Lemma of_io_not_Exited {A : Type} (c : io A) (code : Z) (w w' : world) :
  of_io c w <> (Exited code, w').
Proof. unfold of_io. destruct (c w) as [[x|e] w1]; discriminate. Qed.

Lemma exits_of_io {A : Type} (c : io A) : exits_0_or_1 (of_io c).
Proof.
  intros w code. unfold of_io. destruct (c w) as [[x|e] w1]; discriminate.
Qed.

Lemma exits_sys_exit {A : Type} (code : Z) :
  code = 0 \/ code = 1 -> exits_0_or_1 (@sys_exit A code).
Proof. intros Hc w code'. unfold sys_exit. simpl. now intros [= <-]. Qed.

Lemma exits_proc_ret {A : Type} (a : A) : exits_0_or_1 (proc_ret a).
Proof. intros w code. discriminate. Qed.

Lemma exits_proc_bind {A B : Type} (c : proc A) (k : A -> proc B) :
  exits_0_or_1 c -> (forall a, exits_0_or_1 (k a)) -> exits_0_or_1 (proc_bind c k).
Proof.
  intros Hc Hk w code. unfold proc_bind.
  specialize (Hc w). destruct (c w) as [[a|e|n] w1]; simpl in *.
  - apply Hk.
  - discriminate.
  - intros [= <-]. now apply Hc.
Qed.

Lemma never_returns_sys_exit {A : Type} (code : Z) : never_returns (@sys_exit A code).
Proof. intros w a. discriminate. Qed.

Lemma never_returns_bind {A B : Type} (c : proc A) (k : A -> proc B) :
  (forall a, never_returns (k a)) -> never_returns (proc_bind c k).
Proof.
  intros Hk w b. unfold proc_bind. destruct (c w) as [[a|e|n] w1]; simpl.
  - apply Hk.
  - discriminate.
  - discriminate.
Qed.

(** A run of [check_mitre_json], read off the file and its name. *)
Lemma check_mitre_json_outcome (mitre_file : string) (w : world) :
  files (snd (check_mitre_json mitre_file w)) = files w /\
  fst (check_mitre_json mitre_file w) =
  if is_file mitre_file w && ends_with ".json" mitre_file
  then Returned 0 else Exited 1.
Proof.
  unfold check_mitre_json.
  destruct (is_file mitre_file w && ends_with ".json" mitre_file);
    split; reflexivity.
Qed.

Lemma exits_check_mitre_json (mitre_file : string) :
  exits_0_or_1 (check_mitre_json mitre_file).
Proof.
  intros w code. destruct (check_mitre_json_outcome mitre_file w) as [_ ->].
  destruct (is_file mitre_file w && ends_with ".json" mitre_file);
    [discriminate|intros [= <-]; auto].
Qed.

Lemma exits_load_mitre_techniques (mitre_file : string) :
  exits_0_or_1 (load_mitre_techniques mitre_file).
Proof.
  intros w code. destruct (load_mitre_techniques_run mitre_file w) as [-> _].
  destruct (assoc mitre_file (files w)) as [[data|]|];
    try (intros [= <-]; auto).
  destruct (extract_techniques data); [|intros [= <-]; auto].
  destruct (count_subtechniques data); [discriminate|intros [= <-]; auto].
Qed.

Lemma is_file_files (path : string) (w w' : world) :
  files w' = files w -> is_file path w' = is_file path w.
Proof. unfold is_file. now intros ->. Qed.

Section ShellProperties.

Variables Model Embedding : Type.
Variable SentenceTransformer : string -> result Model.
Variable encode_corpus : Model -> list json -> result Embedding.
Variable top_results : Model -> Embedding -> json -> result (list (float * nat)).
Variable input : string -> result string.
Variable requests_get : string -> result file_content.
Variable pretty_print : dict tactic_coverage -> result unit.

(** A run of [check_output_file_exists], read off the file and the answer. *)
Lemma check_output_file_exists_run (output_file : string) (w : world) :
  files (snd (check_output_file_exists input output_file w)) = files w /\
  fst (check_output_file_exists input output_file w) =
  if is_file output_file w then
    match input (overwrite_prompt output_file) with
    | Ok answer =>
        if String.eqb (str_lower (str_strip answer)) "y"
        then Returned 0 else Exited 0
    | Err e => Raised e
    end
  else Returned 0.
Proof.
  unfold check_output_file_exists, proc_bind, of_io, logging_info, lift,
    sys_exit, proc_ret, is_file.
  simpl.
  destruct (assoc output_file (files w)); [|split; reflexivity].
  destruct (input (overwrite_prompt output_file)) as [answer|e];
    [|split; reflexivity].
  destruct (String.eqb (str_lower (str_strip answer)) "y"); split; reflexivity.
Qed.

Lemma exits_check_output_file_exists (output_file : string) :
  exits_0_or_1 (check_output_file_exists input output_file).
Proof.
  intros w code. destruct (check_output_file_exists_run output_file w) as [_ ->].
  destruct (is_file output_file w); [|discriminate].
  destruct (input (overwrite_prompt output_file)) as [answer|e]; [|discriminate].
  destruct (String.eqb (str_lower (str_strip answer)) "y");
    [discriminate|intros [= <-]; auto].
Qed.

(** The download replaces one file, and only when it is asked for. *)
Lemma download_step_files (download : bool) (w w' : world) (a : unit) :
  (if download then of_io (download_file requests_get) else proc_ret tt) w
  = (Returned a, w') ->
  forall path,
    download = false \/ path <> "enterprise-attack.json" ->
    assoc path (files w') = assoc path (files w).
Proof.
  destruct download.
  - intros H path [Hd|Hp]; [discriminate Hd|].
    apply of_io_Returned in H. unfold download_file in H.
    apply io_bind_Ok in H as ([] & w1 & H1 & H). injection H1 as <-.
    apply io_bind_Ok in H as (response & w2 & H2 & H).
    apply lift_Ok in H2 as [_ ->].
    apply io_bind_Ok in H as ([] & w3 & H3 & H).
    unfold write_file in H3. injection H3 as <-.
    unfold logging_info in H. injection H as H. subst w'.
    cbn [files]. now apply assoc_written.
  - intros H path _. unfold proc_ret in H. inversion H. reflexivity.
Qed.

(** X16. No exception of class [Exception] leaves [main], whatever the
    embedding library, [input], the download and [pretty_print] raise:
    [main] returns, without a call of [sys.exit] and without touching a
    file, exactly when [check_input_file] refuses the input; in every
    other run it ends in [sys.exit] with status 0 or 1, or in an
    exception from outside [Exception] (Ctrl-C at the prompt), which
    [except Exception] does not catch. *)
Theorem main_lets_no_exception_out :
  forall (args : Args.t) (w : world),
    match main SentenceTransformer encode_corpus top_results input
            requests_get pretty_print args w with
    | (Returned _, w') =>
        fst (check_input_file (Args.input args) w) = Ok false /\
        files w' = files w
    | (Exited code, _) =>
        (code = 0 \/ code = 1) /\
        fst (check_input_file (Args.input args) w) = Ok true
    | (Raised e, _) =>
        is_exception e = false /\
        fst (check_input_file (Args.input args) w) = Ok true
    end.
Proof.
  intros args w. unfold main, try_except.
  destruct (check_input_file_run (Args.input args) w) as [Hr Hf].
  unfold proc_bind at 1. unfold of_io at 1.
  destruct (check_input_file (Args.input args) w) as [r w1]. simpl in Hr, Hf.
  subst r.
  match goal with
  | |- context [Ok ?b] => destruct b
  end; [|simpl; auto].
  cbv beta iota.
  match goal with
  | |- context [match ?c w1 with _ => _ end] => set (run := c)
  end.
  assert (He : exits_0_or_1 run).
  { subst run.
    apply exits_proc_bind; [apply exits_check_output_file_exists|]. intros _.
    apply exits_proc_bind;
      [destruct (Args.download args); [apply exits_of_io|apply exits_proc_ret]|].
    intros _.
    apply exits_proc_bind; [apply exits_check_mitre_json|]. intros _.
    apply exits_proc_bind; [apply exits_load_mitre_techniques|]. intros techniques.
    apply exits_proc_bind; [apply exits_of_io|]. intros _.
    apply exits_proc_bind; [apply exits_of_io|]. intros results.
    apply exits_proc_bind; [apply exits_of_io|]. intros _.
    apply exits_proc_bind; [apply exits_of_io|]. intros _.
    apply exits_sys_exit. auto. }
  assert (Hn : never_returns run).
  { subst run.
    do 8 (apply never_returns_bind; intros ?).
    apply never_returns_sys_exit. }
  specialize (He w1). specialize (Hn w1).
  destruct (run w1) as [[a|e|code] w2]; simpl in *.
  - exfalso. exact (Hn a eq_refl).
  - destruct (is_exception e) eqn:Ee; simpl; auto.
  - split; [now apply He|reflexivity].
Qed.

(** X17. An output file that exists is not overwritten without the
    answer y: when the input is valid, the output file is there and the
    answer, stripped and lowered, is not ["y"], [main] exits with status
    0; when [input] raises an [Exception] instead (end of input), [main]
    exits with status 1; when [input] raises outside [Exception] (Ctrl-C
    at the prompt), that exception leaves [main]. In the three cases no
    file has changed. *)
Theorem declined_overwrite_changes_nothing :
  forall (args : Args.t) (w : world),
    fst (check_input_file (Args.input args) w) = Ok true ->
    is_file (Args.output args) w = true ->
    (forall answer,
        input (overwrite_prompt (Args.output args)) = Ok answer ->
        str_lower (str_strip answer) <> "y") ->
    files (snd (main SentenceTransformer encode_corpus top_results input
                  requests_get pretty_print args w)) = files w /\
    fst (main SentenceTransformer encode_corpus top_results input
           requests_get pretty_print args w)
    = match input (overwrite_prompt (Args.output args)) with
      | Ok _ => Exited 0
      | Err e => if is_exception e then Exited 1 else Raised e
      end.
Proof.
  intros args w Hvalid Hfile Hanswer.
  assert (Hrun : exists w',
             main SentenceTransformer encode_corpus top_results input
               requests_get pretty_print args w
             = (match input (overwrite_prompt (Args.output args)) with
                | Ok _ => Exited 0
                | Err e => if is_exception e then Exited 1 else Raised e
                end, w') /\
             files w' = files w).
  { destruct (check_input_file_run (Args.input args) w) as [_ Hf1].
    unfold main, try_except.
    unfold proc_bind at 1. unfold of_io at 1.
    destruct (check_input_file (Args.input args) w) as [r w1].
    simpl in Hvalid, Hf1. subst r. cbv beta iota.
    unfold proc_bind at 1.
    destruct (check_output_file_exists_run (Args.output args) w1) as [Hf2 Hr2].
    rewrite (is_file_files _ w w1 Hf1), Hfile in Hr2.
    destruct (check_output_file_exists input (Args.output args) w1) as [o w2].
    simpl in Hf2, Hr2. subst o.
    destruct (input (overwrite_prompt (Args.output args))) as [answer|e].
    - destruct (String.eqb (str_lower (str_strip answer)) "y") eqn:Ey.
      + apply String.eqb_eq in Ey. now destruct (Hanswer answer eq_refl).
      + exists w2. split; [reflexivity|congruence].
    - destruct (is_exception e).
      + eexists. split; [reflexivity|]. simpl. congruence.
      + exists w2. split; [reflexivity|congruence]. }
  destruct Hrun as (w' & -> & Hf). split; [exact Hf|reflexivity].
Qed.

(** X18. Status 0 after a run that was not declined means the work was
    done: when [main] exits with status 0 and the output file was not
    there before, the output file holds one entry per use case of the
    input file, with its name and description; the coverage handed to
    [pretty_print] is [calculate_coverage] of the corpus file and these
    entries; and no file but the output (and the downloaded corpus, when
    asked for) has changed. *)
Theorem exit_0_means_results_written :
  forall (args : Args.t) (w w' : world),
    main SentenceTransformer encode_corpus top_results input
      requests_get pretty_print args w = (Exited 0, w') ->
    is_file (Args.output args) w = false ->
    exists (results : list json) (mitre_data : json)
           (coverage : dict tactic_coverage),
      assoc (Args.output args) (files w') = Some (JsonText (JArr results)) /\
      fst (json_load_file (Args.mitrejson args) w') = Ok mitre_data /\
      calculate_coverage mitre_data (JArr results) = Ok coverage /\
      pretty_print coverage = Ok tt /\
      (forall path,
          path <> Args.output args ->
          Args.download args = false \/ path <> "enterprise-attack.json" ->
          assoc path (files w') = assoc path (files w)) /\
      (Args.download args = false \/ Args.input args <> "enterprise-attack.json" ->
       exists items,
         assoc (Args.input args) (files w) = Some (JsonText (JArr items)) /\
         Forall2
           (fun uc entry =>
              field "usecase" JNone entry = field "name" JNone uc /\
              field "description" JNone entry = field "description" JNone uc)
           items results).
Proof.
  intros args w w' H Habsent.
  unfold main, try_except in H.
  match type of H with
  | (match ?body w with _ => _ end) = _ => destruct (body w) as [o wb] eqn:Hb
  end.
  destruct o as [a|e|code]; [discriminate H| |].
  { destruct (is_exception e); [|discriminate H].
    unfold proc_bind, of_io, logging_error, logging_info, sys_exit in H.
    simpl in H. discriminate H. }
  injection H as -> ->.
  destruct (check_input_file_run (Args.input args) w) as [Hr1 Hf1].
  apply proc_bind_Exited in Hb as [Hb|(valid & w1 & H1 & Hb)];
    [now apply of_io_not_Exited in Hb|].
  apply of_io_Returned in H1. rewrite H1 in Hr1, Hf1. simpl in Hr1, Hf1.
  destruct valid; [|discriminate Hb].
  injection Hr1 as Hr1. symmetry in Hr1.
  destruct (assoc (Args.input args) (files w)) as [[[a|items|fields]|]|] eqn:Einput;
    try discriminate Hr1.
  (* the output file *)
  destruct (check_output_file_exists_run (Args.output args) w1) as [Hf2 Hr2].
  rewrite (is_file_files _ w w1 Hf1), Habsent in Hr2.
  apply proc_bind_Exited in Hb as [Hb|(z2 & w2 & H2 & Hb)];
    [rewrite Hb in Hr2; discriminate Hr2|].
  rewrite H2 in Hf2. simpl in Hf2.
  (* the download *)
  apply proc_bind_Exited in Hb as [Hb|(u3 & w3 & H3 & Hb)].
  { destruct (Args.download args);
      [now apply of_io_not_Exited in Hb|discriminate Hb]. }
  pose proof (download_step_files _ _ _ _ H3) as Hf3.
  (* the corpus file *)
  destruct (check_mitre_json_outcome (Args.mitrejson args) w3) as [Hf4 Hr4].
  apply proc_bind_Exited in Hb as [Hb|(z4 & w4 & H4 & Hb)].
  { rewrite Hb in Hr4. simpl in Hr4.
    destruct (is_file (Args.mitrejson args) w3
              && ends_with ".json" (Args.mitrejson args));
      discriminate Hr4. }
  rewrite H4 in Hf4. simpl in Hf4.
  destruct (load_mitre_techniques_run (Args.mitrejson args) w4) as [Hr5 Hf5].
  apply proc_bind_Exited in Hb as [Hb|(techniques & w5 & H5 & Hb)].
  { rewrite Hb in Hr5. simpl in Hr5.
    destruct (assoc (Args.mitrejson args) (files w4)) as [[data|]|];
      try discriminate Hr5.
    destruct (extract_techniques data); [|discriminate Hr5].
    destruct (count_subtechniques data); discriminate Hr5. }
  rewrite H5 in Hf5. simpl in Hf5.
  (* the ranking *)
  apply proc_bind_Exited in Hb as [Hb|(z6 & w6 & H6 & Hb)];
    [now apply of_io_not_Exited in Hb|].
  apply of_io_Returned in H6.
  assert (Hz : z6 = 0).
  { unfold mitre_semantic in H6.
    repeat (apply io_bind_Ok in H6 as (? & ? & _ & H6)).
    now injection H6 as <- _. }
  subst z6.
  destruct (mitre_semantic_entries _ _ SentenceTransformer encode_corpus top_results
              _ _ _ _ _ _ _ H6)
    as (model & emb & usecases & ucs & results & _ & Hin & Hucs & Hout & Hall & Hother).
  (* the coverage *)
  apply proc_bind_Exited in Hb as [Hb|(coverage & w7 & H7 & Hb)];
    [now apply of_io_not_Exited in Hb|].
  apply of_io_Returned in H7.
  rewrite calculate_coverage_per_tactic_run in H7.
  injection H7 as H7 Hw7.
  apply proc_bind_Exited in Hb as [Hb|([] & w8 & H8 & Hb)];
    [now apply of_io_not_Exited in Hb|].
  apply of_io_Returned in H8. apply lift_Ok in H8 as [H8 ->].
  apply proc_bind_Exited in Hb as [Hb|([] & w9 & H9 & Hb)];
    [now apply of_io_not_Exited in Hb|].
  apply of_io_Returned in H9. unfold logging_info in H9. injection H9 as <-.
  unfold sys_exit in Hb. injection Hb as <-. cbn [files].
  subst w7. cbn [files].
  assert (Hfiles : forall path,
             Args.download args = false \/ path <> "enterprise-attack.json" ->
             assoc path (files w5) = assoc path (files w)).
  { intros path Hp. rewrite Hf5, Hf4, (Hf3 path Hp), Hf2, Hf1. reflexivity. }
  unfold json_load_file in Hout |- *. simpl in Hout |- *.
  destruct (assoc (Args.mitrejson args) (files w6)) as [[mitre_data|]|];
    try discriminate H7.
  destruct (assoc (Args.output args) (files w6)) as [[doc|]|];
    try discriminate Hout.
  injection Hout as ->. simpl in H7.
  exists results, mitre_data, coverage.
  split; [reflexivity|]. split; [reflexivity|]. split; [exact H7|].
  split; [exact H8|]. split.
  { intros path Hne Hp. rewrite (Hother path Hne). now apply Hfiles. }
  intros Hp. exists items. split; [reflexivity|].
  unfold json_load_file in Hin. simpl in Hin.
  rewrite (Hfiles _ Hp), Einput in Hin. injection Hin as <-.
  simpl in Hucs. injection Hucs as <-.
  clear - Hall. induction Hall as [|uc entry ucs results Hentry _ IH];
    constructor; [|exact IH].
  destruct Hentry as (name & desc & hits & ms & Hn & Hd & _ & _ & ->).
  apply (py_getitem_field _ _ JNone) in Hn, Hd. subst. split; reflexivity.
Qed.

End ShellProperties.

Lemma declined_overwrite_changes_nothing_witness :
  files (snd (main stub_model stub_encode stub_top (stub_input "n") stub_get
                stub_print shell_args written_world))
  = files written_world /\
  fst (main stub_model stub_encode stub_top (stub_input "n") stub_get
         stub_print shell_args written_world)
  = Exited 0.
Proof.
  apply (declined_overwrite_changes_nothing unit unit stub_model stub_encode
           stub_top (stub_input "n") stub_get stub_print shell_args written_world).
  - reflexivity.
  - reflexivity.
  - intros answer E. injection E as <-. discriminate.
Defined.

Lemma exit_0_means_results_written_witness :
  exists (results : list json) (mitre_data : json)
         (coverage : dict tactic_coverage),
    assoc "output.json" (files shell_world_after)
    = Some (JsonText (JArr results)) /\
    fst (json_load_file "enterprise-attack.json" shell_world_after) = Ok mitre_data /\
    calculate_coverage mitre_data (JArr results) = Ok coverage /\
    stub_print coverage = Ok tt.
Proof.
  destruct (exit_0_means_results_written unit unit stub_model stub_encode
              stub_top (stub_input "n") stub_get stub_print
              shell_args shell_world shell_world_after eq_refl eq_refl)
    as (results & mitre_data & coverage & Hout & Hcorpus & Hcov & Hprint & _).
  exists results, mitre_data, coverage. auto.
Defined.

(* ================================================================== *)
(** ** What the coverage does not depend on *)

(** The turns of a loop that ran to its end succeeded. *)
Lemma for_each_members {A S : Type} (body : S -> A -> result S) (l : list A) :
  forall s s', for_each body l s = Ok s' ->
  forall x, In x l -> exists s1 s1', body s1 x = Ok s1'.
Proof.
  induction l as [|y l IH]; simpl; intros s s' H x Hx; [contradiction|].
  apply bind_Ok in H as (s1 & Hy & H). destruct Hx as [<-|Hx]; [eauto|].
  now apply (IH _ _ H).
Qed.

(** A loop whose turns succeed on every accumulator runs to its end. *)
Lemma for_each_of_members {A S : Type} (body : S -> A -> result S) (l : list A) :
  (forall x, In x l -> forall s, exists s', body s x = Ok s') ->
  forall s, exists s', for_each body l s = Ok s'.
Proof.
  induction l as [|y l IH]; simpl; intros Hb s; [eauto|].
  destruct (Hb y (or_introl eq_refl) s) as (s1 & ->). simpl.
  apply IH. intros x Hx. apply Hb. now right.
Qed.

Lemma add_to_phases_steady (phases : list json) (v : json) (d d' d2 : defaultdict) :
  add_to_phases d phases v = Ok d' -> exists d2', add_to_phases d2 phases v = Ok d2'.
Proof.
  unfold add_to_phases. revert d d2.
  induction phases as [|ph phases IH]; simpl; intros d d2 H; [eauto|].
  apply bind_Ok in H as (d1 & H1 & H).
  unfold defaultdict_add in *.
  destruct (hashable ph) as [k|e]; simpl in *; [|discriminate].
  destruct (hashable v) as [a|e]; simpl in *; [|discriminate].
  now apply (IH d1).
Qed.

Lemma extract_matched_match_steady (mt : json) (d d' d2 : defaultdict) :
  extract_matched_match d mt = Ok d' ->
  exists d2', extract_matched_match d2 mt = Ok d2'.
Proof.
  unfold extract_matched_match. intros H.
  destruct (py_getitem mt "id") as [tid|e]; simpl in *; [|discriminate].
  destruct (py_contains "." tid) as [[|]|e]; simpl in *; [| eauto |discriminate].
  destruct (py_get mt "phases" (JArr [])) as [phases|e]; simpl in *; [|discriminate].
  destruct (py_iter phases) as [ps|e]; simpl in *; [|discriminate].
  now apply (add_to_phases_steady ps tid d d').
Qed.

(** Whether an entry of the results is read without an exception does
    not depend on the entries read before it. *)
Lemma extract_matched_entry_steady (entry : json) (d d' d2 : defaultdict) :
  extract_matched_entry d entry = Ok d' ->
  exists d2', extract_matched_entry d2 entry = Ok d2'.
Proof.
  unfold extract_matched_entry. intros H.
  destruct (py_getitem entry "matches") as [matches|e]; simpl in *; [|discriminate].
  destruct (py_iter matches) as [ms|e]; simpl in *; [|discriminate].
  apply for_each_of_members. intros mt Hmt s.
  destruct (for_each_members _ _ _ _ H mt Hmt) as (s1 & s1' & Hs).
  now apply (extract_matched_match_steady mt s1 s1').
Qed.

(** The coverage reads the matched sets through their sizes only. *)
Lemma coverage_step_sizes (matched_subs matched_subs' : defaultdict) :
  (forall t, List.length (dict_get matched_subs t [])
             = List.length (dict_get matched_subs' t [])) ->
  forall coverage item,
    coverage_step matched_subs coverage item
    = coverage_step matched_subs' coverage item.
Proof.
  intros Hs coverage [tactic total_ids]. unfold coverage_step, coverage_score, len.
  now rewrite (Hs tactic).
Qed.

Lemma coverage_loop_sizes (matched_subs matched_subs' : defaultdict)
    (total_subs : defaultdict) :
  (forall t, List.length (dict_get matched_subs t [])
             = List.length (dict_get matched_subs' t [])) ->
  forall coverage,
    for_each (coverage_step matched_subs) total_subs coverage
    = for_each (coverage_step matched_subs') total_subs coverage.
Proof.
  intros Hs. induction total_subs as [|item rest IH]; simpl; intros coverage;
    [reflexivity|].
  rewrite (coverage_step_sizes _ _ Hs).
  destruct (coverage_step matched_subs' coverage item); simpl; [apply IH|reflexivity].
Qed.

(** Pairs with the same members build sets of the same sizes. *)
Lemma dd_of_pairs_same_members (ps qs : list (atom * atom)) (t : atom) :
  (forall p, In p ps <-> In p qs) ->
  List.length (dict_get (dd_of_pairs ps) t [])
  = List.length (dict_get (dd_of_pairs qs) t []).
Proof.
  intros H. rewrite !dd_of_pairs_length.
  apply Permutation_length, NoDup_Permutation; try apply NoDup_nodup.
  intros x. rewrite !nodup_In, !in_map_iff.
  split; intros (p & Hp & Hin); exists p; (split; [exact Hp|]);
    apply filter_In in Hin as [Hin Hk]; apply filter_In; split; try exact Hk;
    now apply H.
Qed.

(** X19. The coverage depends on which entries the results hold, not on
    their order or on how often each occurs: two results documents with
    the same entries give the same coverage, and the second is read
    without an exception when the first is. *)
Theorem coverage_ignores_order_and_repeats :
  forall (mitre_data : json) (entries entries' : list json)
         (coverage : dict tactic_coverage),
    (forall entry, In entry entries <-> In entry entries') ->
    calculate_coverage mitre_data (JArr entries) = Ok coverage ->
    calculate_coverage mitre_data (JArr entries') = Ok coverage.
Proof.
  intros mitre_data entries entries' coverage Hsame H.
  unfold calculate_coverage in *.
  destruct (load_subtechniques_by_tactic mitre_data) as [total_subs|e];
    simpl in *; [|discriminate].
  apply bind_Ok in H as (matched_subs & HM & H).
  assert (HM' : exists matched_subs',
             extract_matched_subtechniques_by_tactic (JArr entries')
             = Ok matched_subs').
  { unfold extract_matched_subtechniques_by_tactic in *. simpl in *.
    apply for_each_of_members. intros entry Hin s.
    apply Hsame in Hin.
    destruct (for_each_members _ _ _ _ HM entry Hin) as (s1 & s1' & Hs).
    now apply (extract_matched_entry_steady entry s1 s1'). }
  destruct HM' as (matched_subs' & HM'). rewrite HM'. simpl.
  rewrite <- H. symmetry. apply coverage_loop_sizes. intros t.
  apply extract_matched_subtechniques_by_tactic_pairs in HM, HM'. subst.
  apply dd_of_pairs_same_members. intros p. unfold results_pairs. simpl.
  rewrite !in_flat_map.
  split; intros (entry & Hin & Hp); exists entry; (split; [|exact Hp]);
    now apply Hsame.
Qed.

Lemma coverage_ignores_order_and_repeats_witness :
  calculate_coverage execution_corpus
    (JArr [example_usecase "usecase2" [example_match "T1059" ["execution"]];
           example_usecase "usecase1" [example_match "T1059.001" ["execution"]];
           example_usecase "usecase2" [example_match "T1059" ["execution"]]])
  = Ok [(AStr "execution", execution_entry)].
Proof.
  apply (coverage_ignores_order_and_repeats execution_corpus
           [example_usecase "usecase1" [example_match "T1059.001" ["execution"]];
            example_usecase "usecase2" [example_match "T1059" ["execution"]]]).
  - intros entry. simpl. tauto.
  - reflexivity.
Defined.

Lemma comprehension_app {A B : Type} (f : A -> result (option B)) (l1 l2 : list A) :
  comprehension f (l1 ++ l2) =
  (r1 <- comprehension f l1 ;; r2 <- comprehension f l2 ;; Ok (r1 ++ r2)).
Proof.
  induction l1 as [|x l1 IH]; simpl.
  - destruct (comprehension f l2); reflexivity.
  - destruct (f x) as [[y|]|e]; simpl; [| |reflexivity].
    + rewrite IH. destruct (comprehension f l1); simpl; [|reflexivity].
      destruct (comprehension f l2); reflexivity.
    + rewrite IH. destruct (comprehension f l1); simpl; [|reflexivity].
      destruct (comprehension f l2); reflexivity.
Qed.

(** X20. An object of the corpus that is a dict but no attack-pattern
    (a tactic, a relationship, a group), or that is revoked, changes
    nothing downstream: with it or without it, [extract_techniques]
    returns the same techniques (or raises the same exception),
    [load_subtechniques_by_tactic] the same total sets, and the coverage
    is the same for every results document. *)
Theorem other_objects_are_ignored :
  forall (obj : list (string * json)),
    is_attack_pattern (JObj obj) = false \/ is_revoked (JObj obj) = true ->
    forall (corpus corpus' : list (string * json)) (before after : list json),
      assoc "objects" corpus = Some (JArr (before ++ JObj obj :: after)) ->
      assoc "objects" corpus' = Some (JArr (before ++ after)) ->
      extract_techniques (JObj corpus) = extract_techniques (JObj corpus') /\
      load_subtechniques_by_tactic (JObj corpus)
      = load_subtechniques_by_tactic (JObj corpus') /\
      forall results_data : json,
        calculate_coverage (JObj corpus) results_data
        = calculate_coverage (JObj corpus') results_data.
Proof.
  intros obj Hobj corpus corpus' before after Hc Hc'.
  assert (Hload : load_subtechniques_by_tactic (JObj corpus)
                  = load_subtechniques_by_tactic (JObj corpus')).
  { unfold load_subtechniques_by_tactic. simpl. rewrite Hc, Hc'. simpl.
    rewrite !for_each_app. simpl.
    destruct (for_each load_subtechniques_step before []) as [d|e]; simpl;
      [|reflexivity].
    replace (load_subtechniques_step d (JObj obj)) with (Ok d); [reflexivity|].
    unfold load_subtechniques_step, is_attack_pattern, is_revoked in *.
    simpl in *.
    destruct Hobj as [Hobj|Hobj]; rewrite Hobj; simpl; [reflexivity|].
    now destruct (eq_str _ "attack-pattern"). }
  split; [|split; [exact Hload|]].
  - unfold extract_techniques. simpl. rewrite Hc, Hc'. simpl.
    rewrite !comprehension_app. simpl.
    replace (extract_techniques_step (JObj obj)) with (@Ok (option json) None).
    { simpl.
      destruct (comprehension extract_techniques_step before); simpl;
        [|reflexivity].
      destruct (comprehension extract_techniques_step after); reflexivity. }
    unfold extract_techniques_step, is_attack_pattern, is_revoked in *.
    simpl in *.
    destruct Hobj as [Hobj|Hobj]; rewrite Hobj; simpl; [reflexivity|].
    now destruct (eq_str _ "attack-pattern").
  - intros results_data. unfold calculate_coverage. now rewrite Hload.
Qed.

Lemma other_objects_are_ignored_witness :
  load_subtechniques_by_tactic tactic_corpus
  = load_subtechniques_by_tactic
      (JObj [("objects", JArr [example_tactic "execution" "Execution";
                               example_subtechnique "T1059.001" ["execution"]])]).
Proof.
  exact (proj1 (proj2 (other_objects_are_ignored
                         [("type", JStr "attack-pattern");
                          ("revoked", JTrue);
                          ("x_mitre_is_subtechnique", JTrue);
                          ("external_references",
                           JArr [JObj [("external_id", JStr "T1059.002")]]);
                          ("kill_chain_phases",
                           JArr [JObj [("phase_name", JStr "execution")]])]
                         (or_intror eq_refl)
                         [("objects", JArr [example_tactic "execution" "Execution";
                                            example_subtechnique "T1059.001" ["execution"];
                                            revoked_subtechnique])]
                         [("objects", JArr [example_tactic "execution" "Execution";
                                            example_subtechnique "T1059.001" ["execution"]])]
                         [example_tactic "execution" "Execution";
                          example_subtechnique "T1059.001" ["execution"]]
                         []
                         eq_refl eq_refl))).
Defined.

(** X5. A tactic of the corpus that no dotted Match of the results names
    is still reported, with [matched = 0], a positive [total] and the
    float [coverage_percent = 0.0]. *)
Theorem unmatched_tactic_scores_zero :
  forall (mitre_data results_data : json) (coverage : dict tactic_coverage)
         (tactic : atom) (entry : tactic_coverage),
    calculate_coverage mitre_data results_data = Ok coverage ->
    dict_lookup tactic coverage = Some entry ->
    ~ In (key_of tactic) (map (fun p => key_of (fst p)) (results_pairs results_data)) ->
    matched entry = 0 /\
    0 < total entry /\
    coverage_percent entry = NFloat (S754_zero false).
Proof.
  intros mitre_data results_data coverage tactic entry H He Hnot.
  pose proof H as H'. unfold calculate_coverage in H'.
  apply bind_Ok in H' as (total_subs & HT & H').
  apply bind_Ok in H' as (matched_subs & HM & _).
  pose proof (calculate_coverage_lookup _ _ _ _ _ HT HM H tactic) as L.
  destruct (dict_lookup tactic total_subs) as [total_ids|] eqn:El; [|congruence].
  destruct L as (score & Hs & Hc). rewrite He in Hc. injection Hc as ->.
  apply load_subtechniques_by_tactic_pairs in HT.
  apply extract_matched_subtechniques_by_tactic_pairs in HM. subst.
  assert (Hempty : dict_get (dd_of_pairs (results_pairs results_data)) tactic [] = []).
  { unfold dict_get.
    destruct (dict_lookup tactic (dd_of_pairs (results_pairs results_data)))
      as [s|] eqn:Es; [|reflexivity].
    exfalso. apply Hnot.
    assert (Hk : In (key_of tactic) (keys (dd_of_pairs (results_pairs results_data)))).
    { apply dict_mem_keys. unfold dict_mem. now rewrite Es. }
    unfold dd_of_pairs in Hk. apply dd_fold_keys in Hk as [[]|Hk]. exact Hk. }
  rewrite Hempty in *. simpl.
  destruct (dd_wf_lookup _ tactic total_ids (dd_of_pairs_wf _) El) as [Hn _].
  destruct total_ids as [|x l]; [congruence|].
  split; [reflexivity|]. split.
  - unfold len. simpl List.length. lia.
  - unfold coverage_score, int_true_divide, len in Hs. simpl in Hs.
    injection Hs as <-. reflexivity.
Qed.

Lemma unmatched_tactic_scores_zero_witness :
  matched unmatched_entry = 0 /\
  0 < total unmatched_entry /\
  coverage_percent unmatched_entry = NFloat (S754_zero false).
Proof.
  apply (unmatched_tactic_scores_zero execution_corpus
           (JArr [example_usecase "usecase1" [example_match "T1059" ["execution"]]])
           [(AStr "execution", unmatched_entry)] (AStr "execution")).
  - reflexivity.
  - reflexivity.
  - simpl. tauto.
Defined.

(* ================================================================== *)
(** ** Reading back what was written *)

Lemma atoms_hashable (phases : list json) (v : json) (a : atom) :
  forallb (fun p => match p with JAtom _ => true | _ => false end) phases = true ->
  v = JAtom a ->
  forall d, exists d', add_to_phases d phases v = Ok d'.
Proof.
  intros Hp ->. unfold add_to_phases.
  induction phases as [|p phases IH]; simpl; intros d; [eauto|].
  simpl in Hp. apply andb_true_iff in Hp as [Hp Hps].
  destruct p as [k| |]; try discriminate. simpl. now apply IH.
Qed.

(** A match built from a typed technique is read without an exception. *)
Lemma built_match_is_read (techniques : list json) (m : json) :
  forallb typed_record techniques = true ->
  built_from techniques m ->
  forall d, exists d', extract_matched_match d m = Ok d'.
Proof.
  intros Ht (tech & Hin & Hid & Hph) d.
  rewrite forallb_forall in Ht. specialize (Ht _ Hin).
  unfold typed_record in Ht. rewrite <- Hid, <- Hph in Ht.
  unfold extract_matched_match.
  destruct m as [a|l|fs]; simpl in *; try discriminate.
  destruct (assoc "id" fs) as [[[| | | |tid]|l|fs']|]; try discriminate.
  simpl. destruct (occurs_in "." tid); [|eauto].
  destruct (match assoc "phases" fs with Some v => v | None => JArr [] end)
    as [a|phases|fs']; try discriminate.
  simpl. now apply (atoms_hashable phases (JStr tid) (AStr tid)).
Qed.

Lemma built_entry_is_read (techniques : list json) (entry : json) :
  forallb typed_record techniques = true ->
  built_entry techniques entry ->
  forall d, exists d', extract_matched_entry d entry = Ok d'.
Proof.
  intros Ht (u & desc & ms & -> & Hms) d.
  unfold extract_matched_entry. simpl.
  apply for_each_of_members. intros m Hm s.
  rewrite Forall_forall in Hms.
  apply (built_match_is_read techniques); [exact Ht|now apply Hms].
Qed.

Section OwnOutput.

Variables Model Embedding : Type.
Variable SentenceTransformer : string -> result Model.
Variable encode_corpus : Model -> list json -> result Embedding.
Variable top_results : Model -> Embedding -> json -> result (list (float * nat)).

(** X21. The tool reads back what it wrote: when the techniques have
    string ids and lists of hashable phases, the results [mitre_semantic]
    writes are read by [extract_matched_subtechniques_by_tactic] without
    an exception, and every id it files under a tactic is the id of one
    of the techniques whose phases include that tactic. *)
Theorem own_output_is_read_back :
  forall (input_file output_file semantic_model : string) (remove_score : bool)
         (techniques : list json) (w w' : world),
    forallb typed_record techniques = true ->
    mitre_semantic SentenceTransformer encode_corpus top_results
      input_file output_file semantic_model remove_score techniques w
    = (Ok 0, w') ->
    exists (results_data : json) (matched_subs : defaultdict),
      fst (json_load_file output_file w') = Ok results_data /\
      extract_matched_subtechniques_by_tactic results_data = Ok matched_subs /\
      forall (tactic : atom) (x : pykey),
        In x (map key_of (dict_get matched_subs tactic [])) ->
        exists tech tid phase,
          In tech techniques /\
          field "id" JNone tech = JStr tid /\
          x = KStr tid /\
          In (JAtom phase) (elements (field "phases" (JArr []) tech)) /\
          key_of phase = key_of tactic.
Proof.
  intros input_file output_file semantic_model remove_score techniques w w' Ht H.
  apply (mitre_semantic_built _ _ SentenceTransformer encode_corpus top_results)
    in H as (results & Hfile & Hb).
  assert (HM : exists matched_subs,
             extract_matched_subtechniques_by_tactic (JArr results) = Ok matched_subs).
  { unfold extract_matched_subtechniques_by_tactic. simpl.
    apply for_each_of_members. intros entry Hin s.
    rewrite Forall_forall in Hb.
    apply (built_entry_is_read techniques); [exact Ht|now apply Hb]. }
  destruct HM as (matched_subs & HM).
  exists (JArr results), matched_subs.
  split; [exact Hfile|]. split; [exact HM|].
  intros tactic x Hx.
  apply extract_matched_subtechniques_by_tactic_pairs in HM. subst matched_subs.
  unfold dd_of_pairs in Hx. apply dd_fold_elements in Hx as [[]|Hx].
  apply in_map_iff in Hx as (p & <- & Hp). apply filter_In in Hp as [Hp Hk].
  destruct (built_entries_pairs _ _ _ Hb Hp) as (tech & Hin & Hpt).
  unfold match_pairs in Hpt.
  destruct (field "id" JNone tech) as [[| | | |tid]|l|fs] eqn:Eid;
    try contradiction.
  destruct (occurs_in "." tid); [|contradiction].
  apply in_map_iff in Hpt as (phase & <- & Hphase).
  cbn [fst snd] in *. exists tech, tid, phase.
  split; [exact Hin|]. split; [exact Eid|]. split; [reflexivity|]. split.
  - unfold atoms in Hphase. apply in_flat_map in Hphase as (v & Hv & Hphase).
    destruct v as [a| |]; try contradiction. destruct Hphase as [<-|[]].
    exact Hv.
  - apply py_eqb_eq in Hk. now symmetry.
Qed.

End OwnOutput.

Lemma own_output_is_read_back_witness :
  exists (results_data : json) (matched_subs : defaultdict),
    fst (json_load_file "output.json" pipeline_world_after) = Ok results_data /\
    extract_matched_subtechniques_by_tactic results_data = Ok matched_subs.
Proof.
  destruct (own_output_is_read_back unit unit stub_model stub_encode stub_top
              "input.json" "output.json" "all-MiniLM-L6-v2" false
              pipeline_techniques stub_world pipeline_world_after
              eq_refl eq_refl)
    as (results_data & matched_subs & Hfile & Hread & _).
  exists results_data, matched_subs. auto.
Defined.

(* ================================================================== *)
(** ** A corpus the shell has accepted *)

Lemma comprehension_members {A B : Type} (f : A -> result (option B)) (l : list A)
    (r : list B) :
  comprehension f l = Ok r -> forall x, In x l -> exists o, f x = Ok o.
Proof.
  revert r. induction l as [|y l IH]; simpl; intros r H x Hx; [contradiction|].
  apply bind_Ok in H as (o & Hy & H). apply bind_Ok in H as (rest & Hrest & _).
  destruct Hx as [<-|Hx]; [eauto|]. now apply (IH rest).
Qed.

Lemma map_result_members {A B : Type} (f : A -> result B) (l : list A) (r : list B) :
  map_result f l = Ok r -> forall x, In x l -> exists y, f x = Ok y.
Proof.
  revert r. induction l as [|y l IH]; simpl; intros r H x Hx; [contradiction|].
  apply bind_Ok in H as (o & Hy & H). apply bind_Ok in H as (rest & Hrest & _).
  destruct Hx as [<-|Hx]; [eauto|]. now apply (IH rest).
Qed.

(** The phase names of phases that are dicts with hashable names. *)
Lemma phase_names_of_dicts (ps : list json) :
  (forall p, In p ps -> exists v, py_get p "phase_name" (JStr "") = Ok v) ->
  (forall p, In p ps -> exists k, hashable (field "phase_name" JNone p) = Ok k) ->
  exists phases,
    comprehension phase_name_if_present ps = Ok phases /\
    forallb (fun p => match p with JAtom _ => true | _ => false end) phases = true.
Proof.
  induction ps as [|p ps IH]; simpl; intros Hd Hh; [eauto|].
  destruct IH as (phases & -> & Hall).
  { intros q Hq. apply Hd. now right. }
  { intros q Hq. apply Hh. now right. }
  destruct (Hd p (or_introl eq_refl)) as (v & Hv).
  destruct (Hh p (or_introl eq_refl)) as (k & Hk).
  destruct p as [a|l|fs]; try discriminate Hv.
  unfold phase_name_if_present. simpl in *.
  destruct (assoc "phase_name" fs) as [name|]; simpl.
  - destruct name as [a| |]; try discriminate Hk.
    eexists. split; [reflexivity|]. simpl. exact Hall.
  - eexists. split; [reflexivity|]. exact Hall.
Qed.

(** One turn of the loader on an object the other two readers accepted. *)
Lemma load_step_of_accepted (tactics : dict json) (obj : json) :
  (exists o, extract_techniques_step obj = Ok o) ->
  (flagged_subtechnique obj = true ->
   exists count count', count_subtechnique tactics count obj = Ok count') ->
  (counted_subtechnique obj = true -> exists id, first_external_id obj = JAtom id) ->
  forall d, exists d', load_subtechniques_step d obj = Ok d'.
Proof.
  intros (o & He) Hcount Hid d.
  destruct obj as [a|l|fs]; try discriminate He.
  unfold flagged_subtechnique, counted_subtechnique, live_subtechnique,
    is_attack_pattern, is_revoked, is_subtechnique, has_reference_list,
    first_external_id, first_reference, external_references, count_subtechnique
    in Hcount, Hid.
  rewrite truthy_flag_default in Hid.
  unfold load_subtechniques_step, extract_techniques_step in *.
  simpl in *.
  destruct (eq_str _ "attack-pattern"); [|eauto]. simpl in *.
  replace (truthy match assoc "x_mitre_is_subtechnique" fs with
                  | Some v => v | None => JFalse end)
    with (truthy match assoc "x_mitre_is_subtechnique" fs with
                 | Some v => v | None => JNone end)
    by (now destruct (assoc "x_mitre_is_subtechnique" fs)).
  destruct (truthy match assoc "revoked" fs with Some v => v | None => JFalse end);
    simpl in *; [eauto|].
  destruct (truthy match assoc "x_mitre_is_subtechnique" fs with
                   | Some v => v | None => JNone end); [|eauto].
  destruct (assoc "external_references" fs) as [[a|[|x refs]|rs]|];
    simpl in *; eauto.
  { destruct a as [| b | z | f | s]; simpl; eauto. destruct b; simpl; eauto.
    - destruct (negb (z =? 0)); simpl; eauto.
    - destruct f; simpl; eauto.
    - destruct (negb (s =? "")%string); simpl; eauto. }
  2:{ destruct rs; simpl; eauto. }
  destruct x as [a|l|xfs]; try discriminate He. simpl in *.
  destruct (Hcount eq_refl) as (count & count' & Hc). clear Hcount.
  destruct (Hid eq_refl) as (id & Eid). clear Hid. rewrite Eid.
  destruct (py_iter match assoc "kill_chain_phases" fs with
                    | Some v => v | None => JArr [] end) as [ps|e];
    simpl in *; [|discriminate He].
  apply bind_Ok in He as (names & Hnames & _).
  destruct (phase_names_of_dicts ps) as (phases & -> & Hall).
  { intros p Hp. now apply (map_result_members _ _ _ Hnames). }
  { intros p Hp.
    destruct (for_each_members _ _ _ _ Hc p Hp) as (s1 & s1' & Hs).
    unfold count_phase in Hs. apply bind_Ok in Hs as (v & Hv & Hs).
    apply py_get_field in Hv. subst v.
    apply bind_Ok in Hs as (k & Hk & _). eauto. }
  simpl. now apply (atoms_hashable phases (JAtom id) id).
Qed.

(** X22. A corpus [load_mitre_techniques] has accepted is accepted by
    the coverage loader too, unless an external id is unhashable: when
    [extract_techniques] and the count of [get_total_sub_techniques]
    both succeed on a corpus, and the first external id of every counted
    sub-technique is a scalar (or absent), [load_subtechniques_by_tactic]
    returns. *)
Theorem accepted_corpus_is_loaded :
  forall (data : json) (techniques : list json) (counted : dict json * dict Z),
    extract_techniques data = Ok techniques ->
    count_subtechniques data = Ok counted ->
    (forall obj,
        In obj (corpus_objects data) -> counted_subtechnique obj = true ->
        exists id, first_external_id obj = JAtom id) ->
    exists total_subs, load_subtechniques_by_tactic data = Ok total_subs.
Proof.
  intros data techniques [tactics counts] He Hc Hid.
  unfold extract_techniques in He. unfold load_subtechniques_by_tactic.
  apply bind_Ok in He as (objects & Hobjects & He). rewrite Hobjects. simpl.
  apply bind_Ok in He as (objs & Hobjs & He). rewrite Hobjs. simpl.
  pose proof Hobjects as Hf. apply py_get_field in Hf.
  pose proof Hobjs as Hl. apply py_iter_elements in Hl. subst.
  unfold count_subtechniques in Hc.
  apply bind_Ok in Hc as (objects' & Hobjects' & Hc).
  apply (py_getitem_field _ _ (JArr [])) in Hobjects'. subst objects'.
  rewrite Hobjs in Hc. simpl in Hc.
  apply bind_Ok in Hc as (tactics' & _ & Hc).
  apply bind_Ok in Hc as (subs & Hsubs & Hc).
  apply bind_Ok in Hc as (counts' & Hcounts & Hc).
  apply kept_subtechniques in Hsubs. subst subs.
  apply for_each_of_members. intros obj Hobj d.
  apply (load_step_of_accepted tactics').
  - now apply (comprehension_members _ _ _ He).
  - intros Hflag.
    apply (for_each_members _ _ _ _ Hcounts obj).
    apply filter_In. auto.
  - intros Hcounted. apply Hid; [|exact Hcounted]. exact Hobj.
Qed.

Lemma accepted_corpus_is_loaded_witness :
  exists total_subs, load_subtechniques_by_tactic tactic_corpus = Ok total_subs.
Proof.
  apply (accepted_corpus_is_loaded tactic_corpus
           [technique_record (example_subtechnique "T1059.001" ["execution"])]
           ([(AStr "execution", JStr "Execution")], [(AStr "execution", 2)])).
  - reflexivity.
  - reflexivity.
  - intros obj [<-|[<-|[<-|[]]]] Hc; try discriminate Hc.
    eexists. reflexivity.
Defined.

(* ================================================================== *)
(** ** The download *)

Section DownloadProperties.

Variable requests_get : string -> result file_content.

(** X23. The download provides the default corpus: when it returns, it
    has written what [requests.get] received to [enterprise-attack.json]
    and to no other file, the check of that file passes, and the
    techniques loaded from it are those of the downloaded document
    (status 1 when it is no JSON, or when a reader raises on it). *)
Theorem download_provides_the_default_corpus :
  forall (w w' : world),
    download_file requests_get w = (Ok tt, w') ->
    exists response,
      requests_get "https://raw.githubusercontent.com/mitre-attack/attack-stix-data/refs/heads/master/enterprise-attack/enterprise-attack.json"
      = Ok response /\
      assoc "enterprise-attack.json" (files w') = Some response /\
      (forall path, path <> "enterprise-attack.json" ->
                    assoc path (files w') = assoc path (files w)) /\
      fst (check_mitre_json "enterprise-attack.json" w') = Returned 0 /\
      fst (load_mitre_techniques "enterprise-attack.json" w')
      = match response with
        | JsonText data =>
            match extract_techniques data, count_subtechniques data with
            | Ok techniques, Ok _ => Returned techniques
            | _, _ => Exited 1
            end
        | OtherText => Exited 1
        end.
Proof.
  intros w w' H. unfold download_file in H.
  apply io_bind_Ok in H as ([] & w1 & H1 & H). injection H1 as <-.
  apply io_bind_Ok in H as (response & w2 & H2 & H).
  apply lift_Ok in H2 as [H2 ->].
  apply io_bind_Ok in H as ([] & w3 & H3 & H).
  unfold write_file in H3. injection H3 as <-.
  unfold logging_info in H. injection H as H. subst w'.
  exists response. split; [exact H2|]. split; [reflexivity|]. split.
  - intros path Hne. cbn [files]. now apply assoc_written.
  - split; [reflexivity|].
    rewrite (proj1 (load_mitre_techniques_run "enterprise-attack.json" _)).
    reflexivity.
Qed.

End DownloadProperties.

Lemma download_provides_the_default_corpus_witness :
  exists response,
    stub_get "https://raw.githubusercontent.com/mitre-attack/attack-stix-data/refs/heads/master/enterprise-attack/enterprise-attack.json"
    = Ok response /\
    assoc "enterprise-attack.json" (files (snd (download_file stub_get stub_world)))
    = Some response /\
    fst (check_mitre_json "enterprise-attack.json"
           (snd (download_file stub_get stub_world)))
    = Returned 0.
Proof.
  destruct (download_provides_the_default_corpus stub_get stub_world
              (snd (download_file stub_get stub_world)) eq_refl)
    as (response & Hget & Hfile & _ & Hcheck & _).
  exists response. auto.
Defined.
